(** * Rails API / Postman synchronisation: the reconciliation core

    A shallow embedding of [rails_api_postman_sync.py]: the path
    normaliser, the item codec, the description merge engine, the change
    detector, the reconciler and the documentation dispatcher, followed by
    the properties established about them.

    Conventions of the embedding.
    - A Python [str] is the [string] of the bytes of its UTF-8 encoding;
      search, split and comparison act on it as they do on the text, and
      where Python counts characters ([len], [strip]) the bytes of one
      character are taken together.
    - A JSON object read with [.get(key, default)] is a record whose
      fields are [option]s: [None] is "the key is absent".
    - A Python [dict] used as a map is an association list kept in
      insertion order ([dict_set] overwrites in place, else appends).
    - [datetime.now()] is an explicit argument [now] of the renderers. *)

From Stdlib Require Import String Ascii ZArith List Bool Lia.
From Stdlib Require Import Numbers.DecimalString.
From stdpp Require Import gmap strings list.
Import ListNotations.
Open Scope string_scope.

(** ** Python string primitives *)

Module Py.

(** [s.startswith(p)] *)
Definition startswith (s p : string) : bool := String.prefix p s.

(** [s[n:]] *)
Fixpoint drop (n : nat) (s : string) : string :=
  match n, s with
  | O, _ => s
  | S _, EmptyString => EmptyString
  | S n', String _ s' => drop n' s'
  end.

(** [s[:n]] *)
Fixpoint take (n : nat) (s : string) : string :=
  match n, s with
  | O, _ => EmptyString
  | S _, EmptyString => EmptyString
  | S n', String c s' => String c (take n' s')
  end.

(** [s.endswith(suf)] *)
Definition endswith (s suf : string) : bool :=
  (String.length suf <=? String.length s)%nat
  && String.eqb (drop (String.length s - String.length suf) s) suf.

(** [s[:-n]] for [n > 0] *)
Definition chop (s : string) (n : nat) : string :=
  take (String.length s - n) s.

(** [sub in s] *)
Fixpoint contains (sub s : string) : bool :=
  String.prefix sub s
  || match s with
     | EmptyString => false
     | String _ s' => contains sub s'
     end.

(** [s.partition(sep)] when [sep] occurs in [s]: the text before and
    after the first occurrence; [None] when it does not occur. *)
Fixpoint partition (sep s : string) : option (string * string) :=
  if String.prefix sep s then Some (EmptyString, drop (String.length sep) s)
  else match s with
       | EmptyString => None
       | String c s' =>
           match partition sep s' with
           | Some (b, a) => Some (String c b, a)
           | None => None
           end
       end.

(** [s.split(sep)[0]] *)
Definition split_head (sep s : string) : string :=
  match partition sep s with
  | Some (b, _) => b
  | None => s
  end.

(** [s.split(sep, 1)], a list of one or two elements *)
Definition split1 (sep s : string) : list string :=
  match partition sep s with
  | Some (b, a) => [b; a]
  | None => [s]
  end.

(** [s.split(c)] for a one-character separator *)
Fixpoint split_char (c : ascii) (s : string) : list string :=
  match s with
  | EmptyString => [EmptyString]
  | String a s' =>
      if Ascii.eqb a c then EmptyString :: split_char c s'
      else match split_char c s' with
           | x :: r => String a x :: r
           | [] => [String a EmptyString]
           end
  end.

(** [sep.join(l)] *)
Definition join (sep : string) (l : list string) : string :=
  String.concat sep l.

(** [c.isspace()] for a character of the ASCII range: tab to carriage
    return, the four separators and the blank *)
Definition isspace (c : ascii) : bool :=
  let n := nat_of_ascii c in
  ((9 <=? n) && (n <=? 13) || (28 <=? n) && (n <=? 32))%nat.

(** the other characters [isspace] holds of, by their encoding: U+0085 and
    U+00A0 take two bytes *)
Definition isspace2 (c1 c2 : ascii) : bool :=
  let n1 := nat_of_ascii c1 in
  let n2 := nat_of_ascii c2 in
  ((n1 =? 194) && ((n2 =? 133) || (n2 =? 160)))%nat.

(** U+1680, U+2000 to U+200A, U+2028, U+2029, U+202F, U+205F and U+3000
    take three *)
Definition isspace3 (c1 c2 c3 : ascii) : bool :=
  let n1 := nat_of_ascii c1 in
  let n2 := nat_of_ascii c2 in
  let n3 := nat_of_ascii c3 in
  ((n1 =? 225) && (n2 =? 154) && (n3 =? 128)
   || (n1 =? 226) && (n2 =? 128)
      && ((128 <=? n3) && (n3 <=? 138) || (n3 =? 168) || (n3 =? 169) || (n3 =? 175))
   || (n1 =? 226) && (n2 =? 129) && (n3 =? 159)
   || (n1 =? 227) && (n2 =? 128) && (n3 =? 128))%nat.

(** [s.lstrip()] *)
Fixpoint lstrip (s : string) : string :=
  match s with
  | EmptyString => EmptyString
  | String c1 s1 =>
      if isspace c1 then lstrip s1
      else match s1 with
           | EmptyString => s
           | String c2 s2 =>
               if isspace2 c1 c2 then lstrip s2
               else match s2 with
                    | EmptyString => s
                    | String c3 s3 => if isspace3 c1 c2 c3 then lstrip s3 else s
                    end
           end
  end.

(** [s.rstrip()]: a character stays when the text from it onwards is not
    all white space *)
Fixpoint rstrip (s : string) : string :=
  match s with
  | EmptyString => EmptyString
  | String c s' =>
      if String.eqb (lstrip s) EmptyString then EmptyString else String c (rstrip s')
  end.

(** [s.strip()] *)
Definition strip (s : string) : string := rstrip (lstrip s).

(** a byte that continues a character begun earlier *)
Definition continuation (c : ascii) : bool :=
  let n := nat_of_ascii c in ((128 <=? n) && (n <=? 191))%nat.

(** [len(s)], the number of characters *)
Fixpoint len (s : string) : nat :=
  match s with
  | EmptyString => O
  | String c s' => if continuation c then len s' else S (len s')
  end.

(** truthiness of a [str] *)
Definition truthy (s : string) : bool := negb (String.eqb s EmptyString).

(** [str(n)] for an [int] *)
Definition str_of_Z (z : Z) : string := NilZero.string_of_int (Z.to_int z).

Definition str_of_nat (n : nat) : string := str_of_Z (Z.of_nat n).

(** [d.get(key, default)] *)
Definition get {A : Type} (field : option A) (default : A) : A :=
  match field with
  | Some v => v
  | None => default
  end.

(** [c.lower()] on the ASCII range *)
Definition lower_char (c : ascii) : ascii :=
  let n := nat_of_ascii c in
  if ((65 <=? n) && (n <=? 90))%nat then ascii_of_nat (n + 32) else c.

Fixpoint lower (s : string) : string :=
  match s with
  | EmptyString => EmptyString
  | String c s' => String (lower_char c) (lower s')
  end.

Fixpoint filter_chars (keep : ascii -> bool) (s : string) : string :=
  match s with
  | EmptyString => EmptyString
  | String c s' =>
      if keep c then String c (filter_chars keep s') else filter_chars keep s'
  end.

Fixpoint all_chars (p : ascii -> bool) (s : string) : bool :=
  match s with
  | EmptyString => true
  | String c s' => p c && all_chars p s'
  end.

End Py.

(** A Python [dict] with string keys, in insertion order. *)
Section Dict.
Context {A : Type}.

(** [d[k] = v] *)
Fixpoint dict_set (k : string) (v : A) (d : list (string * A)) : list (string * A) :=
  match d with
  | [] => [(k, v)]
  | (k', v') :: r =>
      if String.eqb k' k then (k', v) :: r else (k', v') :: dict_set k v r
  end.

(** [d.get(k)] *)
Fixpoint dict_get (k : string) (d : list (string * A)) : option A :=
  match d with
  | [] => None
  | (k', v') :: r => if String.eqb k' k then Some v' else dict_get k r
  end.

(** [list(d.values())] *)
Definition dict_values (d : list (string * A)) : list A := map snd d.

Definition dict_keys (d : list (string * A)) : list string := map fst d.
End Dict.

(** ** Path normaliser *)

(** The [path] attribute of [urllib.parse.urlparse(url)], following
    CPython's [urlsplit] and [urlparse]: leading control characters and
    blanks are dropped, tab, CR and LF are removed, a scheme and a
    [//authority] are split off, then the fragment, the query and (for a
    scheme that takes parameters) the [;parameters] of the last segment.
    Where the library raises [ValueError] instead (see
    [plain_authority] below) the function gives the path that these
    steps find. *)
Module Urllib.

Definition is_c0_or_space (c : ascii) : bool := (nat_of_ascii c <=? 32)%nat.

Fixpoint lstrip_c0 (s : string) : string :=
  match s with
  | EmptyString => EmptyString
  | String c s' => if is_c0_or_space c then lstrip_c0 s' else s
  end.

Definition unsafe_byte (c : ascii) : bool :=
  let n := nat_of_ascii c in ((n =? 9) || (n =? 10) || (n =? 13))%nat.

Definition is_alpha (c : ascii) : bool :=
  let n := nat_of_ascii c in
  ((65 <=? n) && (n <=? 90) || (97 <=? n) && (n <=? 122))%nat.

Definition is_digit (c : ascii) : bool :=
  let n := nat_of_ascii c in ((48 <=? n) && (n <=? 57))%nat.

(** [scheme_chars]: letters, digits and [+-.] *)
Definition scheme_char (c : ascii) : bool :=
  let n := nat_of_ascii c in
  is_alpha c || is_digit c || ((n =? 43) || (n =? 45) || (n =? 46))%nat.

Definition uses_params : list string :=
  [""; "ftp"; "hdl"; "prospero"; "http"; "imap"; "https"; "shttp"; "rtsp";
   "rtspu"; "sip"; "sips"; "mms"; "sftp"; "tel"].

(** scheme and remainder *)
Definition split_scheme (url : string) : string * string :=
  match Py.partition ":" url with
  | Some (String c0 pre, rest) =>
      if is_alpha c0 && Py.all_chars scheme_char (String c0 pre)
      then (Py.lower (String c0 pre), rest)
      else (EmptyString, url)
  | _ => (EmptyString, url)
  end.

Definition netloc_delim (c : ascii) : bool :=
  let n := nat_of_ascii c in ((n =? 47) || (n =? 63) || (n =? 35))%nat.

(** the remainder of [_splitnetloc(url, 2)], applied to [url[2:]] *)
Fixpoint skip_netloc (s : string) : string :=
  match s with
  | EmptyString => EmptyString
  | String c s' => if netloc_delim c then s else skip_netloc s'
  end.

(** [_splitparams(url)[0]] for a [url] that contains [;] *)
Fixpoint splitparams (s : string) : string :=
  match s with
  | EmptyString => EmptyString
  | String c s' =>
      if Py.contains "/" s' then String c (splitparams s')
      else Py.split_head ";" (String c s')
  end.

Definition urlparse_path (url0 : string) : string :=
  let url := Py.filter_chars (fun c => negb (unsafe_byte c)) (lstrip_c0 url0) in
  let '(scheme, url) := split_scheme url in
  let url := if String.prefix "//" url then skip_netloc (Py.drop 2 url) else url in
  let url := if Py.contains "#" url then Py.split_head "#" url else url in
  let url := if Py.contains "?" url then Py.split_head "?" url else url in
  if existsb (String.eqb scheme) uses_params && Py.contains ";" url
  then splitparams url
  else url.

(** the [netloc] that [_splitnetloc(url, 2)] cuts off [url[2:]] *)
Fixpoint take_netloc (s : string) : string :=
  match s with
  | EmptyString => EmptyString
  | String c s' => if netloc_delim c then EmptyString else String c (take_netloc s')
  end.

(** the [netloc] that [urlsplit] finds in [url0], empty when it finds none *)
Definition netloc_of (url0 : string) : string :=
  let url := Py.filter_chars (fun c => negb (unsafe_byte c)) (lstrip_c0 url0) in
  let '(_, url) := split_scheme url in
  if String.prefix "//" url then take_netloc (Py.drop 2 url) else EmptyString.

(** [urlsplit] raises [ValueError] on a [netloc] with a square bracket
    that is unmatched or encloses no address, and on a [netloc] with a
    character outside ASCII whose compatibility form holds one of
    [/?#@:]; a [netloc] of ASCII characters without square brackets is
    never rejected. *)
Definition plain_netloc_char (c : ascii) : bool :=
  let n := nat_of_ascii c in ((n <? 128) && negb ((n =? 91) || (n =? 93)))%nat.

(** a URL that [urlsplit] cannot reject *)
Definition plain_authority (url0 : string) : bool :=
  Py.all_chars plain_netloc_char (netloc_of url0).

End Urllib.

Definition format_extensions : list string :=
  [".json"; ".xml"; ".html"; ".csv"; ".pdf"; ".txt"].

(** the [for ext in format_extensions] loop of [remove_format_extension] *)
Fixpoint remove_first_extension (exts : list string) (path : string) : string :=
  match exts with
  | [] => path
  | ext :: rest =>
      if Py.endswith path ext then Py.chop path (String.length ext)
      else remove_first_extension rest path
  end.

Definition remove_format_extension (path : string) : string :=
  remove_first_extension format_extensions path.

Definition extract_clean_path_from_string (url_string : string) : string :=
  let clean_path :=
    if Py.startswith url_string "http" then Urllib.urlparse_path url_string
    else if Py.contains "?" url_string then Py.split_head "?" url_string
    else url_string in
  remove_format_extension clean_path.

Definition has_format_extension (path : string) : bool :=
  existsb (Py.endswith path) format_extensions.

(** ** JSON values and [json.dumps(value, indent=2)] *)

#[warnings="-register-all"]
Inductive json : Type :=
| JNull
| JBool (b : bool)
| JInt (z : Z)
| JStr (s : string)
| JArr (items : list json)
| JObj (members : list (string * json)).

Definition nl : string := String (ascii_of_nat 10) EmptyString.
Definition dquote : string := String (ascii_of_nat 34) EmptyString.
Definition backslash : string := String (ascii_of_nat 92) EmptyString.

Module Json.

(** truthiness of a decoded JSON value *)
Definition truthy (j : json) : bool :=
  match j with
  | JNull => false
  | JBool b => b
  | JInt z => negb (Z.eqb z 0)
  | JStr s => Py.truthy s
  | JArr l => match l with [] => false | _ => true end
  | JObj l => match l with [] => false | _ => true end
  end.

Definition hex_digit (n : nat) : string :=
  String (ascii_of_nat (if (n <? 10)%nat then 48 + n else 87 + n)) EmptyString.

(** one character of a string literal, [ensure_ascii=True] *)
Definition escape_char (c : ascii) : string :=
  let n := nat_of_ascii c in
  if (n =? 34)%nat then backslash +:+ dquote
  else if (n =? 92)%nat then backslash +:+ backslash
  else if (n =? 10)%nat then backslash +:+ "n"
  else if (n =? 13)%nat then backslash +:+ "r"
  else if (n =? 9)%nat then backslash +:+ "t"
  else if (n =? 8)%nat then backslash +:+ "b"
  else if (n =? 12)%nat then backslash +:+ "f"
  else if ((32 <=? n) && (n <=? 126))%nat then String c EmptyString
  else backslash +:+ "u00" +:+ hex_digit (n / 16) +:+ hex_digit (n mod 16).

Fixpoint escape (s : string) : string :=
  match s with
  | EmptyString => EmptyString
  | String c s' => escape_char c +:+ escape s'
  end.

Definition quote (s : string) : string := dquote +:+ escape s +:+ dquote.

Fixpoint spaces (n : nat) : string :=
  match n with
  | O => EmptyString
  | S n' => String " " (spaces n')
  end.

(** the line break that opens nesting depth [level] *)
Definition newline_indent (level : nat) : string := nl +:+ spaces (2 * level).

Fixpoint dumps_at (level : nat) (j : json) : string :=
  match j with
  | JNull => "null"
  | JBool true => "true"
  | JBool false => "false"
  | JInt z => Py.str_of_Z z
  | JStr s => quote s
  | JArr [] => "[]"
  | JArr items =>
      "[" +:+ newline_indent (S level)
      +:+ Py.join ("," +:+ newline_indent (S level)) (map (dumps_at (S level)) items)
      +:+ newline_indent level +:+ "]"
  | JObj [] => "{}"
  | JObj members =>
      "{" +:+ newline_indent (S level)
      +:+ Py.join ("," +:+ newline_indent (S level))
            (map (fun kv => quote (fst kv) +:+ ": " +:+ dumps_at (S level) (snd kv)) members)
      +:+ newline_indent level +:+ "}"
  end.

(** [json.dumps(j, indent=2)] *)
Definition dumps (j : json) : string := dumps_at 0 j.

End Json.

(** ** Data model *)

(** Endpoint descriptors, as supplied by the analysis step. *)
Record parameter : Type := {
  param_name : option string;
  param_type : option string;
  param_required : option bool;
  param_location : option string;
  param_description : option string;
  param_default : option json
}.

Record response : Type := {
  resp_status : option Z;
  resp_description : option string;
  resp_example : option json
}.

Record endpoint : Type := {
  ep_method : option string;
  ep_path : option string;
  ep_controller : option string;
  ep_action : option string;
  ep_description : option string;
  ep_parameters : option (list parameter);
  ep_responses : option (list response)
}.

Record endpoints_data : Type := {
  endpoints : option (list endpoint)
}.

(** Collection items, as stored remotely. *)
Record header : Type := {
  header_key : option string;
  header_value : option string;
  header_description : option string
}.

(** an entry of a [query] or [urlencoded] array *)
Record kv_entry : Type := {
  kv_key : option string;
  kv_value : option json;
  kv_disabled : option bool;
  kv_description : option string
}.

(** A URL object; the collection format always stores [raw]. *)
Record url_object : Type := {
  url_raw : string;
  url_path : option (list string);
  url_query : option (list kv_entry)
}.

Record body : Type := {
  body_mode : option string;
  body_raw : option string;
  body_urlencoded : option (list kv_entry);
  body_options : option json
}.

Record request : Type := {
  req_method : option string;
  req_header : option (list header);
  req_url : option url_object;
  req_body : option body;
  req_description : option string
}.

(** An item without [request] is a folder. *)
Record item : Type := {
  item_name : option string;
  item_request : option request
}.

(** the [{}] default of [item.get("request", {})] *)
Definition empty_request : request :=
  {| req_method := None; req_header := None; req_url := None;
     req_body := None; req_description := None |}.

Definition set_description (r : request) (d : string) : request :=
  {| req_method := req_method r; req_header := req_header r; req_url := req_url r;
     req_body := req_body r; req_description := Some d |}.

Definition set_body (r : request) (b : body) : request :=
  {| req_method := req_method r; req_header := req_header r; req_url := req_url r;
     req_body := Some b; req_description := req_description r |}.

(** ** Collection item codec *)

(** [p.get("location") == loc] *)
Definition at_location (loc : string) (p : parameter) : bool :=
  match param_location p with
  | Some l => String.eqb l loc
  | None => false
  end.

Definition params_at (loc : string) (parameters : list parameter) : list parameter :=
  List.filter (at_location loc) parameters.

(** truthiness of a list *)
Definition nonempty {A : Type} (l : list A) : bool :=
  match l with
  | [] => false
  | _ :: _ => true
  end.

Definition required_word (p : parameter) : string :=
  if Py.get (param_required p) false then "Required" else "Optional".

(** the line written for a query, body or form parameter *)
Definition typed_required_line (p : parameter) : string :=
  "- **" +:+ Py.get (param_name p) "" +:+ "** ("
  +:+ Py.get (param_type p) "string" +:+ ", " +:+ required_word p +:+ "): "
  +:+ Py.get (param_description p) "" +:+ nl.

Definition path_param_line (p : parameter) : string :=
  "- **" +:+ Py.get (param_name p) "" +:+ "** ("
  +:+ Py.get (param_type p) "string" +:+ "): "
  +:+ Py.get (param_description p) "" +:+ nl.

Definition header_param_line (p : parameter) : string :=
  "- **" +:+ Py.get (param_name p) "" +:+ "**: "
  +:+ Py.get (param_description p) "" +:+ nl.

(** [doc += line(x)] for each [x], in order *)
Definition concat_map {A : Type} (line : A -> string) (l : list A) : string :=
  fold_left (fun doc x => doc +:+ line x) l EmptyString.

Definition response_block (r : response) : string :=
  let example := Py.get (resp_example r) (JObj []) in
  "### " +:+ Py.str_of_Z (Py.get (resp_status r) 200%Z) +:+ " - "
  +:+ Py.get (resp_description r) "" +:+ nl +:+ nl
  +:+ (if Json.truthy example
       then "```json" +:+ nl +:+ Json.dumps example +:+ nl +:+ "```" +:+ nl +:+ nl
       else "").

Definition request_start_marker : string := "<!-- AUTO-GENERATED-REQUEST START -->".
Definition request_end_marker : string := "<!-- AUTO-GENERATED-REQUEST END -->".

Definition generate_request_documentation (e : endpoint) : string :=
  let method := Py.get (ep_method e) "GET" in
  let path := extract_clean_path_from_string (Py.get (ep_path e) "") in
  let description := Py.get (ep_description e) "" in
  let controller := Py.get (ep_controller e) "" in
  let action := Py.get (ep_action e) "" in
  let parameters := Py.get (ep_parameters e) [] in
  let responses := Py.get (ep_responses e) [] in
  let query_params := params_at "query" parameters in
  let path_params := params_at "path" parameters in
  let header_params := params_at "header" parameters in
  let body_params := params_at "body" parameters in
  let form_params := params_at "form" parameters in
  request_start_marker +:+ nl
  +:+ "# " +:+ method +:+ " " +:+ path +:+ nl +:+ nl
  +:+ (if Py.truthy description then description +:+ nl +:+ nl else "")
  +:+ (if Py.truthy controller && Py.truthy action
       then "**Controller:** `" +:+ controller +:+ "#" +:+ action +:+ "`" +:+ nl +:+ nl
       else "")
  +:+ (if nonempty parameters then
         (if nonempty query_params
          then "## Query Parameters" +:+ nl +:+ nl
               +:+ concat_map typed_required_line query_params +:+ nl
          else "")
         +:+ (if nonempty path_params
              then "## Path Parameters" +:+ nl +:+ nl
                   +:+ concat_map path_param_line path_params +:+ nl
              else "")
         +:+ (if nonempty header_params
              then "## Headers" +:+ nl +:+ nl
                   +:+ concat_map header_param_line header_params +:+ nl
              else "")
         +:+ (if nonempty body_params || nonempty form_params then
                let target_params := if nonempty body_params then body_params else form_params in
                let content_type :=
                  if nonempty body_params then "application/json"
                  else "application/x-www-form-urlencoded" in
                "## Request Body" +:+ nl +:+ nl
                +:+ "**Content-Type:** `" +:+ content_type +:+ "`" +:+ nl +:+ nl
                +:+ concat_map typed_required_line target_params +:+ nl
              else "")
       else "")
  +:+ (if nonempty responses
       then "## Responses" +:+ nl +:+ nl +:+ concat_map response_block responses
       else "")
  +:+ request_end_marker.

(** the header recorded for a header-location parameter *)
Definition header_of_param (p : parameter) : header :=
  {| header_key := Some (Py.get (param_name p) "");
     header_value := Some "";
     header_description := Some (Py.get (param_description p) "") |}.

Definition content_type_header (value : string) : header :=
  {| header_key := Some "Content-Type"; header_value := Some value;
     header_description := None |}.

(** the entry recorded for a query or form parameter *)
Definition kv_of_param (p : parameter) : kv_entry :=
  {| kv_key := Some (Py.get (param_name p) "");
     kv_value := Some (Py.get (param_default p) (JStr ""));
     kv_disabled := Some false;
     kv_description := Some (Py.get (param_description p) "") |}.

(** the value placed in the JSON body for a body parameter *)
Definition body_value (p : parameter) : json :=
  let param_type := Py.get (param_type p) "string" in
  if String.eqb param_type "string" then Py.get (param_default p) (JStr "")
  else if String.eqb param_type "integer" then Py.get (param_default p) (JInt 0)
  else if String.eqb param_type "boolean" then Py.get (param_default p) (JBool false)
  else if String.eqb param_type "array" then Py.get (param_default p) (JArr [])
  else if String.eqb param_type "object" then Py.get (param_default p) (JObj [])
  else Py.get (param_default p) (JStr "").

Definition body_object_of (body_params : list parameter) : list (string * json) :=
  fold_left (fun body_object p => dict_set (Py.get (param_name p) "") (body_value p) body_object)
            body_params [].

Definition raw_json_options : json :=
  JObj [("raw", JObj [("language", JStr "json")])].

Definition convert_endpoint_to_postman_item (e : endpoint) (include_documentation : bool) : item :=
  let method := Py.get (ep_method e) "GET" in
  let raw_path := Py.get (ep_path e) "" in
  let clean_path := extract_clean_path_from_string raw_path in
  let description := Py.get (ep_description e) "" in
  let parameters := Py.get (ep_parameters e) [] in
  let query_params := params_at "query" parameters in
  let body_params := params_at "body" parameters in
  let header_params := params_at "header" parameters in
  let form_params := params_at "form" parameters in
  let headers :=
    (map header_of_param header_params
     ++ (if nonempty body_params || nonempty form_params then
           if nonempty form_params
           then [content_type_header "application/x-www-form-urlencoded"]
           else [content_type_header "application/json"]
         else []))%list in
  let url_object :=
    {| url_raw := clean_path;
       url_path := Some (List.filter Py.truthy (Py.split_char "/" clean_path));
       url_query := if nonempty query_params
                    then Some (map kv_of_param query_params) else None |} in
  {| item_name := Some (method +:+ " " +:+ clean_path);
     item_request := Some
       {| req_method := Some method;
          req_header := Some headers;
          req_url := Some url_object;
          req_description :=
            if include_documentation then Some (generate_request_documentation e)
            else if Py.truthy description then Some description
            else None;
          req_body :=
            if nonempty body_params || nonempty form_params then
              if nonempty form_params
              then Some {| body_mode := Some "urlencoded"; body_raw := None;
                           body_urlencoded := Some (map kv_of_param form_params);
                           body_options := None |}
              else Some {| body_mode := Some "raw";
                           body_raw := Some (Json.dumps (JObj (body_object_of body_params)));
                           body_urlencoded := None;
                           body_options := Some raw_json_options |}
            else None |} |}.

(** [str({})], the text of the default of [request.get("url", {})] *)
Definition str_empty_dict : string := "{}".

Definition extract_clean_path_from_postman_url (url_obj : option url_object) : string :=
  match url_obj with
  | Some u =>
      match url_path u with
      | Some path => remove_format_extension ("/" +:+ Py.join "/" path)
      | None => extract_clean_path_from_string (url_raw u)
      end
  | None => extract_clean_path_from_string str_empty_dict
  end.

(** ** Content merge engine *)

Definition collection_start_marker : string := "<!-- AUTO-GENERATED START -->".
Definition collection_end_marker : string := "<!-- AUTO-GENERATED END -->".

Definition blank_line : string := nl +:+ nl.
Definition rule_separator : string := nl +:+ nl +:+ "---" +:+ nl +:+ nl.

Section Merge.
(** The two merge functions of the source share their text up to the
    sentinel pair and the legacy fingerprints. *)
Variables start_marker end_marker : string.
Variable looks_generated : string -> bool.

Definition manual_before_of (existing : string) : string :=
  let parts0 := Py.split_head start_marker existing in
  if Py.truthy (Py.strip parts0) then Py.strip parts0 else "".

Definition manual_after_of (existing : string) : string :=
  if Py.contains end_marker existing then
    let auto_and_after := Py.split1 end_marker existing in
    if (1 <? length auto_and_after)%nat && Py.truthy (Py.strip (nth 1 auto_and_after ""))
    then Py.strip (nth 1 auto_and_after "")
    else ""
  else "".

(** the text rebuilt around the fresh block *)
Definition rebuild (manual_before new manual_after : string) : string :=
  let result := "" in
  let result := if Py.truthy manual_before
                then result +:+ manual_before +:+ blank_line else result in
  let result := result +:+ new in
  if Py.truthy manual_after then result +:+ blank_line +:+ manual_after else result.

Definition merge_generated (existing new : string) : string :=
  if negb (Py.truthy existing) then new
  else if negb (Py.truthy new) then existing
  else if String.eqb existing new then existing
  else if Py.contains start_marker existing && Py.contains end_marker existing
  then rebuild (manual_before_of existing) new (manual_after_of existing)
  else if looks_generated existing then new
  else existing +:+ rule_separator +:+ new.
End Merge.

(** fingerprints of an unmarked, machine-written collection description *)
Definition legacy_collection_text (existing : string) : bool :=
  Py.startswith existing "# API Collection Documentation"
  || Py.contains "This collection contains" existing
  || Py.contains "Auto-generated on" existing.

(** fingerprints of an unmarked, machine-written request description *)
Definition legacy_request_text (existing : string) : bool :=
  Py.startswith existing "# GET " || Py.startswith existing "# POST "
  || Py.startswith existing "# PUT " || Py.startswith existing "# DELETE "
  || Py.contains "## Query Parameters" existing
  || Py.contains "## Request Body" existing
  || Py.contains "## Responses" existing
  || Py.contains "**Controller:**" existing.

Definition merge_descriptions (existing new : string) : string :=
  merge_generated collection_start_marker collection_end_marker
                  legacy_collection_text existing new.

Definition merge_request_descriptions (existing new : string) : string :=
  merge_generated request_start_marker request_end_marker
                  legacy_request_text existing new.

(** ** Change detector *)

Definition header_keys (hs : list header) : gset string :=
  list_to_set (map (fun h => Py.get (header_key h) "") hs).

Definition query_keys (qs : list kv_entry) : gset string :=
  list_to_set (map (fun q => Py.get (kv_key q) "") qs).

Definition headers_different (existing new : list header) : bool :=
  if negb (length existing =? length new)%nat then true
  else negb (bool_decide (header_keys existing = header_keys new)).

(** [url.get("query", [])], where an absent URL is the [{}] default *)
Definition query_of (url : option url_object) : list kv_entry :=
  match url with
  | Some u => Py.get (url_query u) []
  | None => []
  end.

Definition url_different (existing new : option url_object) : bool :=
  let existing_query := query_of existing in
  let new_query := query_of new in
  if negb (length existing_query =? length new_query)%nat then true
  else negb (bool_decide (query_keys existing_query = query_keys new_query)).

(** truthiness of [request.get("body")]: absent, or an empty object *)
Definition body_truthy (b : option body) : bool :=
  match b with
  | None => false
  | Some b =>
      match body_mode b, body_raw b, body_urlencoded b, body_options b with
      | None, None, None, None => false
      | _, _, _, _ => true
      end
  end.

Definition mode_of (b : option body) : string :=
  match b with
  | Some b => Py.get (body_mode b) ""
  | None => ""
  end.

Definition body_different (existing new : option body) : bool :=
  if negb (body_truthy existing) && negb (body_truthy new) then false
  else if negb (body_truthy existing) || negb (body_truthy new) then true
  else negb (String.eqb (mode_of existing) (mode_of new)).

(** the entry recorded for a differing axis; each stands for the
    dictionary with the matching ["action"] *)
Inductive change_entry : Type :=
| headers_updated (existing_count new_count : nat)
| url_parameters_updated
| request_body_updated
| documentation_updated (existing_length new_length : nat).

Record changes : Type := {
  has_changes : bool;
  request_changes : list (string * change_entry);
  documentation_changes : list (string * change_entry)
}.

Definition record_request_change (axis : string) (entry : change_entry) (c : changes) : changes :=
  {| has_changes := true;
     request_changes := dict_set axis entry (request_changes c);
     documentation_changes := documentation_changes c |}.

Definition record_documentation_change (entry : change_entry) (c : changes) : changes :=
  {| has_changes := true;
     request_changes := request_changes c;
     documentation_changes := dict_set "description" entry (documentation_changes c) |}.

Definition request_of (it : item) : request := Py.get (item_request it) empty_request.

Definition compare_postman_items (existing new : item) : changes :=
  let changes := {| has_changes := false; request_changes := [];
                    documentation_changes := [] |} in
  let existing_request := request_of existing in
  let new_request := request_of new in
  let existing_headers := Py.get (req_header existing_request) [] in
  let new_headers := Py.get (req_header new_request) [] in
  let changes :=
    if headers_different existing_headers new_headers
    then record_request_change "headers"
           (headers_updated (length existing_headers) (length new_headers)) changes
    else changes in
  let changes :=
    if url_different (req_url existing_request) (req_url new_request)
    then record_request_change "url" url_parameters_updated changes
    else changes in
  let changes :=
    if body_different (req_body existing_request) (req_body new_request)
    then record_request_change "body" request_body_updated changes
    else changes in
  let existing_desc := Py.get (req_description existing_request) "" in
  let new_desc := Py.get (req_description new_request) "" in
  if negb (String.eqb existing_desc new_desc)
  then record_documentation_change
         (documentation_updated (Py.len existing_desc) (Py.len new_desc))
         changes
  else changes.

Definition items_are_different (existing new : item) : bool :=
  has_changes (compare_postman_items existing new).

(** ** Preservation merge *)

Definition description_of (it : item) : string :=
  Py.get (req_description (request_of it)) "".

(** [None] is the [KeyError] raised by [merged["request"]] when the new
    item has no request. *)
Definition merge_postman_items_with_preservation (existing new : item) : option item :=
  let merged := new in
  let existing_desc := description_of existing in
  let new_desc := description_of new in
  if Py.truthy existing_desc || Py.truthy new_desc then
    match item_request merged with
    | Some r =>
        Some {| item_name := item_name merged;
                item_request :=
                  Some (set_description r (merge_request_descriptions existing_desc new_desc)) |}
    | None => None
    end
  else Some merged.

(** ** Reconciler *)

Record change_report : Type := {
  new_endpoints : list string;
  updated_endpoints : list string;
  unchanged_endpoints : list string
}.

Definition empty_report : change_report :=
  {| new_endpoints := []; updated_endpoints := []; unchanged_endpoints := [] |}.

(** the dictionary key [f"{method}:{clean_path}"] *)
Definition lookup_key (method clean_path : string) : string :=
  method +:+ ":" +:+ clean_path.

(** the reported name [f"{method} {clean_path}"] *)
Definition endpoint_label (method clean_path : string) : string :=
  method +:+ " " +:+ clean_path.

Definition request_method (r : request) : string := Py.get (req_method r) "GET".

Definition request_clean_path (r : request) : string :=
  extract_clean_path_from_postman_url (req_url r).

Definition request_key (r : request) : string :=
  lookup_key (request_method r) (request_clean_path r).

Definition endpoint_method (e : endpoint) : string := Py.get (ep_method e) "GET".

Definition endpoint_clean_path (e : endpoint) : string :=
  extract_clean_path_from_string (Py.get (ep_path e) "").

Definition endpoint_key (e : endpoint) : string :=
  lookup_key (endpoint_method e) (endpoint_clean_path e).

Definition endpoint_name (e : endpoint) : string :=
  endpoint_label (endpoint_method e) (endpoint_clean_path e).

(** "Create lookup for existing endpoints" *)
Definition add_existing (existing_lookup : list (string * item)) (it : item)
  : list (string * item) :=
  match item_request it with
  | Some r => dict_set (request_key r) it existing_lookup
  | None => existing_lookup
  end.

Definition existing_lookup_of (existing_items : list item) : list (string * item) :=
  fold_left add_existing existing_items [].

Definition reconcile_state : Type := (list (string * item) * change_report)%type.

Definition report_new (name : string) (r : change_report) : change_report :=
  {| new_endpoints := (new_endpoints r ++ [name])%list;
     updated_endpoints := updated_endpoints r;
     unchanged_endpoints := unchanged_endpoints r |}.

Definition report_updated (name : string) (r : change_report) : change_report :=
  {| new_endpoints := new_endpoints r;
     updated_endpoints := (updated_endpoints r ++ [name])%list;
     unchanged_endpoints := unchanged_endpoints r |}.

Definition report_unchanged (name : string) (r : change_report) : change_report :=
  {| new_endpoints := new_endpoints r;
     updated_endpoints := updated_endpoints r;
     unchanged_endpoints := (unchanged_endpoints r ++ [name])%list |}.

(** the candidate compared with the stored item *)
Definition candidate_item (preserve_existing_docs : bool) (existing_item new_item : item)
  : option item :=
  if preserve_existing_docs
  then merge_postman_items_with_preservation existing_item new_item
  else Some new_item.

(** one iteration of "Process new endpoints"; [None] is a raised
    exception, which the caller reports as an error. The [ValueError] of
    the URL parser is not among them: see [normalizes] and [decodes]. *)
Definition process_endpoint (include_documentation preserve_existing_docs : bool)
    (st : reconcile_state) (e : endpoint) : option reconcile_state :=
  let '(existing_lookup, report) := st in
  let key := endpoint_key e in
  let new_item := convert_endpoint_to_postman_item e include_documentation in
  match dict_get key existing_lookup with
  | Some existing_item =>
      match candidate_item preserve_existing_docs existing_item new_item with
      | Some merged_item =>
          if items_are_different existing_item merged_item
          then Some (dict_set key merged_item existing_lookup,
                     report_updated (endpoint_name e) report)
          else Some (existing_lookup, report_unchanged (endpoint_name e) report)
      | None => None
      end
  | None =>
      Some (dict_set key new_item existing_lookup, report_new (endpoint_name e) report)
  end.

Fixpoint process_endpoints (include_documentation preserve_existing_docs : bool)
    (st : reconcile_state) (es : list endpoint) : option reconcile_state :=
  match es with
  | [] => Some st
  | e :: rest =>
      match process_endpoint include_documentation preserve_existing_docs st e with
      | Some st' => process_endpoints include_documentation preserve_existing_docs st' rest
      | None => None
      end
  end.

(** The reconciliation of [smart_update_postman_collection]: from the
    fetched items and the parsed endpoint data to the item list handed to
    the write-back call and the three lists its status message prints.
    Credentials, fetch and write-back are collaborator calls around it. *)
Definition smart_update_postman_collection
    (existing_items : list item) (data : endpoints_data)
    (include_documentation preserve_existing_docs : bool)
  : option (list item * change_report) :=
  match process_endpoints include_documentation preserve_existing_docs
          (existing_lookup_of existing_items, empty_report)
          (Py.get (endpoints data) []) with
  | Some (existing_lookup, report) => Some (dict_values existing_lookup, report)
  | None => None
  end.

(** ** Collection description *)

Definition collection_line (e : endpoint) : string :=
  let desc := Py.get (ep_description e) "" in
  "- **" +:+ endpoint_method e +:+ " " +:+ endpoint_clean_path e +:+ "**"
  +:+ (if Py.truthy desc
       then " - " +:+ (if Py.contains "." desc then Py.split_head "." desc +:+ "." else desc)
       else "")
  +:+ nl.

Definition generate_collection_description (data : endpoints_data) (now : string) : string :=
  let endpoints := Py.get (endpoints data) [] in
  if negb (nonempty endpoints) then "API Documentation - No endpoints available"
  else
    collection_start_marker +:+ nl
    +:+ "# API Collection Documentation" +:+ nl +:+ nl
    +:+ "This collection contains " +:+ Py.str_of_nat (length endpoints)
    +:+ " API endpoint(s):" +:+ nl +:+ nl
    +:+ concat_map collection_line endpoints
    +:+ nl +:+ "*Auto-generated on " +:+ now +:+ "*" +:+ nl
    +:+ collection_end_marker.

(** the collection description written by the update, given the stored one *)
Definition updated_collection_description
    (stored : option string) (data : endpoints_data) (now : string)
    (include_documentation preserve_existing_docs : bool) : option string :=
  if include_documentation then
    let collection_description := generate_collection_description data now in
    let existing_desc := Py.get stored "" in
    Some (if preserve_existing_docs && Py.truthy existing_desc
          then merge_descriptions existing_desc collection_description
          else collection_description)
  else stored.

(** ** Document renderer *)

Definition table_head : string :=
  "| Name | Type | Required | Description |" +:+ nl
  +:+ "|------|------|----------|-------------|" +:+ nl.

Definition table_row (p : parameter) : string :=
  "| `" +:+ Py.get (param_name p) "" +:+ "` | `" +:+ Py.get (param_type p) "string"
  +:+ "` | " +:+ (if Py.get (param_required p) false then "‚úÖ Yes" else "‚ùå No")
  +:+ " | " +:+ Py.get (param_description p) "No description provided" +:+ " |" +:+ nl.

Definition parameter_table (title : string) (ps : list parameter) : string :=
  title +:+ nl +:+ nl +:+ table_head +:+ concat_map table_row ps +:+ nl.

Definition status_emoji (status : Z) : string :=
  if ((200 <=? status) && (status <? 300))%Z then "‚úÖ"
  else if ((400 <=? status) && (status <? 500))%Z then "‚ùå"
  else if ((500 <=? status) && (status <? 600))%Z then "üí•"
  else "‚ÑπÔ∏è".

Definition detailed_response (r : response) : string :=
  let status := Py.get (resp_status r) 200%Z in
  let example := Py.get (resp_example r) (JObj []) in
  "#### " +:+ status_emoji status +:+ " " +:+ Py.str_of_Z status +:+ " - "
  +:+ Py.get (resp_description r) "" +:+ nl +:+ nl
  +:+ (if Json.truthy example
       then "**Example Response:**" +:+ nl +:+ nl
            +:+ "```json" +:+ nl +:+ Json.dumps example +:+ nl +:+ "```" +:+ nl +:+ nl
       else "").

(** the section of endpoint number [i] out of [total] *)
Definition detailed_section (total i : nat) (e : endpoint) : string :=
  let description := Py.get (ep_description e) "" in
  let controller := Py.get (ep_controller e) "" in
  let action := Py.get (ep_action e) "" in
  let parameters := Py.get (ep_parameters e) [] in
  let query_params := params_at "query" parameters in
  let path_params := params_at "path" parameters in
  let header_params := params_at "header" parameters in
  let body_params := params_at "body" parameters in
  let form_params := params_at "form" parameters in
  let responses := Py.get (ep_responses e) [] in
  "## " +:+ Py.str_of_nat i +:+ ". " +:+ endpoint_method e +:+ " "
  +:+ endpoint_clean_path e +:+ nl +:+ nl
  +:+ (if Py.truthy description
       then "**Description:** " +:+ description +:+ nl +:+ nl else "")
  +:+ (if Py.truthy controller && Py.truthy action
       then "**Controller:** `" +:+ controller +:+ "#" +:+ action +:+ "`" +:+ nl +:+ nl
       else "")
  +:+ (if nonempty parameters then
         "### Parameters" +:+ nl +:+ nl
         +:+ (if nonempty query_params
              then parameter_table "#### Query Parameters" query_params else "")
         +:+ (if nonempty path_params
              then parameter_table "#### Path Parameters" path_params else "")
         +:+ (if nonempty header_params
              then parameter_table "#### Header Parameters" header_params else "")
         +:+ (if nonempty body_params || nonempty form_params then
                "#### Request Body" +:+ nl +:+ nl
                +:+ (if nonempty body_params
                     then parameter_table "**Content-Type:** `application/json`" body_params
                     else if nonempty form_params
                     then parameter_table
                            "**Content-Type:** `application/x-www-form-urlencoded`" form_params
                     else "")
              else "")
       else "### Parameters" +:+ nl +:+ nl +:+ "*No parameters required.*" +:+ nl +:+ nl)
  +:+ (if nonempty responses
       then "### Responses" +:+ nl +:+ nl +:+ concat_map detailed_response responses
       else "### Responses" +:+ nl +:+ nl +:+ "*No response examples available.*"
            +:+ nl +:+ nl)
  +:+ (if (i <? total)%nat then "---" +:+ nl +:+ nl else "").

(** [for i, endpoint in enumerate(endpoints, i)] *)
Fixpoint detailed_sections (total i : nat) (es : list endpoint) : string :=
  match es with
  | [] => ""
  | e :: rest => detailed_section total i e +:+ detailed_sections total (S i) rest
  end.

Definition generate_detailed_markdown (endpoints : list endpoint) (now : string) : string :=
  "# API Documentation" +:+ nl +:+ nl
  +:+ "This documentation was auto-generated from Rails controller analysis." +:+ nl +:+ nl
  +:+ "---" +:+ nl +:+ nl
  +:+ detailed_sections (length endpoints) 1 endpoints
  +:+ nl +:+ "---" +:+ nl +:+ nl
  +:+ "*Generated on " +:+ now +:+ "*" +:+ nl.

Definition compact_line (e : endpoint) : string :=
  let description := Py.get (ep_description e) "" in
  let controller := Py.get (ep_controller e) "" in
  let action := Py.get (ep_action e) "" in
  "- **" +:+ endpoint_clean_path e +:+ "**"
  +:+ (if Py.truthy description then " - " +:+ description else "")
  +:+ (if Py.truthy controller && Py.truthy action
       then " (`" +:+ controller +:+ "#" +:+ action +:+ "`)" else "")
  +:+ nl.

(** [methods_groups[method]], empty when the method is not a key *)
Definition method_group (method : string) (endpoints : list endpoint) : list endpoint :=
  List.filter (fun e => String.eqb (endpoint_method e) method) endpoints.

Definition compact_section (endpoints : list endpoint) (method : string) : string :=
  let group := method_group method endpoints in
  if negb (nonempty group) then ""
  else "## " +:+ method +:+ " Endpoints" +:+ nl +:+ nl
       +:+ concat_map compact_line group +:+ nl.

Definition generate_compact_markdown (endpoints : list endpoint) (now : string) : string :=
  "# API Endpoints" +:+ nl +:+ nl
  +:+ "Quick reference for all available API endpoints." +:+ nl +:+ nl
  +:+ concat_map (compact_section endpoints) ["GET"; "POST"; "PUT"; "PATCH"; "DELETE"]
  +:+ "*Generated on " +:+ now +:+ "*" +:+ nl.

Definition no_endpoints_document : string :=
  "# API Documentation" +:+ nl +:+ nl
  +:+ "No endpoints found in the provided data." +:+ nl.

Definition generate_markdown_docs (data : endpoints_data) (style now : string) : string :=
  let endpoints := Py.get (endpoints data) [] in
  if negb (nonempty endpoints) then no_endpoints_document
  else if String.eqb style "detailed" then generate_detailed_markdown endpoints now
  else if String.eqb style "compact" then generate_compact_markdown endpoints now
  else generate_detailed_markdown endpoints now.

(** The parsed data as a JSON value, for [json.dumps(endpoints_data)];
    present keys are listed in the order of the descriptor schema. *)
Module ToJson.

Definition member {A : Type} (key : string) (enc : A -> json) (field : option A)
  : list (string * json) :=
  match field with
  | Some v => [(key, enc v)]
  | None => []
  end.

Definition of_parameter (p : parameter) : json :=
  JObj (member "name" JStr (param_name p)
        ++ member "type" JStr (param_type p)
        ++ member "required" JBool (param_required p)
        ++ member "location" JStr (param_location p)
        ++ member "description" JStr (param_description p)
        ++ member "default" (fun j => j) (param_default p))%list.

Definition of_response (r : response) : json :=
  JObj (member "status" JInt (resp_status r)
        ++ member "description" JStr (resp_description r)
        ++ member "example" (fun j => j) (resp_example r))%list.

Definition of_endpoint (e : endpoint) : json :=
  JObj (member "method" JStr (ep_method e)
        ++ member "path" JStr (ep_path e)
        ++ member "controller" JStr (ep_controller e)
        ++ member "action" JStr (ep_action e)
        ++ member "description" JStr (ep_description e)
        ++ member "parameters" (fun ps => JArr (map of_parameter ps)) (ep_parameters e)
        ++ member "responses" (fun rs => JArr (map of_response rs)) (ep_responses e))%list.

Definition of_data (d : endpoints_data) : json :=
  JObj (member "endpoints" (fun es => JArr (map of_endpoint es)) (endpoints d)).

End ToJson.

(** The [api_data] argument after the boundary step. Endpoint data is a
    dictionary of the descriptor shape: an optional ["endpoints"] list of
    descriptor objects. A dictionary, or a decoded value, of another
    shape has no image here; the tools fail on it further on, when they
    read it. *)
Inductive api_input : Type :=
| ApiDict (data : endpoints_data)         (* a [dict] holding endpoint data *)
| ApiJsonText (data : endpoints_data)     (* a [str] that [json.loads] decodes to one *)
| ApiInvalidText (message : string)       (* a [str] on which [json.loads] raises *)
| ApiOther (type_name : string).          (* neither; [type_name] is [str(type(api_data))] *)

Definition generate_api_documentation
    (api_data : api_input) (format_type template_style now : string) : string :=
  match api_data with
  | ApiInvalidText message => "Error parsing API data: " +:+ message
  | ApiOther type_name =>
      "Error: api_data must be a JSON string or dict object, got " +:+ type_name
  | ApiDict endpoints_data | ApiJsonText endpoints_data =>
      if String.eqb format_type "markdown"
      then generate_markdown_docs endpoints_data template_style now
      else if String.eqb format_type "json"
      then Json.dumps (ToJson.of_data endpoints_data)
      else "Error: Unsupported format_type '" +:+ format_type
           +:+ "'. Use 'markdown' or 'json'."
  end.

(** ** Change preview *)

(** The result of [analyze_postman_changes]; ["documentation_changes"]
    is created empty and never filled. *)
Record preview_changes : Type := {
  preview_new : list string;
  preview_updated : list (string * changes);
  preview_unchanged : list string;
  preview_documentation : list string
}.

Definition empty_preview : preview_changes :=
  {| preview_new := []; preview_updated := []; preview_unchanged := [];
     preview_documentation := [] |}.

(** one iteration of the loop of [analyze_postman_changes]; the lookup is
    only read *)
Definition analyze_endpoint (existing_lookup : list (string * item))
    (acc : preview_changes) (e : endpoint) : preview_changes :=
  let key := endpoint_key e in
  match dict_get key existing_lookup with
  | Some existing_item =>
      let new_item := convert_endpoint_to_postman_item e true in
      let endpoint_changes := compare_postman_items existing_item new_item in
      if has_changes endpoint_changes
      then {| preview_new := preview_new acc;
              preview_updated :=
                (preview_updated acc ++ [(endpoint_name e, endpoint_changes)])%list;
              preview_unchanged := preview_unchanged acc;
              preview_documentation := preview_documentation acc |}
      else {| preview_new := preview_new acc;
              preview_updated := preview_updated acc;
              preview_unchanged := (preview_unchanged acc ++ [endpoint_name e])%list;
              preview_documentation := preview_documentation acc |}
  | None =>
      {| preview_new := (preview_new acc ++ [endpoint_name e])%list;
         preview_updated := preview_updated acc;
         preview_unchanged := preview_unchanged acc;
         preview_documentation := preview_documentation acc |}
  end.

Definition analyze_postman_changes (existing_items : list item)
    (new_endpoints_data : endpoints_data) : preview_changes :=
  fold_left (analyze_endpoint (existing_lookup_of existing_items))
            (Py.get (endpoints new_endpoints_data) []) empty_preview.

(** ** Status message and input checks of the tools *)

(** the [status_parts] of [smart_update_postman_collection] *)
Definition status_parts (report : change_report)
    (include_documentation preserve_existing_docs : bool) : list string :=
  ((if nonempty (new_endpoints report)
    then ["‚úÖ Added " +:+ Py.str_of_nat (length (new_endpoints report))
          +:+ " new endpoint(s): " +:+ Py.join ", " (new_endpoints report)]
    else [])
   ++ (if nonempty (updated_endpoints report)
       then ["üîÑ Updated " +:+ Py.str_of_nat (length (updated_endpoints report))
             +:+ " existing endpoint(s): " +:+ Py.join ", " (updated_endpoints report)]
       else [])
   ++ (if nonempty (unchanged_endpoints report)
       then ["‚ö™ " +:+ Py.str_of_nat (length (unchanged_endpoints report))
             +:+ " endpoint(s) unchanged: " +:+ Py.join ", " (unchanged_endpoints report)]
       else [])
   ++ (if include_documentation
       then ["üìö Documentation added to collection and individual requests"
             +:+ (if preserve_existing_docs
                  then " (with documentation preservation)" else "")]
       else []))%list.

Definition no_endpoints_message : string := "No endpoints found in the provided data.".

(** the text returned after a successful write-back *)
Definition status_message (report : change_report)
    (include_documentation preserve_existing_docs : bool) (collection_uid : string)
  : string :=
  let parts := status_parts report include_documentation preserve_existing_docs in
  if negb (nonempty parts) then no_endpoints_message
  else Py.join nl parts +:+ nl +:+ nl +:+ "üìã Collection UID: " +:+ collection_uid.

(** [argument or os.getenv(name)]: [None] is Python's [None] or an unset
    variable *)
Definition credential (argument environment : option string) : option string :=
  match argument with
  | Some s => if Py.truthy s then Some s else environment
  | None => environment
  end.

(** truthiness of an optional string *)
Definition provided (c : option string) : bool :=
  match c with
  | Some s => Py.truthy s
  | None => false
  end.

(** the outcome of the checks a tool makes before it fetches the
    collection *)
Inductive preflight : Type :=
| Rejected (message : string)
| Accepted (collection_uid postman_api_key : string) (data : endpoints_data).

(** [smart_update_postman_collection], up to the fetch *)
Definition update_preflight (api_data : api_input)
    (collection_uid postman_api_key env_uid env_key : option string) : preflight :=
  let collection_uid := credential collection_uid env_uid in
  let postman_api_key := credential postman_api_key env_key in
  if negb (provided collection_uid)
  then Rejected ("Error: Postman collection UID not provided. Set POSTMAN_COLLECTION_UID "
                 +:+ "environment variable or pass collection_uid parameter.")
  else if negb (provided postman_api_key)
  then Rejected ("Error: Postman API key not provided. Set POSTMAN_API_KEY "
                 +:+ "environment variable or pass postman_api_key parameter.")
  else match api_data with
       | ApiInvalidText message => Rejected ("Error parsing API data: " +:+ message)
       | ApiOther type_name =>
           Rejected ("Error: api_data must be a JSON string or dict object, got "
                     +:+ type_name)
       | ApiDict data | ApiJsonText data =>
           Accepted (Py.get collection_uid "") (Py.get postman_api_key "") data
       end.

(** [preview_postman_changes], up to the fetch *)
Definition preview_preflight (api_data : api_input)
    (collection_uid postman_api_key env_uid env_key : option string) : preflight :=
  let collection_uid := credential collection_uid env_uid in
  let postman_api_key := credential postman_api_key env_key in
  if negb (provided collection_uid) || negb (provided postman_api_key)
  then Rejected ("Error: Missing Postman credentials. Check POSTMAN_COLLECTION_UID "
                 +:+ "and POSTMAN_API_KEY environment variables.")
  else match api_data with
       | ApiInvalidText message => Rejected ("Error parsing API data: " +:+ message)
       | ApiOther _ => Rejected "Error: Invalid api_data format"
       | ApiDict data | ApiJsonText data =>
           Accepted (Py.get collection_uid "") (Py.get postman_api_key "") data
       end.

(** ** Vocabulary of the statements *)

(** [c] occurs in [s] *)
Fixpoint has_char (c : ascii) (s : string) : bool :=
  match s with
  | EmptyString => false
  | String a s' => Ascii.eqb a c || has_char c s'
  end.

Definition slash : ascii := ascii_of_nat 47.
Definition question : ascii := ascii_of_nat 63.
Definition newline : ascii := ascii_of_nat 10.

(** a path segment: not empty, no slash inside *)
Definition segment (s : string) : Prop := s <> "" /\ has_char slash s = false.

(** a path written as a slash followed by segments joined by slashes *)
Definition canonical_path (p : string) : Prop :=
  exists segs, Forall segment segs /\ p = "/" +:+ Py.join "/" segs.

(** [it] replaces what was found so far when it has a request whose key is [k] *)
Definition keep_last (k : string) (found : option item) (it : item) : option item :=
  match item_request it with
  | Some r => if String.eqb (request_key r) k then Some it else found
  | None => found
  end.

(** the last item of [items] that has a request whose key is [k] *)
Definition last_existing (k : string) (items : list item) : option item :=
  fold_left (keep_last k) items None.

(** every stored item has a request, filed under that request's key *)
Definition keys_agree (lookup : list (string * item)) : Prop :=
  Forall (fun entry => exists r, item_request (snd entry) = Some r
                                 /\ request_key r = fst entry) lookup.

(** the names of a report: new, then updated, then unchanged *)
Definition reported (r : change_report) : list string :=
  (new_endpoints r ++ updated_endpoints r ++ unchanged_endpoints r)%list.

(** the text the merge engine rebuilds around a fresh block *)
Definition around (before fresh after : string) : string :=
  (if String.eqb before "" then "" else before +:+ blank_line)
  +:+ fresh
  +:+ (if String.eqb after "" then "" else blank_line +:+ after).


(** a character allowed in the host of the URLs considered: an ASCII
    character that is no delimiter of the authority, none of the bytes
    the URL parser removes, and no square bracket *)
Definition host_char (c : ascii) : bool :=
  negb (Urllib.netloc_delim c)
  && (negb (Urllib.unsafe_byte c) && Urllib.plain_netloc_char c).

(** the normaliser returns on [url_string]: it does not hand it to the
    URL parser, or the URL parser cannot reject it *)
Definition normalizes (url_string : string) : bool :=
  negb (Py.startswith url_string "http") || Urllib.plain_authority url_string.

(** the key of a stored item is found without an error: a segment list
    is joined behind a slash and never parsed as a URL *)
Definition decodes (it : item) : bool :=
  match item_request it with
  | Some r =>
      match req_url r with
      | Some u =>
          match url_path u with
          | Some _ => true
          | None => normalizes (url_raw u)
          end
      | None => true
      end
  | None => true
  end.

(** a byte of the ASCII range *)
Definition low_byte (c : ascii) : bool := (nat_of_ascii c <? 128)%nat.

(** [s] begins with a white-space character *)
Definition begins_with_space (s : string) : bool :=
  match s with
  | EmptyString => false
  | String c1 s1 =>
      Py.isspace c1
      || match s1 with
         | EmptyString => false
         | String c2 s2 =>
             Py.isspace2 c1 c2
             || match s2 with
                | EmptyString => false
                | String c3 _ => Py.isspace3 c1 c2 c3
                end
         end
  end.

(** a generated request block: it opens with the start marker and holds
    the end marker at its end only *)
Definition closed_block (fresh : string) : Prop :=
  (exists x, Py.partition request_start_marker fresh = Some ("", x))
  /\ (exists y, Py.partition request_end_marker fresh = Some (y, "")).

(** a hand-written request description: not empty, no white space in
    front, neither marker and no legacy fingerprint *)
Definition hand_written (d : string) : Prop :=
  d <> "" /\ Py.lstrip d = d
  /\ Py.contains request_start_marker d = false
  /\ Py.contains request_end_marker d = false
  /\ legacy_request_text d = false.

(** a request description without the marker pair that carries a legacy
    fingerprint *)
Definition legacy_block (d : string) : Prop :=
  Py.contains request_start_marker d && Py.contains request_end_marker d = false
  /\ legacy_request_text d = true.

(** a request description with both markers, none of its end markers in
    front of its first start marker *)
Definition marked_in_order (d : string) : Prop :=
  Py.contains request_end_marker d = true
  /\ exists b x, Py.partition request_start_marker d = Some (b, x)
                 /\ Py.contains request_end_marker b = false.

(** the stored descriptions [d] considered for a second pass with the
    fresh description [fresh]: none, the fresh one, anything when there
    is no fresh one, a legacy block, and, when the fresh one is a
    generated block, a hand-written text or a text marked in order *)
Definition settled_shape (d fresh : string) : Prop :=
  d = "" \/ fresh = "" \/ d = fresh
  \/ legacy_block d
  \/ (closed_block fresh /\ (hand_written d \/ marked_in_order d)).

(** the body [{}] *)
Definition empty_body : body :=
  {| body_mode := None; body_raw := None; body_urlencoded := None;
     body_options := None |}.

(** a body that counts: the request has one, and it is not [{}] *)
Definition filled (b : option body) : Prop :=
  exists b', b = Some b' /\ b' <> empty_body.

(** a character allowed in the path of the URLs considered: not [?], [#]
    or [;], and none of the bytes the URL parser removes *)
Definition plain_path_char (c : ascii) : bool :=
  let n := nat_of_ascii c in
  negb ((n =? 63) || (n =? 35) || (n =? 59))%nat && negb (Urllib.unsafe_byte c).

(** the value of the last body parameter named [name] *)
Definition last_body_value (name : string) (body_params : list parameter) : option json :=
  fold_left (fun found p =>
               if String.eqb (Py.get (param_name p) "") name
               then Some (body_value p) else found) body_params None.

(** the kind of body a descriptor is encoded with: none, JSON or form *)
Definition body_kind (e : endpoint) : option string :=
  let parameters := Py.get (ep_parameters e) [] in
  if nonempty (params_at "form" parameters) then Some "urlencoded"
  else if nonempty (params_at "body" parameters) then Some "raw"
  else None.

(** the locations the codec reads: query, body, header and form *)
Definition codec_location (p : parameter) : bool :=
  at_location "query" p || at_location "body" p
  || at_location "header" p || at_location "form" p.

(** the descriptor with another parameter list *)
Definition with_parameters (e : endpoint) (ps : list parameter) : endpoint :=
  {| ep_method := ep_method e; ep_path := ep_path e; ep_controller := ep_controller e;
     ep_action := ep_action e; ep_description := ep_description e;
     ep_parameters := Some ps; ep_responses := ep_responses e |}.

(** a character of printable ASCII *)
Definition printable (c : ascii) : bool :=
  let n := nat_of_ascii c in ((32 <=? n) && (n <=? 126))%nat.

Definition printable_or_newline (c : ascii) : bool :=
  printable c || Ascii.eqb c newline.

(** the methods the compact renderer iterates over *)
Definition standard_methods : list string := ["GET"; "POST"; "PUT"; "PATCH"; "DELETE"].

Definition has_standard_method (e : endpoint) : bool :=
  existsb (String.eqb (endpoint_method e)) standard_methods.

(** the key under which the lookup files an item that has a request *)
Definition stored_key (it : item) : string := request_key (request_of it).


(** ** Sample data of the examples *)

(** a descriptor with a method and a path only *)
Definition simple_endpoint (method path : string) : endpoint :=
  {| ep_method := Some method; ep_path := Some path; ep_controller := None;
     ep_action := None; ep_description := None; ep_parameters := None;
     ep_responses := None |}.

Definition described_endpoint (method path description : string) : endpoint :=
  {| ep_method := Some method; ep_path := Some path; ep_controller := None;
     ep_action := None; ep_description := Some description; ep_parameters := None;
     ep_responses := None |}.

Definition batch (es : list endpoint) : endpoints_data := {| endpoints := Some es |}.

(** a stored request item with the given name, URL path and description *)
Definition stored_item (name method raw : string) (path : list string)
    (description : option string) : item :=
  {| item_name := Some name;
     item_request := Some
       {| req_method := Some method; req_header := Some [];
          req_url := Some {| url_raw := raw; url_path := Some path; url_query := None |};
          req_body := None; req_description := description |} |}.

(** the query parameter [page] of the listing scenario *)
Definition page_parameter : parameter :=
  {| param_name := Some "page"; param_type := Some "integer"; param_required := None;
     param_location := Some "query"; param_description := None; param_default := None |}.

Definition widgets_listing : endpoint :=
  {| ep_method := Some "GET"; ep_path := Some "/widgets"; ep_controller := None;
     ep_action := None; ep_description := None; ep_parameters := Some [page_parameter];
     ep_responses := None |}.

(** a folder: an item without a request *)
Definition folder (name : string) : item :=
  {| item_name := Some name; item_request := None |}.

(** * Properties *)

(** ** Strings *)

#[local] Arguments String.append : simpl nomatch.

Lemma append_empty_r (s : string) : s +:+ "" = s.
Proof. induction s as [|c s IH]; simpl; [reflexivity | now rewrite IH]. Qed.

Lemma append_assoc (a b c : string) : (a +:+ b) +:+ c = a +:+ (b +:+ c).
Proof. induction a as [|x a IH]; simpl; [reflexivity | now rewrite IH]. Qed.

Lemma prefix_empty (s : string) : String.prefix "" s = true.
Proof. destruct s; reflexivity. Qed.

Lemma prefix_single (c a : ascii) (s : string) :
  String.prefix (String c "") (String a s) = Ascii.eqb a c.
Proof.
  simpl. destruct (ascii_dec c a) as [->|Hne].
  - rewrite prefix_empty. symmetry. apply Ascii.eqb_refl.
  - symmetry. apply Ascii.eqb_neq. congruence.
Qed.

Lemma contains_single (c : ascii) (s : string) :
  Py.contains (String c "") s = has_char c s.
Proof.
  induction s as [|a s IH]; [reflexivity|].
  cbn [Py.contains has_char]. now rewrite prefix_single, IH.
Qed.

Lemma has_char_append (c : ascii) (a b : string) :
  has_char c (a +:+ b) = has_char c a || has_char c b.
Proof.
  induction a as [|x a IH]; simpl; [reflexivity|].
  rewrite IH. now rewrite orb_assoc.
Qed.

Lemma has_char_take (c : ascii) (n : nat) (s : string) :
  has_char c s = false -> has_char c (Py.take n s) = false.
Proof.
  revert n. induction s as [|a s IH]; intros [|n] H; simpl in *; try reflexivity.
  apply orb_false_iff in H as [Ha Hs]. rewrite Ha. simpl. now apply IH.
Qed.

Lemma partition_sound (sep s b a : string) :
  Py.partition sep s = Some (b, a) -> s = b +:+ sep +:+ a.
Proof.
  revert b a. induction s as [|c s IH]; intros b a; cbn [Py.partition].
  - destruct sep as [|x sep]; simpl; [|discriminate].
    intros [= <- <-]. reflexivity.
  - destruct (String.prefix sep (String c s)) eqn:Hp.
    + intros [= <- <-]. simpl.
      clear IH. revert Hp. generalize (String c s) as t. clear.
      induction sep as [|x sep IH]; intros t Hp; [reflexivity|].
      destruct t as [|y t]; simpl in Hp; [discriminate|].
      destruct (ascii_dec x y) as [->|]; [|discriminate].
      simpl. f_equal. now apply IH.
    + destruct (Py.partition sep s) as [[b' a']|] eqn:Hr; [|discriminate].
      intros [= <- <-]. simpl. f_equal. now apply IH.
Qed.

Lemma partition_contains (sep s : string) :
  Py.contains sep s = true <-> exists b a, Py.partition sep s = Some (b, a).
Proof.
  induction s as [|c s IH]; cbn [Py.contains Py.partition].
  - destruct (String.prefix sep "") eqn:Hp; simpl.
    + split; eauto.
    + split; [discriminate | intros (b & a & H); discriminate].
  - destruct (String.prefix sep (String c s)) eqn:Hp; simpl.
    + split; eauto.
    + rewrite IH. split.
      * intros (b & a & H). rewrite H. eauto.
      * intros (b & a & H).
        destruct (Py.partition sep s) as [[b' a']|]; [eauto | discriminate].
Qed.

(** [partition] cuts at the first occurrence: the separator starts nowhere
    inside the text before the cut *)
Lemma partition_first (sep s b a : string) :
  Py.partition sep s = Some (b, a) ->
  forall b1 b2, b = b1 +:+ b2 -> b2 <> "" ->
    String.prefix sep (b2 +:+ sep +:+ a) = false.
Proof.
  revert b. induction s as [|c s IH]; intros b; cbn [Py.partition].
  - destruct (String.prefix sep ""); [|discriminate].
    intros [= <- <-] b1 b2 Hb Hb2. destruct b1, b2; simpl in Hb; congruence.
  - destruct (String.prefix sep (String c s)) eqn:Hp.
    + intros [= <- <-] b1 b2 Hb Hb2. destruct b1, b2; simpl in Hb; congruence.
    + destruct (Py.partition sep s) as [[b' a']|] eqn:Hr; [|discriminate].
      intros [= <- <-] b1 b2 Hb Hb2.
      destruct b1 as [|x b1]; simpl in Hb.
      * subst b2. simpl. now rewrite <- (partition_sound _ _ _ _ Hr).
      * injection Hb as <- ->. now apply (IH _ eq_refl b1 b2).
Qed.

Lemma split_head_no_char (c : ascii) (s : string) :
  has_char c (Py.split_head (String c "") s) = false.
Proof.
  unfold Py.split_head.
  induction s as [|a s IH]; [reflexivity|].
  cbn [Py.partition]. rewrite prefix_single.
  destruct (Ascii.eqb a c) eqn:Hac; [reflexivity|].
  destruct (Py.partition (String c "") s) as [[b a']|] eqn:Hr; simpl.
  - rewrite Hac. exact IH.
  - rewrite Hac. exact IH.
Qed.

Lemma split_head_keeps_absent (c : ascii) (sep s : string) :
  has_char c s = false -> has_char c (Py.split_head sep s) = false.
Proof.
  unfold Py.split_head. intros H.
  destruct (Py.partition sep s) as [[b a]|] eqn:Hp; [|exact H].
  apply partition_sound in Hp. subst s.
  rewrite has_char_append in H. now apply orb_false_iff in H as [H _].
Qed.

(** ** Path normaliser *)

Lemma remove_first_extension_fixed (exts : list string) (p : string) :
  existsb (Py.endswith p) exts = false -> remove_first_extension exts p = p.
Proof.
  induction exts as [|ext exts IH]; simpl; [reflexivity|].
  intros H. apply orb_false_iff in H as [Hext Hrest].
  rewrite Hext. now apply IH.
Qed.

Lemma remove_first_extension_no_char (c : ascii) (exts : list string) (p : string) :
  has_char c p = false -> has_char c (remove_first_extension exts p) = false.
Proof.
  intros H. induction exts as [|ext exts IH]; simpl; [exact H|].
  destruct (Py.endswith p ext); [|exact IH].
  unfold Py.chop. now apply has_char_take.
Qed.

Lemma splitparams_no_char (c : ascii) (s : string) :
  has_char c s = false -> has_char c (Urllib.splitparams s) = false.
Proof.
  induction s as [|a s IH]; [reflexivity|].
  intros H. cbn [Urllib.splitparams].
  destruct (Py.contains "/" s).
  - simpl in *. apply orb_false_iff in H as [Ha Hs].
    rewrite Ha. simpl. now apply IH.
  - now apply split_head_keeps_absent.
Qed.

Lemma urlparse_path_no_query (url : string) :
  has_char question (Urllib.urlparse_path url) = false.
Proof.
  unfold Urllib.urlparse_path.
  destruct (Urllib.split_scheme _) as [scheme rest].
  set (u1 := if String.prefix "//" rest then _ else rest).
  set (u2 := if Py.contains "#" u1 then _ else u1).
  assert (Hq : has_char question
                 (if Py.contains "?" u2 then Py.split_head "?" u2 else u2) = false).
  { destruct (Py.contains "?" u2) eqn:Hc.
    - apply (split_head_no_char question).
    - now rewrite <- (contains_single question). }
  destruct (_ && _); [now apply splitparams_no_char | exact Hq].
Qed.

Lemma clean_path_no_query (x : string) :
  has_char question (extract_clean_path_from_string x) = false.
Proof.
  unfold extract_clean_path_from_string, remove_format_extension.
  apply remove_first_extension_no_char.
  destruct (Py.startswith x "http"); [apply urlparse_path_no_query|].
  destruct (Py.contains "?" x) eqn:Hc.
  - apply (split_head_no_char question).
  - now rewrite <- (contains_single question).
Qed.

(** C3, as stated: normalising twice is not always the same as normalising
    once. A path with two format suffixes loses one suffix per pass. *)
Lemma normalize_not_idempotent :
  extract_clean_path_from_string (extract_clean_path_from_string "/users.json.json")
  <> extract_clean_path_from_string "/users.json.json".
Proof. vm_compute. discriminate. Qed.

(** The same happens when the path component of a URL is itself a URL. *)
Example normalize_nested_url :
  extract_clean_path_from_string "http:http://x/y" = "http://x/y"
  /\ extract_clean_path_from_string "http://x/y" = "/y".
Proof. split; reflexivity. Qed.

(** C3, amended: normalisation is idempotent on every input whose
    normalised form carries no further format suffix and does not begin
    with "http"; on such an input the second pass changes nothing. *)
Theorem normalize_idempotent (x : string) :
  Py.startswith (extract_clean_path_from_string x) "http" = false ->
  has_format_extension (extract_clean_path_from_string x) = false ->
  extract_clean_path_from_string (extract_clean_path_from_string x)
  = extract_clean_path_from_string x.
Proof.
  intros Hhttp Hext.
  pose proof (clean_path_no_query x) as Hq.
  set (r := extract_clean_path_from_string x) in *.
  unfold extract_clean_path_from_string at 1.
  rewrite Hhttp. rewrite (contains_single question), Hq.
  now apply remove_first_extension_fixed.
Qed.

Lemma normalize_idempotent_witness :
  let x := "http://localhost:3000/api/users.json?active=true" in
  Py.startswith (extract_clean_path_from_string x) "http" = false
  /\ has_format_extension (extract_clean_path_from_string x) = false
  /\ extract_clean_path_from_string (extract_clean_path_from_string x)
     = extract_clean_path_from_string x.
Proof.
  intros x. split; [reflexivity|]. split; [reflexivity|].
  apply (normalize_idempotent x); reflexivity.
Defined.

(** ** Endpoint keys *)

Lemma split_char_no_sep (c : ascii) (x : string) :
  has_char c x = false -> Py.split_char c x = [x].
Proof.
  induction x as [|a x IH]; [reflexivity|].
  simpl. intros H. apply orb_false_iff in H as [Ha Hx].
  rewrite Ha, (IH Hx). reflexivity.
Qed.

Lemma split_char_append (c : ascii) (x rest : string) :
  has_char c x = false ->
  Py.split_char c (x +:+ String c rest) = x :: Py.split_char c rest.
Proof.
  induction x as [|a x IH]; simpl.
  - intros _. now rewrite Ascii.eqb_refl.
  - intros H. apply orb_false_iff in H as [Ha Hx].
    rewrite Ha, (IH Hx). reflexivity.
Qed.

Lemma split_char_join (segs : list string) :
  segs <> [] ->
  Forall (fun s => has_char slash s = false) segs ->
  Py.split_char slash (Py.join "/" segs) = segs.
Proof.
  induction segs as [|x segs IH]; [congruence|].
  intros _ Hall. inversion Hall as [|? ? Hx Hrest]; subst.
  destruct segs as [|y segs].
  - simpl. now apply split_char_no_sep.
  - change (Py.join "/" (x :: y :: segs))
      with (x +:+ String slash (Py.join "/" (y :: segs))).
    rewrite (split_char_append _ _ _ Hx). f_equal.
    apply IH; [congruence | exact Hrest].
Qed.

Lemma filter_truthy_segments (segs : list string) :
  Forall segment segs -> List.filter Py.truthy segs = segs.
Proof.
  induction 1 as [|x segs [Hne _] _ IH]; [reflexivity|].
  simpl. unfold Py.truthy at 1.
  destruct (String.eqb_spec x ""); [contradiction|].
  simpl. now rewrite IH.
Qed.

Lemma segments_of_canonical (segs : list string) :
  Forall segment segs ->
  List.filter Py.truthy (Py.split_char slash ("/" +:+ Py.join "/" segs)) = segs.
Proof.
  intros Hall.
  change ("/" +:+ Py.join "/" segs) with (String slash (Py.join "/" segs)).
  cbn [Py.split_char]. rewrite Ascii.eqb_refl. cbn [List.filter Py.truthy String.eqb negb].
  destruct segs as [|x segs]; [reflexivity|].
  rewrite split_char_join.
  - now apply filter_truthy_segments.
  - congruence.
  - eapply Forall_impl; [exact Hall|]. now intros s [_ Hs].
Qed.

Lemma clean_path_of_segments (p raw : string) (query : option (list kv_entry)) :
  canonical_path p ->
  has_format_extension p = false ->
  extract_clean_path_from_postman_url
    (Some {| url_raw := raw;
             url_path := Some (List.filter Py.truthy (Py.split_char "/" p));
             url_query := query |}) = p.
Proof.
  intros (segs & Hsegs & ->) Hext.
  unfold extract_clean_path_from_postman_url. cbn [url_path].
  change (Py.split_char "/") with (Py.split_char slash).
  rewrite (segments_of_canonical _ Hsegs).
  now apply remove_first_extension_fixed.
Qed.

(** C4, as stated: the key decoded from an encoded item is not always the
    key of its descriptor. The segment list drops a trailing slash, and a
    second normalisation strips a second format suffix. *)
Lemma decoded_key_differs :
  (let e := simple_endpoint "GET" "/users/" in
   request_clean_path (request_of (convert_endpoint_to_postman_item e true)) = "/users"
   /\ endpoint_clean_path e = "/users/")
  /\ (let e := simple_endpoint "GET" "/users.json.json" in
      request_clean_path (request_of (convert_endpoint_to_postman_item e true)) = "/users"
      /\ endpoint_clean_path e = "/users.json").
Proof. repeat split; reflexivity. Qed.

(** C4, amended: for every descriptor whose normalised path is a slash
    followed by non-empty segments joined by single slashes, and carries
    no further format suffix, the key decoded from its encoding is the
    descriptor's method and normalised path. *)
Theorem decoded_key_of_encoding (e : endpoint) (include_documentation : bool) :
  canonical_path (endpoint_clean_path e) ->
  has_format_extension (endpoint_clean_path e) = false ->
  exists r,
    item_request (convert_endpoint_to_postman_item e include_documentation) = Some r
    /\ request_method r = endpoint_method e
    /\ request_clean_path r = endpoint_clean_path e
    /\ request_key r = endpoint_key e.
Proof.
  intros Hcanon Hext.
  eexists. split; [reflexivity|].
  assert (Hpath : forall r,
            item_request (convert_endpoint_to_postman_item e include_documentation) = Some r ->
            request_clean_path r = endpoint_clean_path e).
  { intros r [= <-]. unfold request_clean_path. cbn [req_url].
    now apply clean_path_of_segments. }
  unfold request_key. rewrite (Hpath _ eq_refl). auto.
Qed.

Lemma decoded_key_of_encoding_witness :
  let e := simple_endpoint "GET" "/api/v1/users.json" in
  canonical_path (endpoint_clean_path e)
  /\ has_format_extension (endpoint_clean_path e) = false
  /\ exists r,
       item_request (convert_endpoint_to_postman_item e true) = Some r
       /\ request_method r = endpoint_method e
       /\ request_clean_path r = endpoint_clean_path e
       /\ request_key r = endpoint_key e.
Proof.
  intros e.
  assert (Hc : canonical_path (endpoint_clean_path e)).
  { exists ["api"; "v1"; "users"]. split; [|reflexivity].
    repeat constructor; discriminate. }
  split; [exact Hc|]. split; [reflexivity|].
  apply (decoded_key_of_encoding e true Hc). reflexivity.
Defined.

(** ** Content merge engine *)

Lemma truthy_false_iff (s : string) : Py.truthy s = false <-> s = "".
Proof.
  unfold Py.truthy. destruct (String.eqb_spec s ""); simpl; split; congruence.
Qed.

Lemma truthy_true_iff (s : string) : Py.truthy s = true <-> s <> "".
Proof.
  unfold Py.truthy. destruct (String.eqb_spec s ""); simpl; split; congruence.
Qed.

Lemma truthy_or_empty (s : string) : (if Py.truthy s then s else "") = s.
Proof.
  destruct (Py.truthy s) eqn:H; [reflexivity|].
  symmetry. now apply truthy_false_iff.
Qed.

Section MergeFacts.
Variables start_marker end_marker : string.
Variable looks_generated : string -> bool.

Local Abbreviation merge := (merge_generated start_marker end_marker looks_generated).

Lemma rebuild_around (before fresh after : string) :
  rebuild before fresh after = around before fresh after.
Proof.
  unfold rebuild, around, Py.truthy.
  destruct (String.eqb before ""), (String.eqb after ""); simpl;
    rewrite ?append_empty_r, ?append_assoc; reflexivity.
Qed.

Lemma manual_before_of_partition (existing b x : string) :
  Py.partition start_marker existing = Some (b, x) ->
  manual_before_of start_marker existing = Py.strip b.
Proof.
  intros H. unfold manual_before_of, Py.split_head. rewrite H.
  apply truthy_or_empty.
Qed.

Lemma manual_after_of_partition (existing y a : string) :
  Py.partition end_marker existing = Some (y, a) ->
  manual_after_of end_marker existing = Py.strip a.
Proof.
  intros H. unfold manual_after_of, Py.split1.
  assert (Hc : Py.contains end_marker existing = true)
    by (apply partition_contains; eauto).
  rewrite Hc, H. cbn [length nth Nat.ltb Nat.leb andb].
  apply truthy_or_empty.
Qed.

Lemma partition_of_empty (sep b a : string) :
  Py.partition sep "" = Some (b, a) -> b = "" /\ a = "".
Proof.
  cbn [Py.partition]. destruct (String.prefix sep ""); [|discriminate].
  intros [= <- <-]. split; [reflexivity|]. now destruct (String.length sep).
Qed.

(** a marked text is rebuilt around the fresh block *)
Lemma merge_generated_marked (existing new : string) :
  Py.contains start_marker existing = true ->
  Py.contains end_marker existing = true ->
  new <> "" ->
  existing <> new ->
  exists b x y a,
    existing = b +:+ start_marker +:+ x
    /\ Py.partition start_marker existing = Some (b, x)
    /\ existing = y +:+ end_marker +:+ a
    /\ Py.partition end_marker existing = Some (y, a)
    /\ merge existing new = around (Py.strip b) new (Py.strip a).
Proof.
  intros Hs He Hnew Hdiff.
  destruct (proj1 (partition_contains _ _) Hs) as (b & x & Hb).
  destruct (proj1 (partition_contains _ _) He) as (y & a & Ha).
  exists b, x, y, a.
  repeat split; auto using partition_sound.
  unfold merge_generated.
  destruct (Py.truthy existing) eqn:Hex; simpl.
  - rewrite (proj2 (truthy_true_iff new) Hnew). simpl.
    destruct (String.eqb_spec existing new); [contradiction|].
    rewrite Hs, He. simpl.
    rewrite (manual_before_of_partition _ _ _ Hb), (manual_after_of_partition _ _ _ Ha).
    apply rebuild_around.
  - apply truthy_false_iff in Hex. subst existing.
    apply partition_of_empty in Hb as [-> _].
    apply partition_of_empty in Ha as [_ ->].
    unfold around. simpl. now rewrite append_empty_r.
Qed.

(** an unmarked, hand-written text is kept in front of the fresh block *)
Lemma merge_generated_unmarked (existing new : string) :
  existing <> "" ->
  new <> "" ->
  existing <> new ->
  Py.contains start_marker existing = false ->
  Py.contains end_marker existing = false ->
  looks_generated existing = false ->
  merge existing new = existing +:+ rule_separator +:+ new.
Proof.
  intros Hex Hnew Hdiff Hs He Hl. unfold merge_generated.
  rewrite (proj2 (truthy_true_iff existing) Hex), (proj2 (truthy_true_iff new) Hnew).
  simpl. destruct (String.eqb_spec existing new); [contradiction|].
  now rewrite Hs, He, Hl.
Qed.
End MergeFacts.

(** C5, as stated: a marked text merged with an identical fresh text is
    returned as it is, not rebuilt around the fresh text. *)
Lemma merge_of_identical_marked_text :
  let existing := "Note" +:+ nl +:+ request_start_marker +:+ nl +:+ "X" +:+ nl
                  +:+ request_end_marker in
  let fresh := existing in
  Py.contains request_start_marker existing = true
  /\ Py.contains request_end_marker existing = true
  /\ fresh <> ""
  /\ Py.partition request_start_marker existing
     = Some ("Note" +:+ nl, nl +:+ "X" +:+ nl +:+ request_end_marker)
  /\ Py.partition request_end_marker existing
     = Some ("Note" +:+ nl +:+ request_start_marker +:+ nl +:+ "X" +:+ nl, "")
  /\ merge_request_descriptions existing fresh = existing
  /\ merge_request_descriptions existing fresh <> around "Note" fresh "".
Proof.
  repeat split; try reflexivity; vm_compute; discriminate.
Qed.

(** C5, amended: for every existing text containing both sentinel markers
    and every non-empty fresh text different from it, the merge takes the
    text before the first start marker and the text after the first end
    marker, trims both, and returns the former (followed by a blank line
    when not empty), the fresh text, and the latter (preceded by a blank
    line when not empty). This holds for the request-level and for the
    collection-level sentinel pair; the two examples of the specification
    follow. *)
Theorem merge_rebuilds_around_fresh_text :
  (forall existing new,
     Py.contains request_start_marker existing = true ->
     Py.contains request_end_marker existing = true ->
     new <> "" -> existing <> new ->
     exists b x y a,
       existing = b +:+ request_start_marker +:+ x
       /\ Py.partition request_start_marker existing = Some (b, x)
       /\ existing = y +:+ request_end_marker +:+ a
       /\ Py.partition request_end_marker existing = Some (y, a)
       /\ merge_request_descriptions existing new = around (Py.strip b) new (Py.strip a))
  /\ (forall existing new,
        Py.contains collection_start_marker existing = true ->
        Py.contains collection_end_marker existing = true ->
        new <> "" -> existing <> new ->
        exists b x y a,
          existing = b +:+ collection_start_marker +:+ x
          /\ Py.partition collection_start_marker existing = Some (b, x)
          /\ existing = y +:+ collection_end_marker +:+ a
          /\ Py.partition collection_end_marker existing = Some (y, a)
          /\ merge_descriptions existing new = around (Py.strip b) new (Py.strip a))
  /\ merge_request_descriptions
       (request_start_marker +:+ nl +:+ "OLDGEN" +:+ nl +:+ request_end_marker) "NEWGEN"
     = "NEWGEN"
  /\ merge_request_descriptions
       ("Manual note." +:+ nl +:+ nl +:+ request_start_marker +:+ nl +:+ "OLDGEN" +:+ nl
        +:+ request_end_marker) "NEWGEN"
     = "Manual note." +:+ nl +:+ nl +:+ "NEWGEN"
  /\ merge_descriptions
       (collection_start_marker +:+ nl +:+ "OLDGEN" +:+ nl +:+ collection_end_marker) "NEWGEN"
     = "NEWGEN"
  /\ merge_descriptions
       ("Manual note." +:+ nl +:+ nl +:+ collection_start_marker +:+ nl +:+ "OLDGEN" +:+ nl
        +:+ collection_end_marker) "NEWGEN"
     = "Manual note." +:+ nl +:+ nl +:+ "NEWGEN".
Proof.
  split; [intros; now apply merge_generated_marked|].
  split; [intros; now apply merge_generated_marked|].
  repeat split; reflexivity.
Qed.

Lemma merge_rebuilds_around_fresh_text_witness :
  let existing := "Manual note." +:+ nl +:+ nl +:+ request_start_marker +:+ nl
                  +:+ "OLDGEN" +:+ nl +:+ request_end_marker +:+ nl +:+ "Footer." in
  exists b x y a,
    existing = b +:+ request_start_marker +:+ x
    /\ Py.partition request_start_marker existing = Some (b, x)
    /\ existing = y +:+ request_end_marker +:+ a
    /\ Py.partition request_end_marker existing = Some (y, a)
    /\ merge_request_descriptions existing "NEWGEN" = around (Py.strip b) "NEWGEN" (Py.strip a).
Proof.
  intros existing.
  apply (proj1 merge_rebuilds_around_fresh_text existing "NEWGEN");
    [reflexivity | reflexivity | discriminate | discriminate].
Defined.

(** C6: for every non-empty existing text without sentinel markers and
    without legacy fingerprints, and every non-empty fresh text different
    from it, the merge returns the existing text, the horizontal-rule
    separator and the fresh text: the hand-written text is kept in full,
    in front. This holds for the request-level and for the
    collection-level merge. *)
Theorem merge_appends_to_hand_written_text (existing new : string) :
  existing <> "" -> new <> "" -> existing <> new ->
  (Py.contains request_start_marker existing = false ->
   Py.contains request_end_marker existing = false ->
   legacy_request_text existing = false ->
   merge_request_descriptions existing new
   = existing +:+ nl +:+ nl +:+ "---" +:+ nl +:+ nl +:+ new)
  /\ (Py.contains collection_start_marker existing = false ->
      Py.contains collection_end_marker existing = false ->
      legacy_collection_text existing = false ->
      merge_descriptions existing new
      = existing +:+ nl +:+ nl +:+ "---" +:+ nl +:+ nl +:+ new).
Proof.
  intros Hex Hnew Hdiff.
  split; intros Hs He Hl.
  - unfold merge_request_descriptions.
    rewrite merge_generated_unmarked by assumption. reflexivity.
  - unfold merge_descriptions.
    rewrite merge_generated_unmarked by assumption. reflexivity.
Qed.

(** The scenario of the specification: a hand-written "Do not touch." and
    the block generated for [GET /widgets]. *)
Lemma merge_appends_to_hand_written_text_witness :
  let fresh := generate_request_documentation (simple_endpoint "GET" "/widgets") in
  merge_request_descriptions "Do not touch." fresh
  = "Do not touch." +:+ nl +:+ nl +:+ "---" +:+ nl +:+ nl +:+ fresh
  /\ merge_descriptions "Do not touch." fresh
     = "Do not touch." +:+ nl +:+ nl +:+ "---" +:+ nl +:+ nl +:+ fresh.
Proof.
  intros fresh.
  assert (H1 : "Do not touch." <> "") by discriminate.
  assert (H2 : fresh <> "") by (vm_compute; discriminate).
  assert (H3 : "Do not touch." <> fresh) by (vm_compute; discriminate).
  destruct (merge_appends_to_hand_written_text "Do not touch." fresh H1 H2 H3)
    as [Hreq Hcol].
  split; [apply Hreq | apply Hcol]; reflexivity.
Defined.

(** ** Change detector *)

Lemma key_sets_equal (l1 l2 : list string) :
  (list_to_set l1 : gset string) = list_to_set l2 <-> (forall k, In k l1 <-> In k l2).
Proof.
  rewrite set_eq. split; intros H k; specialize (H k).
  - now rewrite !elem_of_list_to_set, !list_elem_of_In in H.
  - now rewrite !elem_of_list_to_set, !list_elem_of_In.
Qed.

Lemma headers_same_iff (existing new : list header) :
  headers_different existing new = false
  <-> length existing = length new
      /\ (forall k, In k (map (fun h => Py.get (header_key h) "") existing)
                    <-> In k (map (fun h => Py.get (header_key h) "") new)).
Proof.
  unfold headers_different, header_keys.
  destruct (Nat.eqb_spec (length existing) (length new)) as [Hlen|Hlen]; simpl.
  - rewrite negb_false_iff, bool_decide_eq_true, key_sets_equal. tauto.
  - split; [discriminate | tauto].
Qed.

Lemma url_same_iff (existing new : option url_object) :
  url_different existing new = false
  <-> length (query_of existing) = length (query_of new)
      /\ (forall k, In k (map (fun q => Py.get (kv_key q) "") (query_of existing))
                    <-> In k (map (fun q => Py.get (kv_key q) "") (query_of new))).
Proof.
  unfold url_different, query_keys.
  destruct (Nat.eqb_spec (length (query_of existing)) (length (query_of new)))
    as [Hlen|Hlen]; simpl.
  - rewrite negb_false_iff, bool_decide_eq_true, key_sets_equal. tauto.
  - split; [discriminate | tauto].
Qed.

Lemma body_different_table (existing new : option body) :
  body_different existing new
  = match body_truthy existing, body_truthy new with
    | false, false => false
    | true, true => negb (String.eqb (mode_of existing) (mode_of new))
    | _, _ => true
    end.
Proof.
  unfold body_different.
  destruct (body_truthy existing), (body_truthy new); reflexivity.
Qed.

Lemma body_truthy_filled (b : option body) : body_truthy b = true <-> filled b.
Proof.
  unfold filled. destruct b as [[m r u o]|]; simpl.
  - destruct m, r, u, o; simpl; split;
      first [ intros _; eexists; split; [reflexivity | discriminate]
            | reflexivity
            | discriminate
            | intros (b' & [= <-] & Hne); now contradiction Hne ].
  - split; [discriminate | intros (b' & H & _); discriminate].
Qed.

Lemma body_truthy_not_filled (b : option body) : body_truthy b = false <-> ~ filled b.
Proof.
  rewrite <- body_truthy_filled. destruct (body_truthy b); split; congruence.
Qed.

(** C7, as stated: a body that is there but empty counts as absent. Of
    two requests that differ only in that one has the body [{}] and the
    other has none, exactly one has a body, and yet the change detector
    finds no difference. *)
Lemma empty_body_counts_as_absent :
  let existing := {| item_name := Some "Ping";
                     item_request := Some (set_body empty_request empty_body) |} in
  let new := {| item_name := Some "Ping"; item_request := Some empty_request |} in
  req_body (request_of existing) = Some empty_body
  /\ req_body (request_of new) = None
  /\ body_different (req_body (request_of existing)) (req_body (request_of new)) = false
  /\ items_are_different existing new = false.
Proof. repeat split; reflexivity. Qed.

(** C7, amended: the change flag is the disjunction of the four axes,
    each evaluated on its own and each recording its own entry. Headers
    and query parameters differ when their counts or their key sets
    differ (a missing key counts as the empty key, a missing URL or query
    as no query parameters). Bodies that are both absent or empty compare
    as same, exactly one body that is neither compares as different, and
    two such bodies compare as different exactly when their modes differ
    (a missing mode counts as the empty mode). Descriptions differ when
    the strings are not equal. *)
Theorem change_flag_is_or_of_axes (existing new : item) :
  let existing_request := Py.get (item_request existing) empty_request in
  let new_request := Py.get (item_request new) empty_request in
  let existing_headers := Py.get (req_header existing_request) [] in
  let new_headers := Py.get (req_header new_request) [] in
  let existing_url := req_url existing_request in
  let new_url := req_url new_request in
  let existing_body := req_body existing_request in
  let new_body := req_body new_request in
  let existing_desc := Py.get (req_description existing_request) "" in
  let new_desc := Py.get (req_description new_request) "" in
  let query := fun url : option url_object =>
                 match url with
                 | Some u => Py.get (url_query u) []
                 | None => []
                 end in
  let mode := fun b : body => Py.get (body_mode b) "" in
  let c := compare_postman_items existing new in
  has_changes c
  = headers_different existing_headers new_headers
    || url_different existing_url new_url
    || body_different existing_body new_body
    || negb (String.eqb existing_desc new_desc)
  /\ items_are_different existing new = has_changes c
  /\ dict_get "headers" (request_changes c)
     = (if headers_different existing_headers new_headers
        then Some (headers_updated (length existing_headers) (length new_headers))
        else None)
  /\ dict_get "url" (request_changes c)
     = (if url_different existing_url new_url then Some url_parameters_updated else None)
  /\ dict_get "body" (request_changes c)
     = (if body_different existing_body new_body then Some request_body_updated else None)
  /\ dict_get "description" (documentation_changes c)
     = (if negb (String.eqb existing_desc new_desc)
        then Some (documentation_updated (Py.len existing_desc) (Py.len new_desc))
        else None)
  /\ (headers_different existing_headers new_headers = false
      <-> length existing_headers = length new_headers
          /\ (forall k, In k (map (fun h => Py.get (header_key h) "") existing_headers)
                        <-> In k (map (fun h => Py.get (header_key h) "") new_headers)))
  /\ (url_different existing_url new_url = false
      <-> length (query existing_url) = length (query new_url)
          /\ (forall k, In k (map (fun q => Py.get (kv_key q) "") (query existing_url))
                        <-> In k (map (fun q => Py.get (kv_key q) "") (query new_url))))
  /\ (~ filled existing_body -> ~ filled new_body ->
      body_different existing_body new_body = false)
  /\ (filled existing_body -> ~ filled new_body ->
      body_different existing_body new_body = true)
  /\ (~ filled existing_body -> filled new_body ->
      body_different existing_body new_body = true)
  /\ (forall b1 b2,
        existing_body = Some b1 -> new_body = Some b2 ->
        b1 <> empty_body -> b2 <> empty_body ->
        (body_different existing_body new_body = true <-> mode b1 <> mode b2))
  /\ (negb (String.eqb existing_desc new_desc) = false <-> existing_desc = new_desc).
Proof.
  intros er nr eh nh eu nu eb nb ed nd query mode c.
  assert (Hc : c = compare_postman_items existing new) by reflexivity.
  unfold compare_postman_items, request_of in Hc.
  fold er nr in Hc. fold eh nh eu nu eb nb ed nd in Hc.
  split; [|split; [reflexivity|]].
  - rewrite Hc.
    destruct (headers_different eh nh), (url_different eu nu),
             (body_different eb nb), (negb (String.eqb ed nd)); reflexivity.
  - do 4 (split; [rewrite Hc;
      destruct (headers_different eh nh), (url_different eu nu),
               (body_different eb nb), (negb (String.eqb ed nd)); reflexivity|]).
    split; [apply headers_same_iff|].
    split; [apply url_same_iff|].
    rewrite (body_different_table eb nb).
    split; [intros He Hn|split; [intros He Hn|split; [intros He Hn|split]]].
    + apply body_truthy_not_filled in He, Hn. now rewrite He, Hn.
    + apply body_truthy_filled in He. apply body_truthy_not_filled in Hn.
      now rewrite He, Hn.
    + apply body_truthy_not_filled in He. apply body_truthy_filled in Hn.
      now rewrite He, Hn.
    + intros b1 b2 He Hn H1 H2.
      assert (Hte : body_truthy eb = true)
        by (apply body_truthy_filled; exists b1; auto).
      assert (Htn : body_truthy nb = true)
        by (apply body_truthy_filled; exists b2; auto).
      rewrite Hte, Htn, He, Hn. cbn [mode_of].
      rewrite negb_true_iff. apply String.eqb_neq.
    + rewrite negb_false_iff. apply String.eqb_eq.
Qed.

(** a form body against no body, and a form body against a JSON body *)
Lemma change_flag_is_or_of_axes_witness :
  let form := convert_endpoint_to_postman_item
                {| ep_method := Some "POST"; ep_path := Some "/login";
                   ep_controller := None; ep_action := None; ep_description := None;
                   ep_parameters := Some
                     [{| param_name := Some "user"; param_type := None;
                         param_required := None; param_location := Some "form";
                         param_description := None; param_default := None |}];
                   ep_responses := None |} false in
  let bare := convert_endpoint_to_postman_item (simple_endpoint "POST" "/login") false in
  body_different (req_body (request_of form)) (req_body (request_of bare)) = true.
Proof.
  intros form bare.
  destruct (change_flag_is_or_of_axes form bare)
    as (_ & _ & _ & _ & _ & _ & _ & _ & _ & Hone & _).
  apply Hone.
  - eexists. split; [reflexivity | discriminate].
  - intros (b' & H & _). discriminate H.
Defined.

(** ** Preservation merge *)



(** the preservation merge succeeds on every encoded item *)
Lemma merge_of_encoding_succeeds
    (existing : item) (e : endpoint) (include_documentation : bool) :
  exists merged,
    merge_postman_items_with_preservation existing
      (convert_endpoint_to_postman_item e include_documentation) = Some merged.
Proof.
  unfold merge_postman_items_with_preservation.
  destruct (_ || _); eexists; reflexivity.
Qed.

Lemma candidate_of_encoding_succeeds
    (preserve_existing_docs : bool) (existing : item) (e : endpoint)
    (include_documentation : bool) :
  exists merged,
    candidate_item preserve_existing_docs existing
      (convert_endpoint_to_postman_item e include_documentation) = Some merged.
Proof.
  unfold candidate_item. destruct preserve_existing_docs.
  - apply merge_of_encoding_succeeds.
  - eexists; reflexivity.
Qed.

(** ** Dictionaries *)

Section DictFacts.
Context {A : Type}.
Implicit Types (d : list (string * A)) (k : string) (v : A).

Lemma dict_get_set_eq k v d : dict_get k (dict_set k v d) = Some v.
Proof.
  induction d as [|[k' v'] d IH]; simpl.
  - now rewrite String.eqb_refl.
  - destruct (String.eqb k' k) eqn:E; simpl; rewrite E; [reflexivity | exact IH].
Qed.

Lemma dict_get_set_ne k k' v d :
  k <> k' -> dict_get k' (dict_set k v d) = dict_get k' d.
Proof.
  intros Hne. induction d as [|[k0 v0] d IH]; simpl.
  - destruct (String.eqb_spec k k'); [contradiction | reflexivity].
  - destruct (String.eqb_spec k0 k) as [->|Hk]; simpl.
    + destruct (String.eqb_spec k k'); [contradiction | reflexivity].
    + now rewrite IH.
Qed.

Lemma dict_keys_set k v d x :
  In x (dict_keys (dict_set k v d)) <-> x = k \/ In x (dict_keys d).
Proof.
  induction d as [|[k0 v0] d IH]; simpl.
  - intuition.
  - destruct (String.eqb_spec k0 k) as [->|Hk]; simpl.
    + intuition.
    + rewrite IH. intuition.
Qed.


Lemma dict_set_fresh k v d :
  ~ In k (dict_keys d) -> dict_set k v d = (d ++ [(k, v)])%list.
Proof.
  induction d as [|[k0 v0] d IH]; simpl; [reflexivity|].
  intros Hnot. destruct (String.eqb_spec k0 k) as [->|Hk].
  - exfalso. auto.
  - f_equal. apply IH. auto.
Qed.

Lemma dict_set_nodup k v d :
  NoDup (dict_keys d) -> NoDup (dict_keys (dict_set k v d)).
Proof.
  induction d as [|[k0 v0] d IH]; simpl; intros Hnd.
  - apply NoDup_singleton.
  - apply NoDup_cons in Hnd as [Hnot Hrest].
    destruct (String.eqb_spec k0 k) as [->|Hk]; simpl.
    + now apply NoDup_cons.
    + apply NoDup_cons. split; [|now apply IH].
      rewrite list_elem_of_In, dict_keys_set. rewrite list_elem_of_In in Hnot.
      intros [->|Hin]; [congruence | contradiction].
Qed.




End DictFacts.

(** ** Reconciler: the lookup of existing items *)

Lemma add_existing_get (k : string) (lookup : list (string * item)) (it : item) :
  dict_get k (add_existing lookup it) = keep_last k (dict_get k lookup) it.
Proof.
  unfold add_existing, keep_last. destruct (item_request it) as [r|]; [|reflexivity].
  destruct (String.eqb_spec (request_key r) k) as [<-|Hne].
  - apply dict_get_set_eq.
  - now apply dict_get_set_ne.
Qed.

Lemma fold_add_existing_get (k : string) (items : list item) :
  forall lookup,
    dict_get k (fold_left add_existing items lookup)
    = fold_left (keep_last k) items (dict_get k lookup).
Proof.
  induction items as [|it items IH]; intros lookup; simpl; [reflexivity|].
  now rewrite IH, add_existing_get.
Qed.

(** the lookup holds, under each key, the last existing item with that key *)
Lemma existing_lookup_get (k : string) (items : list item) :
  dict_get k (existing_lookup_of items) = last_existing k items.
Proof. unfold existing_lookup_of. now rewrite fold_add_existing_get. Qed.

Lemma add_existing_nodup (lookup : list (string * item)) (it : item) :
  NoDup (dict_keys lookup) -> NoDup (dict_keys (add_existing lookup it)).
Proof.
  unfold add_existing. destruct (item_request it); [apply dict_set_nodup | trivial].
Qed.

Lemma existing_lookup_nodup (items : list item) :
  NoDup (dict_keys (existing_lookup_of items)).
Proof.
  unfold existing_lookup_of.
  assert (H : forall lookup, NoDup (dict_keys lookup) ->
                NoDup (dict_keys (fold_left add_existing items lookup))).
  { induction items as [|it items IH]; intros lookup Hnd; simpl; [exact Hnd|].
    apply IH. now apply add_existing_nodup. }
  apply H. apply NoDup_nil_2.
Qed.

Lemma keys_agree_set (lookup : list (string * item)) (it : item) (r : request) :
  keys_agree lookup ->
  item_request it = Some r ->
  keys_agree (dict_set (request_key r) it lookup).
Proof.
  unfold keys_agree. intros Hall Hr.
  induction lookup as [|[k0 it0] lookup IH]; simpl.
  - repeat constructor. exists r. auto.
  - apply Forall_cons in Hall as [Hhead Hrest].
    destruct (String.eqb_spec k0 (request_key r)) as [->|Hne].
    + apply Forall_cons. split; [exists r; auto | exact Hrest].
    + apply Forall_cons. split; [exact Hhead | now apply IH].
Qed.

Lemma existing_lookup_keys_agree (items : list item) :
  keys_agree (existing_lookup_of items).
Proof.
  unfold existing_lookup_of.
  assert (H : forall lookup, keys_agree lookup ->
                keys_agree (fold_left add_existing items lookup)).
  { induction items as [|it items IH]; intros lookup Hag; simpl; [exact Hag|].
    apply IH. unfold add_existing.
    destruct (item_request it) as [r|] eqn:Hr; [now apply keys_agree_set | exact Hag]. }
  apply H. constructor.
Qed.

(** a lookup whose items sit under their own keys is rebuilt from its values *)
Lemma fold_add_existing_values (tail : list (string * item)) :
  forall lookup,
    keys_agree tail ->
    NoDup (dict_keys (lookup ++ tail)) ->
    fold_left add_existing (dict_values tail) lookup = (lookup ++ tail)%list.
Proof.
  induction tail as [|[k it] tail IH]; intros lookup Hag Hnd; simpl.
  - now rewrite app_nil_r.
  - apply Forall_cons in Hag as [(r & Hr & Hk) Hag]. simpl in Hr, Hk.
    unfold add_existing at 2. rewrite Hr, Hk.
    assert (Hfresh : ~ In k (dict_keys lookup)).
    { unfold dict_keys in Hnd. rewrite map_app in Hnd. simpl in Hnd.
      apply NoDup_app in Hnd as (_ & Hdisj & _).
      intros Hin. apply (Hdisj k); [now apply list_elem_of_In | left]. }
    rewrite (dict_set_fresh _ _ _ Hfresh).
    rewrite IH; [now rewrite <- app_assoc | exact Hag |].
    now rewrite <- app_assoc.
Qed.

Lemma existing_lookup_of_values (lookup : list (string * item)) :
  keys_agree lookup ->
  NoDup (dict_keys lookup) ->
  existing_lookup_of (dict_values lookup) = lookup.
Proof.
  intros Hag Hnd. unfold existing_lookup_of.
  now rewrite fold_add_existing_values.
Qed.

Lemma keyed_items_agree (items : list item) :
  Forall (fun it => item_request it <> None) items ->
  keys_agree (map (fun it => (stored_key it, it)) items).
Proof.
  unfold keys_agree. induction 1 as [|it items Hit _ IH]; simpl; constructor; [|exact IH].
  simpl. unfold stored_key, request_of.
  destruct (item_request it) as [r|]; [|congruence]. exists r. auto.
Qed.

Lemma existing_lookup_of_keyed (items : list item) :
  Forall (fun it => item_request it <> None) items ->
  NoDup (map stored_key items) ->
  existing_lookup_of items = map (fun it => (stored_key it, it)) items.
Proof.
  intros Hreq Hnd.
  set (lookup := map (fun it => (stored_key it, it)) items).
  assert (Hvalues : dict_values lookup = items).
  { subst lookup. unfold dict_values. rewrite map_map. simpl. apply map_id. }
  rewrite <- Hvalues at 1. apply existing_lookup_of_values.
  - now apply keyed_items_agree.
  - subst lookup. unfold dict_keys. now rewrite map_map.
Qed.



(** ** Reconciler: one descriptor *)

(** the three outcomes of processing one descriptor *)
Lemma process_endpoint_cases
    (include_documentation preserve_existing_docs : bool)
    (lookup : list (string * item)) (report : change_report) (e : endpoint) :
  let key := endpoint_key e in
  let new_item := convert_endpoint_to_postman_item e include_documentation in
  (dict_get key lookup = None
   /\ process_endpoint include_documentation preserve_existing_docs (lookup, report) e
      = Some (dict_set key new_item lookup, report_new (endpoint_name e) report))
  \/ (exists old merged,
        dict_get key lookup = Some old
        /\ candidate_item preserve_existing_docs old new_item = Some merged
        /\ items_are_different old merged = true
        /\ process_endpoint include_documentation preserve_existing_docs (lookup, report) e
           = Some (dict_set key merged lookup, report_updated (endpoint_name e) report))
  \/ (exists old merged,
        dict_get key lookup = Some old
        /\ candidate_item preserve_existing_docs old new_item = Some merged
        /\ items_are_different old merged = false
        /\ process_endpoint include_documentation preserve_existing_docs (lookup, report) e
           = Some (lookup, report_unchanged (endpoint_name e) report)).
Proof.
  intros key new_item. unfold process_endpoint. fold key new_item.
  destruct (dict_get key lookup) as [old|] eqn:Hget; [|left; auto].
  right.
  destruct (candidate_of_encoding_succeeds preserve_existing_docs old e
              include_documentation) as [merged Hm].
  fold new_item in Hm. rewrite Hm.
  destruct (items_are_different old merged) eqn:Hd.
  - left. exists old, merged. auto.
  - right. exists old, merged. auto.
Qed.

(** C2, as stated: an unchanged classification does not overwrite the
    mapping entry. The stored item, renamed by hand, compares as
    unchanged against the regenerated candidate and stays in the output;
    the candidate, which differs from it, is dropped. *)
Lemma unchanged_item_is_not_replaced :
  let e := simple_endpoint "GET" "/users" in
  let candidate := convert_endpoint_to_postman_item e true in
  let stored := {| item_name := Some "List users (renamed by hand)";
                   item_request := item_request candidate |} in
  dict_get (endpoint_key e) (existing_lookup_of [stored]) = Some stored
  /\ candidate_item true stored candidate = Some candidate
  /\ items_are_different stored candidate = false
  /\ stored <> candidate
  /\ smart_update_postman_collection [stored] (batch [e]) true true
     = Some ([stored],
             {| new_endpoints := []; updated_endpoints := [];
                unchanged_endpoints := ["GET /users"] |}).
Proof.
  repeat split; try reflexivity. vm_compute. discriminate.
Qed.

(** C2, amended: whenever a descriptor's key matches a stored item, the
    mapping entry is overwritten with the candidate only under the
    updated classification; when the change detector reports no changes
    the mapping is left as it is, so the stored item stays in place, and
    the descriptor is reported as unchanged. *)
Theorem unchanged_keeps_stored_item
    (include_documentation preserve_existing_docs : bool)
    (lookup : list (string * item)) (report : change_report)
    (e : endpoint) (old merged : item) :
  dict_get (endpoint_key e) lookup = Some old ->
  candidate_item preserve_existing_docs old
    (convert_endpoint_to_postman_item e include_documentation) = Some merged ->
  (items_are_different old merged = false ->
   process_endpoint include_documentation preserve_existing_docs (lookup, report) e
   = Some (lookup, report_unchanged (endpoint_name e) report))
  /\ (items_are_different old merged = true ->
      process_endpoint include_documentation preserve_existing_docs (lookup, report) e
      = Some (dict_set (endpoint_key e) merged lookup,
              report_updated (endpoint_name e) report)
      /\ dict_get (endpoint_key e) (dict_set (endpoint_key e) merged lookup) = Some merged).
Proof.
  intros Hget Hm. unfold process_endpoint. rewrite Hget, Hm.
  split; intros ->; [reflexivity|].
  split; [reflexivity | apply dict_get_set_eq].
Qed.

Lemma unchanged_keeps_stored_item_witness :
  let e := simple_endpoint "GET" "/users" in
  let candidate := convert_endpoint_to_postman_item e true in
  let stored := {| item_name := Some "List users (renamed by hand)";
                   item_request := item_request candidate |} in
  process_endpoint true true ([(endpoint_key e, stored)], empty_report) e
  = Some ([(endpoint_key e, stored)], report_unchanged (endpoint_name e) empty_report).
Proof.
  intros e candidate stored.
  apply (proj1 (unchanged_keeps_stored_item true true [(endpoint_key e, stored)]
                  empty_report e stored candidate eq_refl eq_refl)).
  reflexivity.
Defined.

(** ** Reconciler: a batch *)






(** Items that the lookup does not hold are not written back, although
    the write-back is commented "Update collection with all items": a
    folder, which has no request, is left out, and of two stored items
    with the same key only the later one is kept. *)
Lemma existing_items_can_be_dropped :
  let first := stored_item "List users" "GET" "/users" ["users"] None in
  let second := stored_item "List users (copy)" "GET" "/users" ["users"] None in
  let admin := folder "Admin" in
  let e := simple_endpoint "GET" "/orders" in
  item_request first <> None
  /\ request_key (request_of first) <> endpoint_key e
  /\ exists items report,
       smart_update_postman_collection [first; admin; second] (batch [e]) true true
       = Some (items, report)
       /\ items = [second; convert_endpoint_to_postman_item e true]
       /\ ~ In first items
       /\ ~ In admin items.
Proof.
  simpl. split; [discriminate|]. split; [vm_compute; discriminate|].
  do 2 eexists. split; [reflexivity|]. split; [reflexivity|].
  split; intros [H|[H|[]]]; vm_compute in H; discriminate.
Qed.




(** ** Reconciler: a second pass *)

Lemma headers_different_refl (hs : list header) : headers_different hs hs = false.
Proof.
  unfold headers_different. rewrite Nat.eqb_refl. simpl.
  now rewrite bool_decide_eq_true_2.
Qed.

Lemma url_different_refl (u : option url_object) : url_different u u = false.
Proof.
  unfold url_different. rewrite Nat.eqb_refl. simpl.
  now rewrite bool_decide_eq_true_2.
Qed.

Lemma body_different_refl (b : option body) : body_different b b = false.
Proof.
  unfold body_different. destruct (body_truthy b); simpl; [|reflexivity].
  now rewrite String.eqb_refl.
Qed.

(** items that agree on the four compared axes are not different *)
Lemma same_axes_not_different (a b : item) :
  req_header (request_of a) = req_header (request_of b) ->
  req_url (request_of a) = req_url (request_of b) ->
  req_body (request_of a) = req_body (request_of b) ->
  description_of a = description_of b ->
  items_are_different a b = false.
Proof.
  unfold items_are_different, compare_postman_items, description_of.
  intros -> -> -> ->.
  now rewrite headers_different_refl, url_different_refl, body_different_refl,
    String.eqb_refl.
Qed.

Lemma merge_generated_same (sm em : string) (lg : string -> bool) (s : string) :
  merge_generated sm em lg s s = s.
Proof.
  unfold merge_generated. destruct (Py.truthy s); simpl; [|reflexivity].
  now rewrite String.eqb_refl.
Qed.

Lemma merge_same_at_rest (s : string) :
  (if Py.truthy s || Py.truthy s then merge_request_descriptions s s else s) = s.
Proof.
  unfold merge_request_descriptions. rewrite merge_generated_same.
  now destruct (_ || _).
Qed.

(** three cases in which a merged description is left alone by a further
    merge with the same fresh text *)
Lemma merge_at_rest_simple (stored fresh : string) :
  stored = "" \/ stored = fresh \/ fresh = "" ->
  merge_request_descriptions (merge_request_descriptions stored fresh) fresh
  = merge_request_descriptions stored fresh.
Proof.
  unfold merge_request_descriptions.
  intros [-> | [-> | ->]].
  - change (merge_generated request_start_marker request_end_marker
              legacy_request_text "" fresh) with fresh.
    apply merge_generated_same.
  - now rewrite !merge_generated_same.
  - assert (H : forall s, merge_generated request_start_marker request_end_marker
                            legacy_request_text s "" = s).
    { intros s. unfold merge_generated.
      destruct (Py.truthy s) eqn:Hs; simpl; [reflexivity|].
      symmetry. now apply truthy_false_iff. }
    now rewrite !H.
Qed.

(** the preservation merge on an item that has a request *)
Lemma merge_with_request (existing : item) (name : option string) (r : request) :
  merge_postman_items_with_preservation existing
    {| item_name := name; item_request := Some r |}
  = Some (if Py.truthy (description_of existing)
             || Py.truthy (Py.get (req_description r) "")
          then {| item_name := name;
                  item_request := Some
                    (set_description r
                       (merge_request_descriptions (description_of existing)
                          (Py.get (req_description r) ""))) |}
          else {| item_name := name; item_request := Some r |}).
Proof.
  unfold merge_postman_items_with_preservation.
  change (description_of {| item_name := name; item_request := Some r |})
    with (Py.get (req_description r) "").
  destruct (_ || _); reflexivity.
Qed.

Section SecondPass.
Variable e : endpoint.
Variable include_documentation : bool.

Local Abbreviation enc := (convert_endpoint_to_postman_item e include_documentation).
Local Abbreviation fresh := (description_of enc).

(** the candidate built for a stored item [x] *)
Lemma candidate_shape (x : item) :
  exists c,
    candidate_item true x enc = Some c
    /\ item_request c <> None
    /\ request_key (request_of c) = request_key (request_of enc)
    /\ req_header (request_of c) = req_header (request_of enc)
    /\ req_url (request_of c) = req_url (request_of enc)
    /\ req_body (request_of c) = req_body (request_of enc)
    /\ description_of c
       = if Py.truthy (description_of x) || Py.truthy fresh
         then merge_request_descriptions (description_of x) fresh
         else fresh.
Proof.
  pose proof (merge_with_request x (item_name enc) (request_of enc)) as H.
  change {| item_name := item_name enc; item_request := Some (request_of enc) |}
    with enc in H.
  change (Py.get (req_description (request_of enc)) "") with fresh in H.
  unfold candidate_item. rewrite H. eexists. split; [reflexivity|].
  destruct (Py.truthy (description_of x) || Py.truthy fresh);
    repeat split; first [discriminate | reflexivity].
Qed.

(** a descriptor whose candidate shows no difference leaves the state as it is *)
Lemma process_endpoint_stable
    (lookup : list (string * item)) (report : change_report) (x c : item) :
  dict_get (endpoint_key e) lookup = Some x ->
  candidate_item true x enc = Some c ->
  items_are_different x c = false ->
  process_endpoint include_documentation true (lookup, report) e
  = Some (lookup, report_unchanged (endpoint_name e) report).
Proof.
  intros Hget Hc Hd. unfold process_endpoint. now rewrite Hget, Hc, Hd.
Qed.

(** a second run over the values of a lookup in which the descriptor is stable *)
Lemma second_run_stable (lookup : list (string * item)) (x c : item) :
  keys_agree lookup ->
  NoDup (dict_keys lookup) ->
  dict_get (endpoint_key e) lookup = Some x ->
  candidate_item true x enc = Some c ->
  items_are_different x c = false ->
  smart_update_postman_collection (dict_values lookup) (batch [e])
    include_documentation true
  = Some (dict_values lookup, report_unchanged (endpoint_name e) empty_report).
Proof.
  intros Hag Hnd Hget Hc Hd. unfold smart_update_postman_collection.
  rewrite (existing_lookup_of_values _ Hag Hnd).
  cbn [batch endpoints Py.get process_endpoints].
  now rewrite (process_endpoint_stable _ _ x c).
Qed.

(** an item stored under the descriptor's key, with the encoded axes and a
    description on which the merge is at rest, is stable *)
Lemma at_rest_is_stable (x : item) :
  req_header (request_of x) = req_header (request_of enc) ->
  req_url (request_of x) = req_url (request_of enc) ->
  req_body (request_of x) = req_body (request_of enc) ->
  (if Py.truthy (description_of x) || Py.truthy fresh
   then merge_request_descriptions (description_of x) fresh
   else fresh) = description_of x ->
  exists c, candidate_item true x enc = Some c /\ items_are_different x c = false.
Proof.
  intros Hh Hu Hb Hd.
  destruct (candidate_shape x) as (c & Hc & _ & _ & Hch & Hcu & Hcb & Hcd).
  exists c. split; [exact Hc|].
  apply same_axes_not_different; congruence.
Qed.

End SecondPass.

(** C8, as stated: a second run is not always a fixed point. With the
    default flags, a descriptor whose path ends in a slash is stored under
    a key that the next run does not find, and is reported as new again;
    without generated documentation, a plain description is appended to a
    hand-written one on every run, and is reported as updated again; and
    a hand-written description that begins with blanks is appended to on
    the first run and trimmed on the second, which reports it as updated
    once more. *)
Lemma second_run_can_report_changes :
  (let e := simple_endpoint "GET" "/users/" in
   exists items report,
     smart_update_postman_collection [] (batch [e]) true true = Some (items, report)
     /\ exists items', smart_update_postman_collection items (batch [e]) true true
        = Some (items',
                {| new_endpoints := ["GET /users/"]; updated_endpoints := [];
                   unchanged_endpoints := [] |}))
  /\ (let e := described_endpoint "GET" "/widgets" "List widgets." in
      let stored := stored_item "Widgets" "GET" "/widgets" ["widgets"]
                      (Some "Do not touch.") in
      exists items report,
        smart_update_postman_collection [stored] (batch [e]) false true
        = Some (items, report)
        /\ exists items', smart_update_postman_collection items (batch [e]) false true
           = Some (items',
                   {| new_endpoints := []; updated_endpoints := ["GET /widgets"];
                      unchanged_endpoints := [] |}))
  /\ (let e := simple_endpoint "GET" "/widgets" in
      let stored := stored_item "Widgets" "GET" "/widgets" ["widgets"] (Some "  Note") in
      exists items report,
        smart_update_postman_collection [stored] (batch [e]) true true
        = Some (items, report)
        /\ exists items', smart_update_postman_collection items (batch [e]) true true
           = Some (items',
                   {| new_endpoints := []; updated_endpoints := ["GET /widgets"];
                      unchanged_endpoints := [] |})).
Proof.
  split; [|split]; cbv zeta; do 2 eexists; (split; [vm_compute; reflexivity|]);
    eexists; vm_compute; reflexivity.
Qed.

(** ** Documentation generator *)

(** C9, as stated: an unrecognised template style does not abort the
    run. The Markdown renderer falls back to the detailed style and a
    document is produced. *)
Lemma unknown_style_yields_a_document :
  let data := batch [simple_endpoint "GET" "/widgets"] in
  let now := "2024-01-01 00:00:00" in
  let doc := generate_api_documentation (ApiDict data) "markdown" "fancy" now in
  doc = generate_detailed_markdown [simple_endpoint "GET" "/widgets"] now
  /\ Py.startswith doc "Error" = false
  /\ Py.startswith doc "# API Documentation" = true.
Proof. repeat split; reflexivity. Qed.

(** C9, amended: for every call whose data is endpoint data of the
    descriptor shape, given as a dictionary or as a JSON string that
    decodes to one, an unrecognised rendering format yields the
    unsupported-format error message and no document; an unrecognised
    template style is not an error: with the Markdown format it yields
    the document of the detailed style. *)
Theorem unsupported_format_is_reported
    (data : endpoints_data) (format_type template_style now : string) :
  (format_type <> "markdown" -> format_type <> "json" ->
   generate_api_documentation (ApiDict data) format_type template_style now
   = "Error: Unsupported format_type '" +:+ format_type
     +:+ "'. Use 'markdown' or 'json'."
   /\ generate_api_documentation (ApiJsonText data) format_type template_style now
      = "Error: Unsupported format_type '" +:+ format_type
        +:+ "'. Use 'markdown' or 'json'.")
  /\ (template_style <> "detailed" -> template_style <> "compact" ->
      generate_api_documentation (ApiDict data) "markdown" template_style now
      = generate_api_documentation (ApiDict data) "markdown" "detailed" now
      /\ generate_api_documentation (ApiJsonText data) "markdown" template_style now
         = generate_api_documentation (ApiJsonText data) "markdown" "detailed" now).
Proof.
  split.
  - intros Hm Hj. unfold generate_api_documentation.
    destruct (String.eqb_spec format_type "markdown"); [contradiction|].
    destruct (String.eqb_spec format_type "json"); [contradiction|].
    split; reflexivity.
  - intros Hd Hc. unfold generate_api_documentation, generate_markdown_docs.
    cbn [String.eqb Ascii.eqb Bool.eqb].
    destruct (String.eqb_spec template_style "detailed"); [contradiction|].
    destruct (String.eqb_spec template_style "compact"); [contradiction|].
    split; reflexivity.
Qed.

Lemma unsupported_format_is_reported_witness :
  let data := batch [simple_endpoint "GET" "/widgets"] in
  generate_api_documentation (ApiDict data) "yaml" "fancy" "2024-01-01 00:00:00"
  = "Error: Unsupported format_type 'yaml'. Use 'markdown' or 'json'."
  /\ generate_api_documentation (ApiDict data) "markdown" "fancy" "2024-01-01 00:00:00"
     = generate_api_documentation (ApiDict data) "markdown" "detailed"
         "2024-01-01 00:00:00".
Proof.
  intros data.
  destruct (unsupported_format_is_reported data "yaml" "fancy" "2024-01-01 00:00:00")
    as [Hformat _].
  destruct (unsupported_format_is_reported data "markdown" "fancy" "2024-01-01 00:00:00")
    as [_ Hstyle].
  split.
  - apply Hformat; discriminate.
  - apply Hstyle; discriminate.
Defined.

(** ** Scenarios *)

Example normalize_strips_suffix : extract_clean_path_from_string "/users.json" = "/users".
Proof. reflexivity. Qed.

Example normalize_strips_query :
  extract_clean_path_from_string "/users?active=true" = "/users".
Proof. reflexivity. Qed.

(** an empty collection and one descriptor: one new entry, one query key *)
Example listing_is_added :
  exists it r u,
    smart_update_postman_collection [] (batch [widgets_listing]) true true
    = Some ([it], {| new_endpoints := ["GET /widgets"]; updated_endpoints := [];
                     unchanged_endpoints := [] |})
    /\ item_request it = Some r
    /\ req_url r = Some u
    /\ map kv_key (Py.get (url_query u) []) = [Some "page"].
Proof. do 3 eexists. repeat split; reflexivity. Qed.

(** the same descriptor encoded twice shows no change; one more query
    parameter shows a change on the URL axis *)
Example query_parameter_is_detected :
  let plain := convert_endpoint_to_postman_item (simple_endpoint "GET" "/widgets") true in
  let listed := convert_endpoint_to_postman_item widgets_listing false in
  let bare := convert_endpoint_to_postman_item (simple_endpoint "GET" "/widgets") false in
  items_are_different plain plain = false
  /\ items_are_different bare listed = true
  /\ dict_get "url" (request_changes (compare_postman_items bare listed))
     = Some url_parameters_updated.
Proof. repeat split; reflexivity. Qed.

(** * Further properties *)

(** ** More on strings *)

Lemma take_drop (n : nat) (s : string) : Py.take n s +:+ Py.drop n s = s.
Proof.
  revert n. induction s as [|c s IH]; intros [|n]; simpl; try reflexivity.
  now rewrite IH.
Qed.

Lemma drop_append (a b : string) (n : nat) :
  Py.drop (String.length a + n) (a +:+ b) = Py.drop n b.
Proof. induction a as [|c a IH]; simpl; [reflexivity | exact IH]. Qed.

Lemma length_append (a b : string) :
  String.length (a +:+ b) = (String.length a + String.length b)%nat.
Proof. induction a as [|x a IH]; simpl; [reflexivity | now rewrite IH]. Qed.

Lemma endswith_chop (s suf : string) :
  Py.endswith s suf = true -> s = Py.chop s (String.length suf) +:+ suf.
Proof.
  unfold Py.endswith, Py.chop. intros H.
  apply andb_true_iff in H as [_ H]. apply String.eqb_eq in H.
  set (n := (String.length s - String.length suf)%nat) in *.
  rewrite <- H. symmetry. apply take_drop.
Qed.

Lemma endswith_append (a b suf : string) :
  Py.endswith b suf = true -> Py.endswith (a +:+ b) suf = true.
Proof.
  unfold Py.endswith. intros H.
  apply andb_true_iff in H as [Hlen H]. apply Nat.leb_le in Hlen.
  rewrite length_append. apply andb_true_iff. split.
  - apply Nat.leb_le. lia.
  - replace (String.length a + String.length b - String.length suf)%nat
      with (String.length a + (String.length b - String.length suf))%nat by lia.
    now rewrite drop_append.
Qed.

Lemma endswith_refl (s : string) : Py.endswith s s = true.
Proof.
  unfold Py.endswith. rewrite Nat.leb_refl, Nat.sub_diag. simpl.
  apply String.eqb_refl.
Qed.

Lemma prefix_append (a b : string) : String.prefix a (a +:+ b) = true.
Proof.
  induction a as [|c a IH]; simpl; [apply prefix_empty|].
  destruct (ascii_dec c c); [exact IH | congruence].
Qed.

Lemma contains_prefix (sep s : string) :
  String.prefix sep s = true -> Py.contains sep s = true.
Proof. intros H. destruct s; cbn [Py.contains]; rewrite H; reflexivity. Qed.

Lemma contains_append_l (sep a b : string) :
  Py.contains sep b = true -> Py.contains sep (a +:+ b) = true.
Proof.
  intros H. induction a as [|c a IH]; [exact H|].
  cbn [String.append Py.contains]. rewrite IH. apply orb_true_r.
Qed.

Lemma contains_middle (sep a b : string) : Py.contains sep (a +:+ sep +:+ b) = true.
Proof. apply contains_append_l, contains_prefix, prefix_append. Qed.

(** a separator that does not contain [c] cannot reach across [c] *)
Lemma prefix_append_char (c : ascii) (sep a r : string) :
  has_char c sep = false ->
  String.prefix sep (a +:+ String c r) = String.prefix sep a.
Proof.
  revert a. induction sep as [|s0 sep IH]; intros a Hc; [now rewrite !prefix_empty|].
  simpl in Hc. apply orb_false_iff in Hc as [Hs0 Hsep].
  destruct a as [|a0 a]; simpl.
  - destruct (ascii_dec s0 c) as [->|]; [|reflexivity].
    now rewrite Ascii.eqb_refl in Hs0.
  - destruct (ascii_dec s0 a0); [now apply IH | reflexivity].
Qed.

Lemma prefix_length (sep s : string) :
  String.prefix sep s = true -> (String.length sep <= String.length s)%nat.
Proof.
  revert s. induction sep as [|c sep IH]; intros s H; simpl; [lia|].
  destruct s as [|d s]; simpl in *; [discriminate|].
  destruct (ascii_dec c d); [|discriminate]. apply IH in H. lia.
Qed.

Lemma drop_append_short (a b : string) (n : nat) :
  (n <= String.length a)%nat -> Py.drop n (a +:+ b) = Py.drop n a +:+ b.
Proof.
  revert n. induction a as [|c a IH]; intros [|n] H; simpl in *; try reflexivity; [lia|].
  apply IH. lia.
Qed.

Lemma partition_none (sep s : string) :
  Py.contains sep s = false -> Py.partition sep s = None.
Proof.
  intros H. destruct (Py.partition sep s) as [[b a]|] eqn:Hp; [|reflexivity].
  assert (Py.contains sep s = true) by (apply partition_contains; eauto). congruence.
Qed.

(** how [partition] goes through a character that the separator lacks *)
Lemma partition_append_char (c : ascii) (sep a r : string) :
  has_char c sep = false ->
  Py.partition sep (a +:+ String c r)
  = match Py.partition sep a with
    | Some (b, x) => Some (b, x +:+ String c r)
    | None => match Py.partition sep r with
              | Some (b, x) => Some (a +:+ String c b, x)
              | None => None
              end
    end.
Proof.
  intros Hc. induction a as [|a0 a IH].
  - pose proof (prefix_append_char c sep "" r Hc) as Hpre.
    cbn [String.append] in Hpre |- *. cbn [Py.partition]. rewrite Hpre.
    destruct (String.prefix sep "") eqn:Hp.
    + destruct sep as [|s0 sep]; [reflexivity | discriminate Hp].
    + now destruct (Py.partition sep r) as [[b x]|].
  - cbn [String.append Py.partition].
    change (String a0 (a +:+ String c r)) with (String a0 a +:+ String c r).
    rewrite (prefix_append_char c sep (String a0 a) r Hc).
    destruct (String.prefix sep (String a0 a)) eqn:Hp.
    + f_equal. f_equal. apply drop_append_short. now apply prefix_length.
    + cbn [String.append]. rewrite IH.
      destruct (Py.partition sep a) as [[b x]|]; [reflexivity|].
      now destruct (Py.partition sep r) as [[b x]|].
Qed.

Lemma partition_at_char (c : ascii) (p q : string) :
  has_char c p = false ->
  Py.partition (String c "") (p +:+ String c q) = Some (p, q).
Proof.
  induction p as [|a p IH]; intros H.
  - cbn [String.append Py.partition]. now rewrite prefix_single, Ascii.eqb_refl.
  - simpl in H. apply orb_false_iff in H as [Ha Hp].
    cbn [String.append Py.partition]. rewrite prefix_single, Ha, (IH Hp). reflexivity.
Qed.

(** ** More on the path normaliser *)

Lemma remove_first_extension_cases (exts : list string) (p : string) :
  (existsb (Py.endswith p) exts = false /\ remove_first_extension exts p = p)
  \/ (exists ext, In ext exts /\ p = remove_first_extension exts p +:+ ext).
Proof.
  induction exts as [|ext exts IH]; simpl; [now left|].
  destruct (Py.endswith p ext) eqn:He.
  - right. exists ext. split; [now left | now apply endswith_chop].
  - destruct IH as [[Hn Hp] | (ext' & Hin & Hp)]; [now left|].
    right. exists ext'. auto.
Qed.

(** X1: the format stripper either leaves a path without a listed suffix
    as it is, or removes exactly one listed suffix from its end. *)
Theorem format_suffix_is_removed_once (p : string) :
  (has_format_extension p = false /\ remove_format_extension p = p)
  \/ (exists ext, In ext format_extensions
                  /\ p = remove_format_extension p +:+ ext).
Proof. apply remove_first_extension_cases. Qed.

Lemma split_head_is_prefix (sep s : string) :
  exists rest, s = Py.split_head sep s +:+ rest.
Proof.
  unfold Py.split_head. destruct (Py.partition sep s) as [[b a]|] eqn:Hp.
  - exists (sep +:+ a). now apply partition_sound.
  - exists "". now rewrite append_empty_r.
Qed.

(** X2: the normalised path never contains a question mark, and for an
    input that does not start with "http" it is a prefix of the input:
    normalisation of a bare path only cuts text off the end. *)
Theorem clean_path_is_a_query_free_prefix (x : string) :
  has_char question (extract_clean_path_from_string x) = false
  /\ (Py.startswith x "http" = false ->
      exists rest, x = extract_clean_path_from_string x +:+ rest).
Proof.
  split; [apply clean_path_no_query|].
  intros Hhttp. unfold extract_clean_path_from_string. rewrite Hhttp.
  set (clean := if Py.contains "?" x then Py.split_head "?" x else x).
  assert (Hclean : exists rest, x = clean +:+ rest).
  { subst clean. destruct (Py.contains "?" x); [apply split_head_is_prefix|].
    exists "". now rewrite append_empty_r. }
  destruct Hclean as [rest1 Hx].
  destruct (remove_first_extension_cases format_extensions clean)
    as [[_ Hsame] | (ext & _ & Hcut)].
  - unfold remove_format_extension. rewrite Hsame. now exists rest1.
  - exists (ext +:+ rest1). unfold remove_format_extension.
    now rewrite <- append_assoc, <- Hcut.
Qed.

Lemma clean_path_is_a_query_free_prefix_witness :
  exists rest, "/api/users.json?active=true"
               = extract_clean_path_from_string "/api/users.json?active=true" +:+ rest.
Proof.
  apply (proj2 (clean_path_is_a_query_free_prefix "/api/users.json?active=true")).
  reflexivity.
Defined.

Lemma startswith_http_before_query (p q : string) :
  Py.startswith (p +:+ String question q) "http" = Py.startswith p "http".
Proof.
  unfold Py.startswith.
  destruct p as [|c1 [|c2 [|c3 [|c4 p]]]]; cbn [String.append String.prefix];
    repeat match goal with
           | |- context [ascii_dec ?a ?b] => destruct (ascii_dec a b); try discriminate
           end;
    rewrite ?prefix_empty; reflexivity.
Qed.

(** X3: a query string does not reach the key: for a bare path [p]
    without question mark, the path followed by [?] and any text
    normalises like [p] alone. *)
Theorem query_string_is_ignored (p q : string) :
  Py.startswith p "http" = false ->
  has_char question p = false ->
  extract_clean_path_from_string (p +:+ "?" +:+ q) = extract_clean_path_from_string p.
Proof.
  intros Hhttp Hq. unfold extract_clean_path_from_string.
  change (p +:+ "?" +:+ q) with (p +:+ String question q).
  rewrite startswith_http_before_query, Hhttp.
  rewrite !(contains_single question), has_char_append, Hq.
  cbn [has_char orb]. rewrite Ascii.eqb_refl. cbn [orb].
  unfold Py.split_head.
  change "?" with (String question ""). now rewrite partition_at_char.
Qed.

Lemma query_string_is_ignored_witness :
  extract_clean_path_from_string ("/users.json" +:+ "?" +:+ "page=2&sort=name")
  = extract_clean_path_from_string "/users.json".
Proof. apply query_string_is_ignored; reflexivity. Defined.

Lemma filter_chars_append (keep : ascii -> bool) (a b : string) :
  Py.filter_chars keep (a +:+ b) = Py.filter_chars keep a +:+ Py.filter_chars keep b.
Proof.
  induction a as [|c a IH]; simpl; [reflexivity|].
  destruct (keep c); simpl; now rewrite IH.
Qed.

Lemma filter_chars_all (keep : ascii -> bool) (a : string) :
  Py.all_chars keep a = true -> Py.filter_chars keep a = a.
Proof.
  induction a as [|c a IH]; simpl; [reflexivity|].
  intros H. apply andb_true_iff in H as [Hc Ha]. now rewrite Hc, IH.
Qed.

Lemma all_chars_impl (f g : ascii -> bool) (s : string) :
  (forall c, f c = true -> g c = true) ->
  Py.all_chars f s = true -> Py.all_chars g s = true.
Proof.
  intros Hfg. induction s as [|c s IH]; simpl; [reflexivity|].
  intros H. apply andb_true_iff in H as [Hc Hs]. now rewrite (Hfg c Hc), IH.
Qed.

Lemma all_chars_no_char (f : ascii -> bool) (c : ascii) (s : string) :
  f c = false -> Py.all_chars f s = true -> has_char c s = false.
Proof.
  intros Hc. induction s as [|a s IH]; simpl; [reflexivity|].
  intros H. apply andb_true_iff in H as [Ha Hs]. rewrite (IH Hs).
  destruct (Ascii.eqb_spec a c) as [->|]; [congruence | reflexivity].
Qed.

Lemma all_chars_append (f : ascii -> bool) (a b : string) :
  Py.all_chars f (a +:+ b) = Py.all_chars f a && Py.all_chars f b.
Proof.
  induction a as [|c a IH]; simpl; [reflexivity|].
  now rewrite IH, andb_assoc.
Qed.

Lemma skip_netloc_host (host rest : string) :
  Py.all_chars host_char host = true ->
  Urllib.skip_netloc (host +:+ String slash rest) = String slash rest.
Proof.
  induction host as [|c host IH]; [reflexivity|].
  cbn [Py.all_chars String.append Urllib.skip_netloc]. intros H.
  apply andb_true_iff in H as [Hc Hh]. unfold host_char in Hc.
  apply andb_true_iff in Hc as [Hc _]. apply negb_true_iff in Hc.
  rewrite Hc. now apply IH.
Qed.

(** the fragment cut leaves a text of the form [p?...] in that form *)
Lemma fragment_cut_keeps_path (p t : string) :
  has_char (ascii_of_nat 35) p = false ->
  exists t',
    (if Py.contains "#" (p +:+ String question t)
     then Py.split_head "#" (p +:+ String question t)
     else p +:+ String question t) = p +:+ String question t'.
Proof.
  intros Hp. destruct (Py.contains "#" (p +:+ String question t)); [|now exists t].
  unfold Py.split_head.
  rewrite (partition_append_char question "#" p t) by reflexivity.
  rewrite (partition_none "#" p) by now rewrite (contains_single (ascii_of_nat 35)).
  destruct (Py.partition "#" t) as [[b x]|]; eexists; reflexivity.
Qed.

Lemma path_after_cuts (p t : string) :
  Py.all_chars plain_path_char p = true ->
  let url := p +:+ t in
  let url := if Py.contains "#" url then Py.split_head "#" url else url in
  let url := if Py.contains "?" url then Py.split_head "?" url else url in
  t = "" \/ (exists q, t = String question q) ->
  url = p /\ Py.contains ";" p = false.
Proof.
  intros Hall.
  assert (Hhash : has_char (ascii_of_nat 35) p = false)
    by (now apply (all_chars_no_char plain_path_char)).
  assert (Hq : has_char question p = false)
    by (now apply (all_chars_no_char plain_path_char)).
  assert (Hsemi : has_char (ascii_of_nat 59) p = false)
    by (now apply (all_chars_no_char plain_path_char)).
  cbv zeta. intros [-> | [q ->]].
  - rewrite append_empty_r.
    rewrite (contains_single (ascii_of_nat 35)), Hhash.
    rewrite (contains_single question), Hq.
    now rewrite (contains_single (ascii_of_nat 59)).
  - destruct (fragment_cut_keeps_path p q Hhash) as [t' ->].
    rewrite (contains_single question), has_char_append, Hq.
    cbn [has_char orb]. rewrite Ascii.eqb_refl. cbn [orb].
    unfold Py.split_head. change "?" with (String question "").
    rewrite (partition_at_char question p t' Hq).
    now rewrite (contains_single (ascii_of_nat 59)).
Qed.

(** the path the URL parser finds in [scheme://host/path] and
    [scheme://host/path?query] *)
Lemma urlparse_path_of_url (secure : bool) (host p t : string) :
  Py.all_chars host_char host = true ->
  Py.all_chars plain_path_char p = true ->
  Py.startswith p "/" = true ->
  t = "" \/ (exists q, t = String question q) ->
  Urllib.urlparse_path ((if secure then "https" else "http") +:+ "://" +:+ host +:+ p +:+ t)
  = p.
Proof.
  intros Hhost Hpath Hslash Ht.
  set (keep := fun c => negb (Urllib.unsafe_byte c)).
  assert (Hkh : Py.filter_chars keep host = host).
  { apply filter_chars_all. eapply all_chars_impl; [|exact Hhost].
    intros c Hc. unfold host_char in Hc. apply andb_true_iff in Hc as [_ Hc].
    now apply andb_true_iff in Hc as [Hc _]. }
  assert (Hkp : Py.filter_chars keep p = p).
  { apply filter_chars_all. eapply all_chars_impl; [|exact Hpath].
    intros c Hc. unfold plain_path_char in Hc. now apply andb_true_iff in Hc as [_ Hc]. }
  assert (Ht' : Py.filter_chars keep t = ""
                \/ exists q, Py.filter_chars keep t = String question q).
  { destruct Ht as [-> | [q ->]]; [now left | right; eexists; reflexivity]. }
  destruct p as [|c0 p']; [discriminate|].
  assert (c0 = slash) as ->.
  { destruct (ascii_dec "/" c0) as [<-|Hne]; [reflexivity|].
    unfold Py.startswith in Hslash. cbn [String.prefix] in Hslash.
    destruct (ascii_dec "/" c0); [contradiction | discriminate]. }
  unfold Urllib.urlparse_path. fold keep.
  assert (Hfilter : forall s,
            Py.filter_chars keep
              (Urllib.lstrip_c0 ((if secure then "https" else "http") +:+ "://" +:+ s))
            = (if secure then "https" else "http") +:+ "://" +:+ Py.filter_chars keep s)
    by (intros s; destruct secure; reflexivity).
  rewrite Hfilter, !filter_chars_append, Hkh, Hkp.
  assert (Hscheme : forall s,
            Urllib.split_scheme ((if secure then "https" else "http") +:+ "://" +:+ s)
            = ((if secure then "https" else "http"), "//" +:+ s))
    by (intros s; destruct secure; reflexivity).
  rewrite Hscheme.
  rewrite (prefix_append "//").
  change (Py.drop 2 ("//" +:+ host +:+ String slash p' +:+ Py.filter_chars keep t))
    with (host +:+ String slash (p' +:+ Py.filter_chars keep t)).
  rewrite (skip_netloc_host _ _ Hhost).
  change (String slash (p' +:+ Py.filter_chars keep t))
    with (String slash p' +:+ Py.filter_chars keep t).
  destruct (path_after_cuts (String slash p') (Py.filter_chars keep t) Hpath Ht')
    as [Hurl Hsemi].
  cbv zeta in Hurl. rewrite Hurl, Hsemi. now rewrite andb_false_r.
Qed.

Lemma take_netloc_host (host rest : string) :
  Py.all_chars host_char host = true ->
  Urllib.take_netloc (host +:+ String slash rest) = host.
Proof.
  induction host as [|c host IH]; [reflexivity|].
  cbn [Py.all_chars String.append Urllib.take_netloc]. intros H.
  apply andb_true_iff in H as [Hc Hh]. unfold host_char in Hc.
  apply andb_true_iff in Hc as [Hc _]. apply negb_true_iff in Hc.
  rewrite Hc. now rewrite IH.
Qed.

(** the authority the URL parser finds in [scheme://host/path...] *)
Lemma netloc_of_url (secure : bool) (host p t : string) :
  Py.all_chars host_char host = true ->
  Py.startswith p "/" = true ->
  Urllib.netloc_of ((if secure then "https" else "http") +:+ "://" +:+ host +:+ p +:+ t)
  = host.
Proof.
  intros Hhost Hslash.
  set (keep := fun c => negb (Urllib.unsafe_byte c)).
  assert (Hkh : Py.filter_chars keep host = host).
  { apply filter_chars_all. eapply all_chars_impl; [|exact Hhost].
    intros c Hc. unfold host_char in Hc. apply andb_true_iff in Hc as [_ Hc].
    now apply andb_true_iff in Hc as [Hc _]. }
  destruct p as [|c0 p']; [discriminate|].
  assert (c0 = slash) as ->.
  { destruct (ascii_dec "/" c0) as [<-|Hne]; [reflexivity|].
    unfold Py.startswith in Hslash. cbn [String.prefix] in Hslash.
    destruct (ascii_dec "/" c0); [contradiction | discriminate]. }
  unfold Urllib.netloc_of. fold keep.
  assert (Hfilter : forall s,
            Py.filter_chars keep
              (Urllib.lstrip_c0 ((if secure then "https" else "http") +:+ "://" +:+ s))
            = (if secure then "https" else "http") +:+ "://" +:+ Py.filter_chars keep s)
    by (intros s; destruct secure; reflexivity).
  rewrite Hfilter, !filter_chars_append, Hkh.
  assert (Hscheme : forall s,
            Urllib.split_scheme ((if secure then "https" else "http") +:+ "://" +:+ s)
            = ((if secure then "https" else "http"), "//" +:+ s))
    by (intros s; destruct secure; reflexivity).
  rewrite Hscheme.
  rewrite (prefix_append "//").
  change (Py.filter_chars keep (String slash p')) with (String slash (Py.filter_chars keep p')).
  change (Py.drop 2 ("//" +:+ host +:+ String slash (Py.filter_chars keep p')
                     +:+ Py.filter_chars keep t))
    with (host +:+ String slash (Py.filter_chars keep p' +:+ Py.filter_chars keep t)).
  now apply take_netloc_host.
Qed.

(** X4: a full URL gives the same normalised path as its path alone:
    for an http or https URL whose host is written in ASCII without
    delimiter, square bracket, tab or line break, and whose path starts
    with a slash and has no [?], [#], [;], tab or line break, with or
    without a query string, the URL parser accepts the URL and
    normalisation returns what it returns for the bare path. *)
Theorem full_url_normalises_like_its_path (secure : bool) (host p q : string) :
  Py.all_chars host_char host = true ->
  Py.all_chars plain_path_char p = true ->
  Py.startswith p "/" = true ->
  let scheme := if secure then "https" else "http" in
  extract_clean_path_from_string (scheme +:+ "://" +:+ host +:+ p)
  = extract_clean_path_from_string p
  /\ extract_clean_path_from_string (scheme +:+ "://" +:+ host +:+ p +:+ "?" +:+ q)
     = extract_clean_path_from_string p
  /\ normalizes (scheme +:+ "://" +:+ host +:+ p) = true
  /\ normalizes (scheme +:+ "://" +:+ host +:+ p +:+ "?" +:+ q) = true.
Proof.
  intros Hhost Hpath Hslash scheme.
  assert (Hbare : extract_clean_path_from_string p = remove_format_extension p).
  { unfold extract_clean_path_from_string.
    assert (Hq : has_char question p = false)
      by (now apply (all_chars_no_char plain_path_char)).
    rewrite (contains_single question), Hq.
    destruct p as [|c p']; [reflexivity|].
    unfold Py.startswith in *. cbn [String.prefix] in *.
    destruct (ascii_dec "/" c) as [<-|]; [reflexivity | discriminate]. }
  assert (Hhttp : forall s, Py.startswith (scheme +:+ "://" +:+ s) "http" = true)
    by (intros s; subst scheme; destruct secure; reflexivity).
  assert (Hplain : Py.all_chars Urllib.plain_netloc_char host = true).
  { eapply all_chars_impl; [|exact Hhost].
    intros c Hc. unfold host_char in Hc. apply andb_true_iff in Hc as [_ Hc].
    now apply andb_true_iff in Hc as [_ Hc]. }
  assert (Haccept : forall t, normalizes (scheme +:+ "://" +:+ host +:+ p +:+ t) = true).
  { intros t. unfold normalizes, Urllib.plain_authority. subst scheme.
    rewrite (netloc_of_url secure host p t Hhost Hslash), Hplain. apply orb_true_r. }
  rewrite Hbare. unfold extract_clean_path_from_string. rewrite !Hhttp.
  split; [|split; [|split]].
  - rewrite <- (append_empty_r p) at 1. subst scheme.
    rewrite urlparse_path_of_url; auto.
  - subst scheme. rewrite urlparse_path_of_url; auto.
    right. now exists q.
  - rewrite <- (append_empty_r p). apply Haccept.
  - apply Haccept.
Qed.

Lemma full_url_normalises_like_its_path_witness :
  extract_clean_path_from_string
    ("https" +:+ "://" +:+ "api.example.com:3000" +:+ "/api/v1/users.json"
     +:+ "?" +:+ "page=2#top")
  = extract_clean_path_from_string "/api/v1/users.json".
Proof.
  apply (proj1 (proj2 (full_url_normalises_like_its_path true "api.example.com:3000"
                         "/api/v1/users.json" "page=2#top" eq_refl eq_refl eq_refl))).
Defined.

(** ** More on the codec *)

Lemma split_char_pieces (c : ascii) (s : string) :
  Forall (fun x => has_char c x = false) (Py.split_char c s).
Proof.
  induction s as [|a s IH]; cbn [Py.split_char]; [now repeat constructor|].
  destruct (Ascii.eqb a c) eqn:Hac; [now constructor|].
  destruct (Py.split_char c s) as [|x r].
  - repeat constructor. simpl. now rewrite Hac.
  - apply Forall_cons in IH as [Hx Hr]. constructor; [|exact Hr].
    simpl. now rewrite Hac, Hx.
Qed.

Lemma filter_truthy_pieces (c : ascii) (l : list string) :
  Forall (fun x => has_char c x = false) l ->
  Forall (fun x => x <> "" /\ has_char c x = false) (List.filter Py.truthy l).
Proof.
  induction 1 as [|x l Hx _ IH]; simpl; [constructor|].
  destruct (Py.truthy x) eqn:Ht; [|exact IH].
  constructor; [|exact IH]. split; [now apply truthy_true_iff | exact Hx].
Qed.

(** X5: every encoded item stores its URL with the normalised path as
    [raw] and a segment list whose segments are never empty and never
    contain a slash, whatever the descriptor's path looks like. *)
Theorem encoded_path_segments_are_well_formed
    (e : endpoint) (include_documentation : bool) :
  exists r u path,
    item_request (convert_endpoint_to_postman_item e include_documentation) = Some r
    /\ req_url r = Some u
    /\ url_raw u = endpoint_clean_path e
    /\ url_path u = Some path
    /\ Forall segment path.
Proof.
  do 3 eexists. repeat split; try reflexivity.
  apply (filter_truthy_pieces slash), split_char_pieces.
Qed.

(** X6: between the encodings of two descriptors the body axis of the
    change detector shows a difference exactly when the kind of body
    (none, JSON, form) differs; form parameters decide the kind whenever
    there are any, and a change of the body parameters themselves is not
    seen. *)
Theorem body_axis_sees_the_body_kind_only
    (e1 e2 : endpoint) (doc1 doc2 : bool) :
  body_different
    (req_body (request_of (convert_endpoint_to_postman_item e1 doc1)))
    (req_body (request_of (convert_endpoint_to_postman_item e2 doc2)))
  = negb (bool_decide (body_kind e1 = body_kind e2)).
Proof.
  unfold body_kind. cbn [convert_endpoint_to_postman_item request_of Py.get
                         item_request req_body].
  destruct (nonempty (params_at "form" (Py.get (ep_parameters e1) []))),
           (nonempty (params_at "body" (Py.get (ep_parameters e1) []))),
           (nonempty (params_at "form" (Py.get (ep_parameters e2) []))),
           (nonempty (params_at "body" (Py.get (ep_parameters e2) [])));
    reflexivity.
Qed.

Lemma body_object_get (name : string) (ps : list parameter) :
  forall object,
    dict_get name
      (fold_left (fun body_object p =>
                    dict_set (Py.get (param_name p) "") (body_value p) body_object)
                 ps object)
    = fold_left (fun found p =>
                   if String.eqb (Py.get (param_name p) "") name
                   then Some (body_value p) else found) ps (dict_get name object).
Proof.
  induction ps as [|p ps IH]; intros object; simpl; [reflexivity|].
  rewrite IH. f_equal.
  destruct (String.eqb_spec (Py.get (param_name p) "") name) as [<-|Hne].
  - apply dict_get_set_eq.
  - now apply dict_get_set_ne.
Qed.

Lemma body_object_nodup (ps : list parameter) :
  forall object : list (string * json),
    NoDup (dict_keys object) ->
    NoDup (dict_keys
             (fold_left (fun body_object p =>
                           dict_set (Py.get (param_name p) "") (body_value p) body_object)
                        ps object)).
Proof.
  induction ps as [|p ps IH]; intros object Hnd; simpl; [exact Hnd|].
  apply IH. now apply dict_set_nodup.
Qed.

(** X7: the JSON body built from the body parameters has one member per
    distinct parameter name, and when a name is repeated the member
    holds the value of the last parameter with that name. *)
Theorem body_object_keeps_last_value (body_params : list parameter) :
  NoDup (dict_keys (body_object_of body_params))
  /\ (forall name,
        dict_get name (body_object_of body_params) = last_body_value name body_params)
  /\ (forall name,
        In name (dict_keys (body_object_of body_params))
        <-> In name (map (fun p => Py.get (param_name p) "") body_params)).
Proof.
  unfold body_object_of, last_body_value. split; [|split].
  - apply body_object_nodup. apply NoDup_nil_2.
  - intros name. now rewrite body_object_get.
  - intros name.
    assert (H : forall object : list (string * json),
              In name (dict_keys
                         (fold_left (fun body_object p =>
                                       dict_set (Py.get (param_name p) "") (body_value p)
                                                body_object) body_params object))
              <-> In name (dict_keys object)
                  \/ In name (map (fun p => Py.get (param_name p) "") body_params)).
    { induction body_params as [|p ps IH]; intros object; simpl; [tauto|].
      rewrite IH, dict_keys_set. intuition. }
    rewrite H. simpl. tauto.
Qed.

(** ** Generated texts *)

Lemma prefix_refl (s : string) : String.prefix s s = true.
Proof. rewrite <- (append_empty_r s) at 2. apply prefix_append. Qed.

Lemma contains_suffix (s suf : string) :
  Py.endswith s suf = true -> Py.contains suf s = true.
Proof.
  intros H. rewrite (endswith_chop _ _ H).
  apply contains_append_l, contains_prefix, prefix_refl.
Qed.

Lemma startswith_nonempty (s p : string) :
  p <> "" -> Py.startswith s p = true -> s <> "".
Proof.
  intros Hp H ->. unfold Py.startswith in H. destruct p; [congruence | discriminate].
Qed.

(** X8: the documentation generated for a request always opens with the
    request start marker and closes with the request end marker; it is
    never empty, the marker test of the merge recognises it, and no
    manual text precedes its start marker. *)
Theorem request_documentation_is_delimited (e : endpoint) :
  let doc := generate_request_documentation e in
  Py.startswith doc request_start_marker = true
  /\ Py.endswith doc request_end_marker = true
  /\ Py.contains request_start_marker doc && Py.contains request_end_marker doc = true
  /\ manual_before_of request_start_marker doc = ""
  /\ doc <> "".
Proof.
  intros doc.
  assert (Hstart : Py.startswith doc request_start_marker = true)
    by apply prefix_append.
  assert (Hend : Py.endswith doc request_end_marker = true).
  { subst doc. unfold generate_request_documentation.
    repeat lazymatch goal with
           | |- Py.endswith (_ +:+ _) _ = true => apply endswith_append
           end.
    apply endswith_refl. }
  split; [exact Hstart|]. split; [exact Hend|]. split; [|split].
  - apply andb_true_iff. split.
    + now apply contains_prefix.
    + now apply contains_suffix.
  - unfold manual_before_of, Py.split_head.
    destruct doc; [discriminate|]. cbn [Py.partition].
    unfold Py.startswith in Hstart. now rewrite Hstart.
  - now apply (startswith_nonempty doc request_start_marker).
Qed.

(** X9: for a non-empty list of endpoints the generated collection
    description opens with the collection start marker and closes with
    the collection end marker, whatever the timestamp. *)
Theorem collection_description_is_delimited
    (e : endpoint) (es : list endpoint) (now : string) :
  let doc := generate_collection_description (batch (e :: es)) now in
  Py.startswith doc collection_start_marker = true
  /\ Py.endswith doc collection_end_marker = true
  /\ Py.contains collection_start_marker doc && Py.contains collection_end_marker doc = true
  /\ doc <> "".
Proof.
  intros doc.
  assert (Hstart : Py.startswith doc collection_start_marker = true)
    by apply prefix_append.
  assert (Hend : Py.endswith doc collection_end_marker = true).
  { subst doc. unfold generate_collection_description.
    cbn [batch endpoints Py.get nonempty negb].
    repeat lazymatch goal with
           | |- Py.endswith (_ +:+ _) _ = true => apply endswith_append
           end.
    apply endswith_refl. }
  split; [exact Hstart|]. split; [exact Hend|]. split.
  - apply andb_true_iff. split.
    + now apply contains_prefix.
    + now apply contains_suffix.
  - now apply (startswith_nonempty doc collection_start_marker).
Qed.

(** ** More on the merge engine *)

Section MergeLaws.
Variables start_marker end_marker : string.
Variable looks_generated : string -> bool.

Local Abbreviation merge := (merge_generated start_marker end_marker looks_generated).

Lemma merge_generated_legacy (existing new : string) :
  existing <> "" -> new <> "" ->
  Py.contains start_marker existing && Py.contains end_marker existing = false ->
  looks_generated existing = true ->
  merge existing new = new.
Proof.
  intros Hex Hnew Hm Hl. unfold merge_generated.
  rewrite (proj2 (truthy_true_iff existing) Hex), (proj2 (truthy_true_iff new) Hnew).
  simpl. destruct (String.eqb_spec existing new); [assumption|].
  now rewrite Hm, Hl.
Qed.

Lemma merge_generated_contains_fresh (existing new : string) :
  exists pre post, merge existing new = pre +:+ new +:+ post.
Proof.
  unfold merge_generated.
  destruct (Py.truthy existing) eqn:Hex; simpl;
    [|exists "", ""; now rewrite append_empty_r].
  destruct (Py.truthy new) eqn:Hnew; simpl.
  2:{ apply truthy_false_iff in Hnew. subst new. exists existing, "".
      now rewrite append_empty_r. }
  destruct (String.eqb_spec existing new) as [->|Hne].
  { exists "", "". now rewrite append_empty_r. }
  destruct (_ && _).
  - rewrite rebuild_around. unfold around. eauto.
  - destruct (looks_generated existing).
    + exists "", "". now rewrite append_empty_r.
    + exists (existing +:+ rule_separator), "".
      now rewrite append_empty_r, append_assoc.
Qed.

Lemma merge_generated_keeps_prefix (existing new : string) :
  Py.contains start_marker existing && Py.contains end_marker existing = false ->
  looks_generated existing = false ->
  exists post, merge existing new = existing +:+ post.
Proof.
  intros Hm Hl. unfold merge_generated.
  destruct (Py.truthy existing) eqn:Hex; simpl.
  2:{ apply truthy_false_iff in Hex. subst existing. now exists new. }
  destruct (Py.truthy new); simpl; [|exists ""; now rewrite append_empty_r].
  destruct (String.eqb existing new); [exists ""; now rewrite append_empty_r|].
  rewrite Hm, Hl. eauto.
Qed.

Lemma merge_generated_replaces_block (existing new b x y a : string) :
  Py.partition start_marker existing = Some (b, x) ->
  Py.partition end_marker existing = Some (y, a) ->
  Py.strip b = "" -> Py.strip a = "" ->
  new <> "" ->
  merge existing new = new.
Proof.
  intros Hb Ha Hsb Hsa Hnew.
  destruct (String.eqb_spec existing new) as [->|Hne].
  { apply merge_generated_same. }
  destruct (merge_generated_marked start_marker end_marker looks_generated existing new)
    as (b' & x' & y' & a' & _ & Hb' & _ & Ha' & Hmerge); auto.
  - apply partition_contains; eauto.
  - apply partition_contains; eauto.
  - rewrite Hb in Hb'. rewrite Ha in Ha'.
    injection Hb' as <- <-. injection Ha' as <- <-.
    rewrite Hmerge, Hsb, Hsa. unfold around. simpl. apply append_empty_r.
Qed.

End MergeLaws.

(** X10: the placeholder written for a collection without endpoints is
    not recognised as generated text: when a later run generates a
    description for one or more endpoints, the placeholder is kept in
    front of it, followed by the horizontal rule. *)
Theorem placeholder_description_is_kept
    (e : endpoint) (es : list endpoint) (now earlier : string) :
  let placeholder := generate_collection_description (batch []) earlier in
  let fresh := generate_collection_description (batch (e :: es)) now in
  placeholder = "API Documentation - No endpoints available"
  /\ merge_descriptions placeholder fresh
     = placeholder +:+ nl +:+ nl +:+ "---" +:+ nl +:+ nl +:+ fresh
  /\ updated_collection_description (Some placeholder) (batch (e :: es)) now true true
     = Some (placeholder +:+ nl +:+ nl +:+ "---" +:+ nl +:+ nl +:+ fresh).
Proof.
  intros placeholder fresh.
  assert (Hm : merge_descriptions placeholder fresh
               = placeholder +:+ nl +:+ nl +:+ "---" +:+ nl +:+ nl +:+ fresh).
  { unfold merge_descriptions. rewrite merge_generated_unmarked; try reflexivity.
    - discriminate.
    - discriminate.
    - discriminate. }
  split; [reflexivity|]. split; [exact Hm|].
  unfold updated_collection_description. now rewrite <- Hm.
Qed.

(** X11: an unmarked existing text that carries a legacy fingerprint is
    discarded: merged with any non-empty fresh text, the result is the
    fresh text alone. For request descriptions this applies to any text
    that starts with "# GET ", "# POST ", "# PUT " or "# DELETE " or
    mentions "## Query Parameters", "## Request Body", "## Responses" or
    "**Controller:**"; for collection descriptions to any text that
    starts with "# API Collection Documentation" or mentions "This
    collection contains" or "Auto-generated on". *)
Theorem legacy_text_is_discarded (existing new : string) :
  existing <> "" -> new <> "" ->
  (Py.contains request_start_marker existing
   && Py.contains request_end_marker existing = false ->
   legacy_request_text existing = true ->
   merge_request_descriptions existing new = new)
  /\ (Py.contains collection_start_marker existing
      && Py.contains collection_end_marker existing = false ->
      legacy_collection_text existing = true ->
      merge_descriptions existing new = new).
Proof.
  intros Hex Hnew. split; intros Hm Hl.
  - now apply merge_generated_legacy.
  - now apply merge_generated_legacy.
Qed.

Lemma legacy_text_is_discarded_witness :
  merge_request_descriptions
    "Ask Dana before changing this. See ## Responses in the wiki." "NEWGEN" = "NEWGEN"
  /\ merge_descriptions "This collection contains my hand-picked calls." "NEWGEN"
     = "NEWGEN".
Proof.
  split.
  - apply (proj1 (legacy_text_is_discarded
                    "Ask Dana before changing this. See ## Responses in the wiki."
                    "NEWGEN" ltac:(discriminate) ltac:(discriminate)));
      reflexivity.
  - apply (proj2 (legacy_text_is_discarded
                    "This collection contains my hand-picked calls."
                    "NEWGEN" ltac:(discriminate) ltac:(discriminate)));
      reflexivity.
Defined.

(** X12: the merge never drops the fresh text: for every existing and
    fresh text, the result contains the fresh text as a contiguous part;
    this holds for request and for collection descriptions. *)
Theorem merge_contains_fresh_text (existing new : string) :
  (exists pre post, merge_request_descriptions existing new = pre +:+ new +:+ post)
  /\ (exists pre post, merge_descriptions existing new = pre +:+ new +:+ post).
Proof. split; apply merge_generated_contains_fresh. Qed.

(** X13: an existing text that does not contain both sentinel markers and
    carries no legacy fingerprint is never shortened or altered: for
    every fresh text, empty and identical ones included, the result
    starts with the whole existing text. *)
Theorem unmarked_text_is_kept_in_front (existing new : string) :
  (Py.contains request_start_marker existing
   && Py.contains request_end_marker existing = false ->
   legacy_request_text existing = false ->
   exists post, merge_request_descriptions existing new = existing +:+ post)
  /\ (Py.contains collection_start_marker existing
      && Py.contains collection_end_marker existing = false ->
      legacy_collection_text existing = false ->
      exists post, merge_descriptions existing new = existing +:+ post).
Proof. split; apply merge_generated_keeps_prefix. Qed.

Lemma unmarked_text_is_kept_in_front_witness :
  exists post,
    merge_request_descriptions
      ("Only the start marker: " +:+ request_start_marker) "NEWGEN"
    = ("Only the start marker: " +:+ request_start_marker) +:+ post.
Proof.
  apply (proj1 (unmarked_text_is_kept_in_front
                  ("Only the start marker: " +:+ request_start_marker) "NEWGEN"));
    reflexivity.
Defined.

(** X14: an existing text that has nothing but white space before its
    first start marker and after its first end marker is replaced as a
    whole: merged with any non-empty fresh text, the result is the
    fresh text alone. *)
Theorem generated_block_is_replaced (existing new b x y a : string) :
  Py.strip b = "" -> Py.strip a = "" -> new <> "" ->
  (Py.partition request_start_marker existing = Some (b, x) ->
   Py.partition request_end_marker existing = Some (y, a) ->
   merge_request_descriptions existing new = new)
  /\ (Py.partition collection_start_marker existing = Some (b, x) ->
      Py.partition collection_end_marker existing = Some (y, a) ->
      merge_descriptions existing new = new).
Proof.
  intros Hb Ha Hnew. split; intros Hpb Hpa.
  - now apply (merge_generated_replaces_block _ _ _ existing new b x y a).
  - now apply (merge_generated_replaces_block _ _ _ existing new b x y a).
Qed.

Lemma generated_block_is_replaced_witness :
  merge_request_descriptions
    (generate_request_documentation (simple_endpoint "GET" "/widgets"))
    (generate_request_documentation widgets_listing)
  = generate_request_documentation widgets_listing.
Proof.
  eapply (proj1 (generated_block_is_replaced
                   (generate_request_documentation (simple_endpoint "GET" "/widgets"))
                   (generate_request_documentation widgets_listing)
                   "" _ _ "" eq_refl eq_refl ltac:(discriminate)));
    vm_compute; reflexivity.
Defined.

(** *** White space *)

Lemma string_length_ind (P : string -> Prop) :
  (forall s, (forall t, (String.length t < String.length s)%nat -> P t) -> P s) ->
  forall s, P s.
Proof.
  intros Hstep s.
  assert (H : forall n t, (String.length t < n)%nat -> P t).
  { induction n as [|n IH]; intros t Ht; [lia|].
    apply Hstep. intros u Hu. apply IH. lia. }
  apply (H (S (String.length s))). lia.
Qed.

Lemma isspace_low (c : ascii) : Py.isspace c = true -> low_byte c = true.
Proof.
  unfold Py.isspace, low_byte. intros H. apply Nat.ltb_lt.
  apply orb_true_iff in H as [H|H]; apply andb_true_iff in H as [_ H];
    apply Nat.leb_le in H; lia.
Qed.

Lemma isspace2_high (c1 c2 : ascii) :
  Py.isspace2 c1 c2 = true -> low_byte c1 = false /\ low_byte c2 = false.
Proof.
  unfold Py.isspace2, low_byte. intros H.
  apply andb_true_iff in H as [H1 H2]. apply Nat.eqb_eq in H1.
  split; apply Nat.ltb_ge; [lia|].
  apply orb_true_iff in H2 as [H2|H2]; apply Nat.eqb_eq in H2; lia.
Qed.

Lemma isspace3_high (c1 c2 c3 : ascii) :
  Py.isspace3 c1 c2 c3 = true ->
  low_byte c1 = false /\ low_byte c2 = false /\ low_byte c3 = false.
Proof.
  unfold Py.isspace3, low_byte. intros H.
  repeat match type of H with
         | (_ || _) = true => apply orb_true_iff in H as [H|H]
         end;
    repeat match goal with
           | H : (_ && _) = true |- _ => apply andb_true_iff in H as [? ?]
           | H : (_ || _) = true |- _ => apply orb_true_iff in H as [H|H]
           | H : (_ =? _)%nat = true |- _ => apply Nat.eqb_eq in H
           | H : (_ <=? _)%nat = true |- _ => apply Nat.leb_le in H
           end;
    repeat split; apply Nat.ltb_ge; lia.
Qed.

Lemma isspace2_low_r (c1 c2 : ascii) : low_byte c2 = true -> Py.isspace2 c1 c2 = false.
Proof.
  intros H. destruct (Py.isspace2 c1 c2) eqn:E; [|reflexivity].
  apply isspace2_high in E as [_ E]. congruence.
Qed.

Lemma isspace3_low_m (c1 c2 c3 : ascii) :
  low_byte c2 = true -> Py.isspace3 c1 c2 c3 = false.
Proof.
  intros H. destruct (Py.isspace3 c1 c2 c3) eqn:E; [|reflexivity].
  apply isspace3_high in E as (_ & E & _). congruence.
Qed.

Lemma isspace3_low_r (c1 c2 c3 : ascii) :
  low_byte c3 = true -> Py.isspace3 c1 c2 c3 = false.
Proof.
  intros H. destruct (Py.isspace3 c1 c2 c3) eqn:E; [|reflexivity].
  apply isspace3_high in E as (_ & _ & E). congruence.
Qed.

(** [lstrip] cuts a prefix off *)
Lemma lstrip_suffix (s : string) : exists p, s = p +:+ Py.lstrip s.
Proof.
  induction s as [s IH] using string_length_ind.
  destruct s as [|c1 s1]; [now exists ""|]. cbn [Py.lstrip].
  destruct (Py.isspace c1).
  { destruct (IH s1) as [p Hp]; [simpl; lia|].
    exists (String c1 p). simpl. now rewrite <- Hp. }
  destruct s1 as [|c2 s2]; [now exists ""|].
  destruct (Py.isspace2 c1 c2).
  { destruct (IH s2) as [p Hp]; [simpl; lia|].
    exists (String c1 (String c2 p)). simpl. now rewrite <- Hp. }
  destruct s2 as [|c3 s3]; [now exists ""|].
  destruct (Py.isspace3 c1 c2 c3); [|now exists ""].
  destruct (IH s3) as [p Hp]; [simpl; lia|].
  exists (String c1 (String c2 (String c3 p))). simpl. now rewrite <- Hp.
Qed.

Lemma lstrip_length (s : string) : (String.length (Py.lstrip s) <= String.length s)%nat.
Proof.
  destruct (lstrip_suffix s) as [p Hp]. rewrite Hp at 2.
  rewrite length_append. lia.
Qed.

(** a text that [lstrip] leaves alone is one that begins with no white space *)
Lemma lstrip_fixed_iff (s : string) : Py.lstrip s = s <-> begins_with_space s = false.
Proof.
  destruct s as [|c1 s1]; [split; reflexivity|].
  cbn [Py.lstrip begins_with_space].
  destruct (Py.isspace c1); cbn [orb].
  { split; [|discriminate]. intros H. apply (f_equal String.length) in H.
    pose proof (lstrip_length s1). simpl in H. lia. }
  destruct s1 as [|c2 s2]; [split; reflexivity|].
  destruct (Py.isspace2 c1 c2); cbn [orb].
  { split; [|discriminate]. intros H. apply (f_equal String.length) in H.
    pose proof (lstrip_length s2). simpl in H. lia. }
  destruct s2 as [|c3 s3]; [split; reflexivity|].
  destruct (Py.isspace3 c1 c2 c3); [|split; reflexivity].
  split; [|discriminate]. intros H. apply (f_equal String.length) in H.
  pose proof (lstrip_length s3). simpl in H. lia.
Qed.

Lemma lstrip_begins (s : string) : begins_with_space (Py.lstrip s) = false.
Proof.
  induction s as [s IH] using string_length_ind.
  destruct s as [|c1 s1]; [reflexivity|]. cbn [Py.lstrip].
  destruct (Py.isspace c1) eqn:E1; [apply IH; simpl; lia|].
  destruct s1 as [|c2 s2]; [cbn; now rewrite E1|].
  destruct (Py.isspace2 c1 c2) eqn:E2; [apply IH; simpl; lia|].
  destruct s2 as [|c3 s3]; [cbn; now rewrite E1, E2|].
  destruct (Py.isspace3 c1 c2 c3) eqn:E3; [apply IH; simpl; lia|].
  cbn. now rewrite E1, E2, E3.
Qed.

(** the beginning of a text that begins with no white space does not
    begin with white space either *)
Lemma begins_with_space_prefix (p q : string) :
  begins_with_space (p +:+ q) = false -> begins_with_space p = false.
Proof.
  destruct p as [|c1 [|c2 [|c3 p]]]; cbn [String.append begins_with_space];
    intros H; try reflexivity.
  - apply orb_false_iff in H as [-> _]. reflexivity.
  - apply orb_false_iff in H as [-> H]. destruct q; cbn [orb].
    + exact H.
    + apply orb_false_iff in H as [-> _]. reflexivity.
  - exact H.
Qed.

(** behind a text that begins with no white space, an ASCII character
    does not make it begin with one *)
Lemma begins_with_space_append (e t : string) (c : ascii) :
  e <> "" -> low_byte c = true ->
  begins_with_space (e +:+ String c t) = begins_with_space e.
Proof.
  intros He Hc.
  destruct e as [|c1 [|c2 [|c3 e]]]; [congruence| | |reflexivity];
    cbn [String.append begins_with_space].
  - rewrite (isspace2_low_r c1 c Hc).
    destruct t; [reflexivity|]. now rewrite (isspace3_low_m c1 c _ Hc).
  - now rewrite (isspace3_low_r c1 c2 c Hc).
Qed.

Lemma lstrip_fixed_append (e t : string) (c : ascii) :
  e <> "" -> low_byte c = true -> Py.lstrip e = e ->
  Py.lstrip (e +:+ String c t) = e +:+ String c t.
Proof.
  intros He Hc H. apply lstrip_fixed_iff. rewrite begins_with_space_append by assumption.
  now apply lstrip_fixed_iff.
Qed.

(** white space in front of a text is cut off whatever follows it *)
Lemma lstrip_blank_append (p t : string) :
  Py.lstrip p = "" -> Py.lstrip (p +:+ t) = Py.lstrip t.
Proof.
  induction p as [p IH] using string_length_ind.
  destruct p as [|c1 s1]; [reflexivity|]. cbn [Py.lstrip String.append].
  destruct (Py.isspace c1); [intros H; apply IH; [simpl; lia | exact H]|].
  destruct s1 as [|c2 s2]; [discriminate|]. cbn [String.append].
  destruct (Py.isspace2 c1 c2); [intros H; apply IH; [simpl; lia | exact H]|].
  destruct s2 as [|c3 s3]; [discriminate|]. cbn [String.append].
  destruct (Py.isspace3 c1 c2 c3); [|discriminate].
  intros H; apply IH; [simpl; lia | exact H].
Qed.

(** ASCII text behind a text does not turn it into white space *)
Lemma lstrip_blank_prefix (p w : string) :
  Py.all_chars low_byte w = true ->
  Py.lstrip (p +:+ w) = "" -> Py.lstrip p = "".
Proof.
  intros Hw. induction p as [p IH] using string_length_ind.
  destruct p as [|c1 s1]; [reflexivity|]. cbn [Py.lstrip String.append].
  destruct (Py.isspace c1); [intros H; apply IH; [simpl; lia | exact H]|].
  destruct s1 as [|c2 s2]; cbn [String.append].
  { destruct w as [|c2 w2]; [discriminate|].
    cbn [Py.all_chars] in Hw. apply andb_true_iff in Hw as [Hc2 Hw2].
    rewrite (isspace2_low_r c1 c2 Hc2).
    destruct w2 as [|c3 w3]; [discriminate|].
    now rewrite (isspace3_low_m c1 c2 c3 Hc2). }
  destruct (Py.isspace2 c1 c2); [intros H; apply IH; [simpl; lia | exact H]|].
  destruct s2 as [|c3 s3]; cbn [String.append].
  { destruct w as [|c3 w3]; [discriminate|].
    cbn [Py.all_chars] in Hw. apply andb_true_iff in Hw as [Hc3 _].
    now rewrite (isspace3_low_r c1 c2 c3 Hc3). }
  destruct (Py.isspace3 c1 c2 c3); [|discriminate].
  intros H; apply IH; [simpl; lia | exact H].
Qed.

(** in a text that is all white space, every ASCII character is a blank *)
Lemma lstrip_blank_chars (s : string) :
  Py.lstrip s = "" ->
  Py.all_chars (fun c => negb (low_byte c) || Py.isspace c) s = true.
Proof.
  induction s as [s IH] using string_length_ind.
  destruct s as [|c1 s1]; [reflexivity|]. cbn [Py.lstrip Py.all_chars].
  destruct (Py.isspace c1) eqn:E1.
  { intros H. rewrite orb_true_r. apply IH; [simpl; lia | exact H]. }
  destruct s1 as [|c2 s2]; [discriminate|].
  destruct (Py.isspace2 c1 c2) eqn:E2.
  { intros H. apply isspace2_high in E2 as [-> H2]. cbn [Py.all_chars].
    rewrite H2. cbn [negb orb andb]. apply IH; [simpl; lia | exact H]. }
  destruct s2 as [|c3 s3]; [discriminate|].
  destruct (Py.isspace3 c1 c2 c3) eqn:E3; [|discriminate].
  intros H. apply isspace3_high in E3 as (-> & H2 & H3). cbn [Py.all_chars].
  rewrite H2, H3. cbn [negb orb andb]. apply IH; [simpl; lia | exact H].
Qed.

(** a text with an ASCII character that is no blank is not all white space *)
Lemma lstrip_solid (x y : string) (c : ascii) :
  low_byte c = true -> Py.isspace c = false -> Py.lstrip (x +:+ String c y) <> "".
Proof.
  intros Hlow Hsp H. apply lstrip_blank_chars in H.
  rewrite all_chars_append in H. apply andb_true_iff in H as [_ H].
  cbn [Py.all_chars] in H. now rewrite Hlow, Hsp in H.
Qed.

Lemma lstrip_of_blanks (w : string) :
  Py.all_chars Py.isspace w = true -> Py.lstrip w = "".
Proof.
  induction w as [|c w IH]; [reflexivity|]. cbn [Py.all_chars Py.lstrip].
  intros H. apply andb_true_iff in H as [-> H]. now apply IH.
Qed.

(** [rstrip] cuts white space off *)
Lemma rstrip_split (s : string) : exists q, s = Py.rstrip s +:+ q /\ Py.lstrip q = "".
Proof.
  induction s as [|c s IH]; [now exists ""|]. cbn [Py.rstrip].
  destruct (String.eqb_spec (Py.lstrip (String c s)) "") as [Hb|Hb].
  - now exists (String c s).
  - destruct IH as (q & Hq & Hblank). exists q. split; [|exact Hblank].
    simpl. now rewrite <- Hq.
Qed.

Lemma rstrip_blank (s : string) : Py.lstrip s = "" -> Py.rstrip s = "".
Proof.
  intros H. destruct s as [|c s]; [reflexivity|]. cbn [Py.rstrip]. now rewrite H.
Qed.

(** [rstrip] stops in front of a text that is never all white space *)
Lemma rstrip_append (a b : string) :
  (forall x, Py.lstrip (x +:+ b) <> "") -> Py.rstrip (a +:+ b) = a +:+ Py.rstrip b.
Proof.
  intros Hb. induction a as [|c a IH]; [reflexivity|].
  cbn [String.append Py.rstrip].
  destruct (String.eqb_spec (Py.lstrip (String c (a +:+ b))) "") as [Habs|_].
  - now apply (Hb (String c a)) in Habs.
  - now rewrite IH.
Qed.

(** ASCII blanks behind a text are cut off *)
Lemma rstrip_append_blanks (p w : string) :
  Py.all_chars Py.isspace w = true -> Py.rstrip (p +:+ w) = Py.rstrip p.
Proof.
  intros Hw.
  assert (Hlow : Py.all_chars low_byte w = true)
    by (eapply all_chars_impl; [apply isspace_low | exact Hw]).
  induction p as [|c p IH].
  - apply rstrip_blank. now apply lstrip_of_blanks.
  - cbn [String.append Py.rstrip]. rewrite IH.
    change (String c (p +:+ w)) with (String c p +:+ w).
    destruct (String.eqb_spec (Py.lstrip (String c p)) "") as [Hb|Hb].
    + rewrite (lstrip_blank_append _ w Hb), (lstrip_of_blanks w Hw). reflexivity.
    + destruct (String.eqb_spec (Py.lstrip (String c p +:+ w)) "") as [Habs|_];
        [|reflexivity].
      now apply (lstrip_blank_prefix _ w Hlow) in Habs.
Qed.

Lemma rstrip_rstrip (s : string) : Py.rstrip (Py.rstrip s) = Py.rstrip s.
Proof.
  induction s as [|c s IH]; [reflexivity|]. cbn [Py.rstrip].
  destruct (String.eqb_spec (Py.lstrip (String c s)) "") as [Hb|Hb]; [reflexivity|].
  cbn [Py.rstrip]. rewrite IH.
  destruct (String.eqb_spec (Py.lstrip (String c (Py.rstrip s))) "") as [Habs|_];
    [|reflexivity].
  exfalso. apply Hb. destruct (rstrip_split s) as (q & Hq & Hblank).
  rewrite Hq. change (String c (Py.rstrip s +:+ q)) with (String c (Py.rstrip s) +:+ q).
  now rewrite (lstrip_blank_append _ q Habs).
Qed.

Lemma lstrip_rstrip (s : string) :
  Py.lstrip s = s -> Py.lstrip (Py.rstrip s) = Py.rstrip s.
Proof.
  intros H. apply lstrip_fixed_iff. apply lstrip_fixed_iff in H.
  destruct (rstrip_split s) as (q & Hq & _). rewrite Hq in H.
  now apply begins_with_space_prefix in H.
Qed.

Lemma lstrip_lstrip (s : string) : Py.lstrip (Py.lstrip s) = Py.lstrip s.
Proof. apply lstrip_fixed_iff, lstrip_begins. Qed.

Lemma lstrip_strip (s : string) : Py.lstrip (Py.strip s) = Py.strip s.
Proof. unfold Py.strip. apply lstrip_rstrip, lstrip_lstrip. Qed.

Lemma rstrip_strip (s : string) : Py.rstrip (Py.strip s) = Py.strip s.
Proof. unfold Py.strip. apply rstrip_rstrip. Qed.

Lemma strip_strip (s : string) : Py.strip (Py.strip s) = Py.strip s.
Proof. unfold Py.strip at 1. now rewrite lstrip_strip, rstrip_strip. Qed.

(** a trimmed text followed by a blank line trims to itself *)
Lemma strip_blank_line_behind (s : string) :
  Py.strip s <> "" -> Py.strip (Py.strip s +:+ blank_line) = Py.strip s.
Proof.
  intros Hne. unfold Py.strip at 1.
  change blank_line with (String newline (String newline "")).
  rewrite lstrip_fixed_append; [|exact Hne|reflexivity|apply lstrip_strip].
  rewrite rstrip_append_blanks by reflexivity. apply rstrip_strip.
Qed.

(** and so does a trimmed text behind a blank line *)
Lemma strip_blank_line_before (s : string) :
  Py.strip (blank_line +:+ Py.strip s) = Py.strip s.
Proof.
  unfold Py.strip at 1.
  change (Py.lstrip (blank_line +:+ Py.strip s)) with (Py.lstrip (Py.strip s)).
  now rewrite lstrip_strip, rstrip_strip.
Qed.

Lemma prefix_append_r (sep a b : string) :
  String.prefix sep a = true -> String.prefix sep (a +:+ b) = true.
Proof.
  revert a. induction sep as [|x sep IH]; intros a H; [apply prefix_empty|].
  destruct a as [|y a]; [discriminate|]. cbn [String.append String.prefix] in *.
  destruct (ascii_dec x y); [now apply IH | discriminate].
Qed.

Lemma contains_append_r (sep a b : string) :
  Py.contains sep a = true -> Py.contains sep (a +:+ b) = true.
Proof.
  induction a as [|c a IH]; cbn [Py.contains String.append].
  - rewrite orb_false_r. intros H. apply contains_prefix.
    now apply (prefix_append_r sep "" b).
  - intros H. apply orb_true_iff in H as [H|H].
    + change (String c (a +:+ b)) with (String c a +:+ b).
      now rewrite (prefix_append_r _ _ b H).
    + rewrite (IH H). apply orb_true_r.
Qed.

(** what a trimmed text contains, the text contains *)
Lemma contains_strip (sep s : string) :
  Py.contains sep s = false -> Py.contains sep (Py.strip s) = false.
Proof.
  intros H. destruct (Py.contains sep (Py.strip s)) eqn:E; [|reflexivity].
  destruct (lstrip_suffix s) as [p Hp].
  destruct (rstrip_split (Py.lstrip s)) as (q & Hq & _).
  rewrite Hp, Hq in H. fold (Py.strip s) in H.
  now rewrite (contains_append_l sep p _ (contains_append_r sep _ q E)) in H.
Qed.

Section AppendIsStable.
Variables start_marker end_marker : string.
Variable looks_generated : string -> bool.
Hypothesis start_nonempty : start_marker <> "".
Hypothesis end_nonempty : end_marker <> "".
Hypothesis start_one_line : has_char newline start_marker = false.
Hypothesis end_one_line : has_char newline end_marker = false.
Hypothesis start_not_in_rule : Py.partition start_marker "---" = None.
Hypothesis end_not_in_rule : Py.partition end_marker "---" = None.

Local Abbreviation merge := (merge_generated start_marker end_marker looks_generated).

Lemma partition_of_nothing (sep : string) : sep <> "" -> Py.partition sep "" = None.
Proof. destruct sep; [congruence | reflexivity]. Qed.

(** a one-line separator is first found behind the rule, where the fresh
    text has it *)
Lemma partition_behind_rule (sep e fresh b x : string) :
  sep <> "" -> has_char newline sep = false -> Py.partition sep "---" = None ->
  Py.partition sep e = None ->
  Py.partition sep fresh = Some (b, x) ->
  Py.partition sep (e +:+ rule_separator +:+ fresh)
  = Some (e +:+ rule_separator +:+ b, x).
Proof.
  intros Hne Hnl Hrule He Hf.
  change (e +:+ rule_separator +:+ fresh)
    with (e +:+ String newline ("" +:+ String newline
            ("---" +:+ String newline ("" +:+ String newline fresh)))).
  rewrite (partition_append_char newline sep e _ Hnl), He.
  rewrite (partition_append_char newline sep "" _ Hnl), (partition_of_nothing sep Hne).
  rewrite (partition_append_char newline sep "---" _ Hnl), Hrule.
  rewrite (partition_append_char newline sep "" _ Hnl), (partition_of_nothing sep Hne).
  rewrite Hf. reflexivity.
Qed.

Lemma strip_before_rule (e : string) :
  e <> "" -> Py.lstrip e = e ->
  Py.strip (e +:+ rule_separator) = e +:+ nl +:+ nl +:+ "---".
Proof.
  intros Hne Hl. unfold Py.strip.
  change rule_separator with (String newline (nl +:+ "---" +:+ nl +:+ nl)).
  rewrite (lstrip_fixed_append e _ newline Hne eq_refl Hl).
  rewrite rstrip_append; [reflexivity|].
  intros x.
  replace (x +:+ String newline (nl +:+ "---" +:+ nl +:+ nl))
    with ((x +:+ blank_line) +:+ String "-" ("--" +:+ nl +:+ nl))
    by (now rewrite append_assoc).
  now apply lstrip_solid.
Qed.

Lemma merge_generated_append_stable (e fresh x y a : string) :
  e <> "" -> Py.lstrip e = e ->
  Py.contains start_marker e = false ->
  Py.contains end_marker e = false ->
  looks_generated e = false ->
  Py.partition start_marker fresh = Some ("", x) ->
  Py.partition end_marker fresh = Some (y, a) ->
  Py.strip a = "" ->
  merge e fresh = e +:+ rule_separator +:+ fresh
  /\ merge (e +:+ rule_separator +:+ fresh) fresh = e +:+ rule_separator +:+ fresh.
Proof.
  intros Hne Hl Hs He Hlg Hfs Hfe Ha.
  assert (Hfresh : fresh <> "").
  { intros ->. now rewrite (partition_of_nothing _ start_nonempty) in Hfs. }
  assert (Hdiff : e <> fresh).
  { intros ->. rewrite (partition_none _ _ Hs) in Hfs. discriminate. }
  split; [now apply merge_generated_unmarked|].
  set (d := e +:+ rule_separator +:+ fresh).
  assert (Hds : Py.partition start_marker d = Some (e +:+ rule_separator +:+ "", x))
    by (apply partition_behind_rule; auto using partition_none).
  assert (Hde : Py.partition end_marker d = Some (e +:+ rule_separator +:+ y, a))
    by (apply partition_behind_rule; auto using partition_none).
  assert (Hd : d <> fresh).
  { intros Heq. apply (f_equal String.length) in Heq. subst d.
    rewrite !length_append in Heq. destruct e; [congruence | simpl in Heq; lia]. }
  destruct (merge_generated_marked start_marker end_marker looks_generated d fresh)
    as (b' & x' & y' & a' & _ & Hb' & _ & Ha' & Hmerge); auto.
  - apply partition_contains; eauto.
  - apply partition_contains; eauto.
  - rewrite Hds in Hb'. rewrite Hde in Ha'.
    injection Hb' as <- <-. injection Ha' as <- <-.
    rewrite Hmerge, Ha.
    change (around (Py.strip (e +:+ rule_separator)) fresh "" = d).
    rewrite (strip_before_rule e Hne Hl).
    unfold around. subst d.
    destruct (String.eqb_spec (e +:+ nl +:+ nl +:+ "---") "") as [Habs|_].
    { destruct e; [congruence | discriminate]. }
    cbn [String.eqb]. rewrite append_empty_r.
    unfold rule_separator, blank_line. now rewrite !append_assoc.
Qed.

End AppendIsStable.

(** X15: appending is stable. When a hand-written request description
    (not empty, no leading white space, neither sentinel marker, no
    legacy fingerprint) is merged with a fresh text that starts with the
    start marker and has only white space after its first end marker,
    the result is the hand-written text, the rule and the fresh text,
    and merging the same fresh text into that result again changes
    nothing. *)
Theorem appended_description_is_stable (existing fresh x y a : string) :
  existing <> "" -> Py.lstrip existing = existing ->
  Py.contains request_start_marker existing = false ->
  Py.contains request_end_marker existing = false ->
  legacy_request_text existing = false ->
  Py.partition request_start_marker fresh = Some ("", x) ->
  Py.partition request_end_marker fresh = Some (y, a) ->
  Py.strip a = "" ->
  let merged := merge_request_descriptions existing fresh in
  merged = existing +:+ nl +:+ nl +:+ "---" +:+ nl +:+ nl +:+ fresh
  /\ merge_request_descriptions merged fresh = merged.
Proof.
  intros Hne Hl Hs He Hlg Hfs Hfe Ha merged.
  destruct (merge_generated_append_stable request_start_marker request_end_marker
              legacy_request_text ltac:(discriminate) ltac:(discriminate)
              eq_refl eq_refl eq_refl eq_refl existing fresh x y a)
    as [H1 H2]; auto.
  subst merged. unfold merge_request_descriptions. rewrite H1. split; [reflexivity|].
  exact H2.
Qed.

Lemma appended_description_is_stable_witness :
  let fresh := generate_request_documentation widgets_listing in
  let merged := merge_request_descriptions "Do not touch." fresh in
  merge_request_descriptions merged fresh = merged.
Proof.
  intros fresh merged.
  apply (proj2 (appended_description_is_stable "Do not touch." fresh
                  (Py.drop (String.length request_start_marker) fresh)
                  (Py.split_head request_end_marker fresh) ""
                  ltac:(discriminate) eq_refl eq_refl eq_refl eq_refl
                  eq_refl eq_refl eq_refl)).
Defined.

(** ** A second merge *)

Lemma partition_before_lacks (sep s b a : string) :
  sep <> "" -> Py.partition sep s = Some (b, a) -> Py.contains sep b = false.
Proof.
  intros Hne Hp. destruct (Py.contains sep b) eqn:Hc; [|reflexivity].
  apply partition_contains in Hc as (b1 & b2 & Hb). apply partition_sound in Hb.
  pose proof (partition_first _ _ _ _ Hp b1 (sep +:+ b2) Hb) as Hfirst.
  rewrite append_assoc, prefix_append in Hfirst.
  assert (sep +:+ b2 <> "") by (destruct sep; [congruence | discriminate]).
  now discriminate Hfirst.
Qed.

(** where a one-line separator is first found in a text rebuilt around a
    fresh block, when the manual text in front lacks it *)
Lemma partition_around (sep before fresh after b x : string) :
  sep <> "" -> has_char newline sep = false ->
  Py.contains sep before = false ->
  Py.partition sep fresh = Some (b, x) ->
  Py.partition sep (around before fresh after)
  = Some ((if String.eqb before "" then "" else before +:+ blank_line) +:+ b,
          x +:+ (if String.eqb after "" then "" else blank_line +:+ after)).
Proof.
  intros Hne Hnl Hbefore Hfresh. unfold around.
  set (tail := if String.eqb after "" then "" else blank_line +:+ after).
  assert (Hrest : Py.partition sep (fresh +:+ tail) = Some (b, x +:+ tail)).
  { subst tail. destruct (String.eqb after "").
    - now rewrite !append_empty_r.
    - change (blank_line +:+ after) with (String newline (String newline after)).
      now rewrite (partition_append_char newline sep fresh _ Hnl), Hfresh. }
  destruct (String.eqb before ""); [exact Hrest|].
  rewrite append_assoc.
  change (blank_line +:+ fresh +:+ tail)
    with (String newline ("" +:+ String newline (fresh +:+ tail))).
  rewrite (partition_append_char newline sep before _ Hnl),
    (partition_none _ _ Hbefore).
  rewrite (partition_append_char newline sep "" _ Hnl),
    (partition_of_nothing sep Hne), Hrest.
  rewrite append_assoc. reflexivity.
Qed.

Section MarkedIsStable.
Variables start_marker end_marker : string.
Variable looks_generated : string -> bool.
Hypothesis start_nonempty : start_marker <> "".
Hypothesis end_nonempty : end_marker <> "".
Hypothesis start_one_line : has_char newline start_marker = false.
Hypothesis end_one_line : has_char newline end_marker = false.

Local Abbreviation merge := (merge_generated start_marker end_marker looks_generated).

(** a text with both markers, no end marker in front of its first start
    marker, is rebuilt by the first merge into a text that a second
    merge with the same generated block rebuilds into itself *)
Lemma merge_generated_marked_stable (d fresh b x xf yf : string) :
  Py.partition start_marker d = Some (b, x) ->
  Py.contains end_marker b = false ->
  Py.contains end_marker d = true ->
  Py.partition start_marker fresh = Some ("", xf) ->
  Py.partition end_marker fresh = Some (yf, "") ->
  merge (merge d fresh) fresh = merge d fresh.
Proof.
  intros Hds Hbe Hde Hfs Hfe.
  destruct (string_dec d fresh) as [->|Hdiff]; [now rewrite !merge_generated_same|].
  assert (Hfresh : fresh <> "").
  { intros ->. now rewrite (partition_of_nothing _ start_nonempty) in Hfs. }
  destruct (merge_generated_marked start_marker end_marker looks_generated d fresh)
    as (b' & x' & y & a & _ & Hb' & _ & Ha & Hmerge); auto.
  { apply partition_contains; eauto. }
  rewrite Hds in Hb'. injection Hb' as <- <-.
  rewrite Hmerge.
  set (m := around (Py.strip b) fresh (Py.strip a)).
  destruct (string_dec m fresh) as [Heq|Hm]; [rewrite Heq; apply merge_generated_same|].
  assert (Hms : Py.partition start_marker m
                = Some ((if String.eqb (Py.strip b) "" then ""
                         else Py.strip b +:+ blank_line) +:+ "",
                        xf +:+ (if String.eqb (Py.strip a) "" then ""
                                else blank_line +:+ Py.strip a))).
  { apply partition_around; auto.
    apply contains_strip. now apply (partition_before_lacks _ d b x). }
  assert (Hme : Py.partition end_marker m
                = Some ((if String.eqb (Py.strip b) "" then ""
                         else Py.strip b +:+ blank_line) +:+ yf,
                        if String.eqb (Py.strip a) "" then ""
                        else blank_line +:+ Py.strip a)).
  { apply (partition_around end_marker (Py.strip b) fresh (Py.strip a) yf ""); auto.
    now apply contains_strip. }
  destruct (merge_generated_marked start_marker end_marker looks_generated m fresh)
    as (b2 & x2 & y2 & a2 & _ & Hb2 & _ & Ha2 & Hmerge2); auto.
  { apply partition_contains; eauto. }
  { apply partition_contains; eauto. }
  rewrite Hms in Hb2. rewrite Hme in Ha2.
  injection Hb2 as <- <-. injection Ha2 as <- <-.
  assert (Hbefore : Py.strip ((if String.eqb (Py.strip b) "" then ""
                               else Py.strip b +:+ blank_line) +:+ "") = Py.strip b).
  { rewrite append_empty_r.
    destruct (String.eqb_spec (Py.strip b) "") as [E|Hne]; [now rewrite E|].
    now apply strip_blank_line_behind. }
  assert (Hafter : Py.strip (if String.eqb (Py.strip a) "" then ""
                             else blank_line +:+ Py.strip a) = Py.strip a).
  { destruct (String.eqb_spec (Py.strip a) "") as [E|Hne]; [now rewrite E|].
    apply strip_blank_line_before. }
  rewrite Hmerge2, Hbefore. subst m. f_equal. exact Hafter.
Qed.

End MarkedIsStable.

(** a stored description of one of the shapes considered is brought by
    one merge into a text that a further merge with the same fresh
    description leaves alone *)
Lemma merge_request_settles (d fresh : string) :
  settled_shape d fresh ->
  merge_request_descriptions (merge_request_descriptions d fresh) fresh
  = merge_request_descriptions d fresh.
Proof.
  intros [H | [H | [H | [[Hm Hl] | [[[xf Hfs] [yf Hfe]] [Hw | Hmarked]]]]]];
    try (apply merge_at_rest_simple; tauto).
  - destruct (string_dec d "") as [Hd|Hd]; [apply merge_at_rest_simple; tauto|].
    destruct (string_dec fresh "") as [Hf|Hf]; [apply merge_at_rest_simple; tauto|].
    unfold merge_request_descriptions.
    rewrite (merge_generated_legacy _ _ _ d fresh Hd Hf Hm Hl).
    apply merge_generated_same.
  - destruct Hw as (Hne & Hlstrip & Hs & He & Hlg).
    destruct (merge_generated_append_stable request_start_marker request_end_marker
                legacy_request_text ltac:(discriminate) ltac:(discriminate)
                eq_refl eq_refl eq_refl eq_refl d fresh xf yf "")
      as [H1 H2]; auto.
    unfold merge_request_descriptions. now rewrite H1.
  - destruct Hmarked as (Hde & b & x & Hds & Hbe).
    now apply (merge_generated_marked_stable request_start_marker request_end_marker
                 legacy_request_text ltac:(discriminate) ltac:(discriminate)
                 eq_refl eq_refl d fresh b x xf yf).
Qed.

(** C8, amended: for a single-descriptor batch run with
    preserveExistingDocs=true, where the URL parser accepts the URLs at
    hand, the descriptor's normalised path is a slash followed by
    non-empty segments and carries no further format suffix (so that its
    key is found again, see C4), and the stored item with that key, if
    any, has a description of one of the shapes considered (none, the
    fresh one, a legacy block, or, against a freshly generated block that
    holds the end marker at its end only, a hand-written text without
    white space in front or a text with both markers in order): the
    first run returns an item collection on which the second run returns
    the same collection and reports zero new, zero updated and exactly
    one unchanged entry. *)
Theorem second_run_is_fixed_point
    (existing_items : list item) (e : endpoint) (include_documentation : bool) :
  let fresh := description_of (convert_endpoint_to_postman_item e include_documentation) in
  normalizes (Py.get (ep_path e) "") = true ->
  Forall (fun it => decodes it = true) existing_items ->
  canonical_path (endpoint_clean_path e) ->
  has_format_extension (endpoint_clean_path e) = false ->
  (forall old,
     last_existing (endpoint_key e) existing_items = Some old ->
     settled_shape (description_of old) fresh) ->
  exists items report,
    smart_update_postman_collection existing_items (batch [e])
      include_documentation true = Some (items, report)
    /\ smart_update_postman_collection items (batch [e]) include_documentation true
       = Some (items,
               {| new_endpoints := []; updated_endpoints := [];
                  unchanged_endpoints := [endpoint_name e] |}).
Proof.
  intros fresh _ _ Hcanon Hext Hshape. subst fresh.
  assert (Hkey : request_key
                   (request_of (convert_endpoint_to_postman_item e include_documentation))
                 = endpoint_key e).
  { unfold request_key, request_clean_path. cbn [request_of item_request Py.get req_url].
    unfold endpoint_key. f_equal. now apply clean_path_of_segments. }
  pose proof (existing_lookup_nodup existing_items) as Hnd.
  pose proof (existing_lookup_keys_agree existing_items) as Hag.
  unfold smart_update_postman_collection at 1.
  cbn [batch endpoints Py.get process_endpoints].
  destruct (process_endpoint_cases include_documentation true
              (existing_lookup_of existing_items) empty_report e)
    as [[Hnone Hp] | [(old & merged & Hget & Hm & Hd & Hp)
                     | (old & merged & Hget & Hm & Hd & Hp)]];
    rewrite Hp; do 2 eexists; (split; [reflexivity|]).
  - destruct (at_rest_is_stable e include_documentation
                (convert_endpoint_to_postman_item e include_documentation))
      as (c & Hc & Hdc); try reflexivity; [apply merge_same_at_rest|].
    eapply second_run_stable; eauto.
    + rewrite <- Hkey. now apply keys_agree_set.
    + now apply dict_set_nodup.
    + apply dict_get_set_eq.
  - destruct (candidate_shape e include_documentation old)
      as (c & Hc & Hreq & Hk & Hh & Hu & Hb & Hdesc).
    rewrite Hm in Hc. injection Hc as <-.
    destruct (at_rest_is_stable e include_documentation merged) as (c & Hc & Hdc);
      try assumption.
    { rewrite Hdesc.
      destruct (Py.truthy (description_of old) || Py.truthy _) eqn:Hb1;
        [|apply merge_same_at_rest].
      destruct (Py.truthy (merge_request_descriptions (description_of old) _)
                || Py.truthy _) eqn:Hb2.
      - apply merge_request_settles, Hshape. now rewrite <- existing_lookup_get.
      - apply orb_false_iff in Hb2 as [H1 H2].
        apply truthy_false_iff in H1, H2. congruence. }
    eapply second_run_stable; eauto.
    + destruct (item_request merged) as [r|] eqn:Hr; [|contradiction].
      assert (Hrk : request_key r = endpoint_key e).
      { rewrite <- Hkey, <- Hk. unfold request_of. now rewrite Hr. }
      rewrite <- Hrk. now apply keys_agree_set.
    + now apply dict_set_nodup.
    + apply dict_get_set_eq.
  - eapply second_run_stable; eauto.
Qed.

(** a hand-written note in front of an earlier block and a remark behind it *)
Lemma second_run_is_fixed_point_witness :
  let earlier := generate_request_documentation (simple_endpoint "GET" "/widgets.json") in
  let stored := stored_item "Widgets" "GET" "/widgets" ["widgets"]
                  (Some ("  Ask Dana first." +:+ nl +:+ earlier +:+ nl +:+ "Checked in May.")) in
  exists items report,
    smart_update_postman_collection [stored] (batch [widgets_listing]) true true
    = Some (items, report)
    /\ updated_endpoints report = ["GET /widgets"]
    /\ smart_update_postman_collection items (batch [widgets_listing]) true true
       = Some (items,
               {| new_endpoints := []; updated_endpoints := [];
                  unchanged_endpoints := ["GET /widgets"] |}).
Proof.
  intros earlier stored.
  destruct (second_run_is_fixed_point [stored] widgets_listing true)
    as (items & report & Hfirst & Hsecond).
  - reflexivity.
  - repeat constructor.
  - exists ["widgets"]. split; [|reflexivity]. repeat constructor; discriminate.
  - reflexivity.
  - intros old Hold. vm_compute in Hold. injection Hold as <-.
    right. right. right. right. split.
    + split; eexists; vm_compute; reflexivity.
    + right. split; [reflexivity|]. do 2 eexists. split; vm_compute; reflexivity.
  - exists items, report. split; [exact Hfirst|]. split; [|exact Hsecond].
    vm_compute in Hfirst. injection Hfirst as _ <-. reflexivity.
Defined.

(** ** More on the change detector *)

Lemma has_changes_or (existing new : item) :
  items_are_different existing new
  = headers_different (Py.get (req_header (request_of existing)) [])
                      (Py.get (req_header (request_of new)) [])
    || url_different (req_url (request_of existing)) (req_url (request_of new))
    || body_different (req_body (request_of existing)) (req_body (request_of new))
    || negb (String.eqb (description_of existing) (description_of new)).
Proof.
  unfold items_are_different, compare_postman_items, description_of.
  destruct (headers_different _ _), (url_different _ _), (body_different _ _),
           (negb (String.eqb _ _)); reflexivity.
Qed.

Lemma headers_different_sym (a b : list header) :
  headers_different a b = headers_different b a.
Proof.
  unfold headers_different. rewrite (Nat.eqb_sym (length a)).
  destruct (length b =? length a)%nat; simpl; [|reflexivity].
  f_equal. apply bool_decide_ext. split; congruence.
Qed.

Lemma url_different_sym (a b : option url_object) :
  url_different a b = url_different b a.
Proof.
  unfold url_different. rewrite (Nat.eqb_sym (length (query_of a))).
  destruct (length (query_of b) =? length (query_of a))%nat; simpl; [|reflexivity].
  f_equal. apply bool_decide_ext. split; congruence.
Qed.

Lemma body_different_sym (a b : option body) :
  body_different a b = body_different b a.
Proof.
  unfold body_different. rewrite (String.eqb_sym (mode_of a)).
  destruct (body_truthy a), (body_truthy b); reflexivity.
Qed.

(** X16: the change test does not depend on the direction of the
    comparison, and never reports a change between an item and itself:
    comparing the stored item with the candidate gives the same flag as
    comparing the candidate with the stored item. *)
Theorem change_test_is_symmetric (a b : item) :
  items_are_different a b = items_are_different b a
  /\ items_are_different a a = false.
Proof.
  split.
  - rewrite !has_changes_or.
    now rewrite headers_different_sym, url_different_sym, body_different_sym,
      (String.eqb_sym (description_of a)).
  - now apply same_axes_not_different.
Qed.

(** ** More on the reconciler *)









(** X19: with nothing to reconcile (no "endpoints" key, or an empty
    list), the items of a collection in which every item has a request,
    a URL the URL parser accepts and a key of its own are handed to the
    write-back exactly as they were fetched, in the same order, and
    nothing is reported. Without documentation the collection
    description is left as it is as well, so the collection is written
    back as fetched; with documentation (and no preservation) the
    description is replaced by the placeholder for an empty endpoint
    list. *)
Theorem empty_batch_writes_collection_back
    (existing_items : list item) (stored_description : option string)
    (data : endpoints_data) (now : string) (preserve_existing_docs : bool) :
  Py.get (endpoints data) [] = [] ->
  Forall (fun it => item_request it <> None) existing_items ->
  Forall (fun it => decodes it = true) existing_items ->
  NoDup (map stored_key existing_items) ->
  (forall include_documentation,
     smart_update_postman_collection existing_items data
       include_documentation preserve_existing_docs
     = Some (existing_items, empty_report))
  /\ updated_collection_description stored_description data now
       false preserve_existing_docs
     = stored_description
  /\ updated_collection_description stored_description data now true false
     = Some "API Documentation - No endpoints available".
Proof.
  intros Hempty Hreq _ Hnd. split; [|split].
  - intros include_documentation. unfold smart_update_postman_collection.
    rewrite Hempty, (existing_lookup_of_keyed _ Hreq Hnd). cbn [process_endpoints].
    unfold dict_values. rewrite map_map. simpl. now rewrite map_id.
  - reflexivity.
  - unfold updated_collection_description, generate_collection_description.
    now rewrite Hempty.
Qed.

Lemma empty_batch_writes_collection_back_witness :
  let items := [stored_item "Users" "GET" "/users" ["users"] (Some "Do not touch.");
                stored_item "Orders" "GET" "/orders" ["orders"] None] in
  smart_update_postman_collection items {| endpoints := None |} false true
  = Some (items, empty_report)
  /\ updated_collection_description (Some "Our API") {| endpoints := None |}
       "2024-01-01 00:00:00" false true
     = Some "Our API".
Proof.
  intros items.
  destruct (empty_batch_writes_collection_back items (Some "Our API")
              {| endpoints := None |} "2024-01-01 00:00:00" true)
    as (Hitems & Hdescription & _).
  - reflexivity.
  - repeat constructor; discriminate.
  - repeat constructor.
  - vm_compute. repeat constructor; rewrite ?list_elem_of_In; simpl; intuition discriminate.
  - split; [apply Hitems | exact Hdescription].
Defined.




(** ** Preview *)




(** With the default preservation the two can disagree: the preview
    compares the unmerged documentation. *)
Example preview_differs_from_default_update :
  let fresh := generate_request_documentation (simple_endpoint "GET" "/widgets") in
  let stored := stored_item "Widgets" "GET" "/widgets" ["widgets"]
                  (Some (merge_request_descriptions "Do not touch." fresh)) in
  let data := batch [simple_endpoint "GET" "/widgets"] in
  map fst (preview_updated (analyze_postman_changes [stored] data)) = ["GET /widgets"]
  /\ option_map (fun out => unchanged_endpoints (snd out))
       (smart_update_postman_collection [stored] data true true)
     = Some ["GET /widgets"].
Proof. split; vm_compute; reflexivity. Qed.

(** ** Status message and input checks *)

Lemma has_newline_after (a t : string) : has_char newline (a +:+ nl +:+ t) = true.
Proof. rewrite has_char_append. cbn. apply orb_true_r. Qed.

Lemma status_with_parts (part : string) (parts : list string) (tail : string) :
  Py.join nl (part :: parts) +:+ nl +:+ tail <> no_endpoints_message.
Proof.
  intros H. apply (f_equal (has_char newline)) in H.
  rewrite has_newline_after in H. discriminate.
Qed.

(** X22: the status message is the notice "No endpoints found in the
    provided data." exactly when nothing was reported and documentation
    is switched off; with documentation switched on the notice is never
    given, not even for an empty batch. *)
Theorem no_endpoints_notice_iff
    (report : change_report) (include_documentation preserve_existing_docs : bool)
    (collection_uid : string) :
  status_message report include_documentation preserve_existing_docs collection_uid
  = no_endpoints_message
  <-> reported report = [] /\ include_documentation = false.
Proof.
  unfold status_message, status_parts, reported.
  destruct report as [new updated unchanged]. cbn [new_endpoints updated_endpoints
    unchanged_endpoints].
  destruct new as [|n new]; cbn [nonempty app].
  2:{ split; [intros H; now apply status_with_parts in H | intros [H _]; discriminate]. }
  destruct updated as [|u updated]; cbn [nonempty app].
  2:{ split; [intros H; now apply status_with_parts in H | intros [H _]; discriminate]. }
  destruct unchanged as [|c unchanged]; cbn [nonempty app].
  2:{ split; [intros H; now apply status_with_parts in H | intros [H _]; discriminate]. }
  destruct include_documentation; cbn [nonempty app negb].
  - split; [intros H; now apply status_with_parts in H | intros [_ H]; discriminate].
  - split; auto.
Qed.

(** X23: the update and the preview make the same decision before they
    fetch anything: one proceeds exactly when the other does, with the
    same collection UID, API key and decoded data; and they proceed only
    with a non-empty UID and key, an argument that is absent or empty
    being replaced by the environment variable. *)
Theorem preflight_checks_agree
    (api_data : api_input) (collection_uid postman_api_key env_uid env_key : option string)
    (uid key : string) (data : endpoints_data) :
  (update_preflight api_data collection_uid postman_api_key env_uid env_key
   = Accepted uid key data
   <-> preview_preflight api_data collection_uid postman_api_key env_uid env_key
       = Accepted uid key data)
  /\ (update_preflight api_data collection_uid postman_api_key env_uid env_key
      = Accepted uid key data ->
      uid <> "" /\ key <> ""
      /\ credential collection_uid env_uid = Some uid
      /\ credential postman_api_key env_key = Some key
      /\ (api_data = ApiDict data \/ api_data = ApiJsonText data)).
Proof.
  unfold update_preflight, preview_preflight.
  destruct (credential collection_uid env_uid) as [[|c1 u]|],
           (credential postman_api_key env_key) as [[|c2 k]|],
           api_data; cbn;
    (split; [split; intros H; try discriminate; exact H
            | intros H; try discriminate; injection H as <- <- <-;
              repeat split; auto; discriminate]).
Qed.

Lemma preflight_checks_agree_witness :
  let api_data := ApiDict (batch [widgets_listing]) in
  credential (Some "") (Some "uid-from-env") = Some "uid-from-env"
  /\ credential (Some "key-argument") (Some "key-from-env") = Some "key-argument".
Proof.
  intros api_data.
  destruct (proj2 (preflight_checks_agree api_data (Some "") (Some "key-argument")
                     (Some "uid-from-env") (Some "key-from-env")
                     "uid-from-env" "key-argument" (batch [widgets_listing]))
              eq_refl) as (_ & _ & Huid & Hkey & _).
  split; assumption.
Defined.

(** ** Compact rendering *)

Lemma method_group_of_standard (method : string) (es : list endpoint) :
  In method standard_methods ->
  method_group method (List.filter has_standard_method es) = method_group method es.
Proof.
  intros Hin. unfold method_group.
  induction es as [|e es IH]; simpl; [reflexivity|].
  destruct (has_standard_method e) eqn:Hstd; simpl; [now rewrite IH|].
  destruct (String.eqb_spec (endpoint_method e) method) as [Heq|]; [|exact IH].
  exfalso. unfold has_standard_method in Hstd.
  assert (Htrue : existsb (String.eqb (endpoint_method e)) standard_methods = true).
  { apply existsb_exists. exists method. split; [exact Hin|].
    rewrite Heq. apply String.eqb_refl. }
  congruence.
Qed.

(** X24: the compact renderer lists only endpoints whose method is
    exactly GET, POST, PUT, PATCH or DELETE: endpoints with any other
    method (HEAD, OPTIONS, a lower-case "get") are left out without
    notice, so the document is the one rendered for the remaining
    endpoints. *)
Theorem compact_rendering_omits_other_methods (es : list endpoint) (now : string) :
  generate_compact_markdown es now
  = generate_compact_markdown (List.filter has_standard_method es) now.
Proof.
  unfold generate_compact_markdown, concat_map, compact_section.
  cbn [fold_left].
  rewrite !method_group_of_standard; [reflexivity | ..]; simpl; auto 10.
Qed.

(** ** Regeneration *)

Lemma partition_of_prefix (sep s : string) :
  String.prefix sep s = true ->
  Py.partition sep s = Some ("", Py.drop (String.length sep) s).
Proof. intros H. destruct s; cbn [Py.partition]; now rewrite H. Qed.

(** X25: a collection description written by an earlier run is replaced
    as a whole by the one generated now: when the stored description is
    a generated one (for a non-empty endpoint list) whose first end
    marker is the closing one, the update with documentation and
    preservation writes exactly the fresh description. *)
Theorem generated_collection_description_is_replaced
    (e : endpoint) (es : list endpoint) (earlier now : string)
    (data : endpoints_data) (y a : string) :
  let stored := generate_collection_description (batch (e :: es)) earlier in
  Py.partition collection_end_marker stored = Some (y, a) ->
  Py.strip a = "" ->
  updated_collection_description (Some stored) data now true true
  = Some (generate_collection_description data now).
Proof.
  intros stored Hend Ha. unfold updated_collection_description.
  cbn [Py.get andb].
  assert (Hstored : Py.truthy stored = true).
  { apply truthy_true_iff. subst stored. discriminate. }
  rewrite Hstored. f_equal. unfold merge_descriptions.
  apply (merge_generated_replaces_block _ _ _ stored _ ""
           (Py.drop (String.length collection_start_marker) stored) y a).
  - apply partition_of_prefix. apply prefix_append.
  - exact Hend.
  - reflexivity.
  - exact Ha.
  - unfold generate_collection_description.
    destruct (negb (nonempty (Py.get (endpoints data) []))); discriminate.
Qed.

Lemma generated_collection_description_is_replaced_witness :
  updated_collection_description
    (Some (generate_collection_description (batch [widgets_listing])
             "2024-01-01 00:00:00"))
    (batch [widgets_listing; simple_endpoint "POST" "/widgets"])
    "2024-06-30 12:00:00" true true
  = Some (generate_collection_description
            (batch [widgets_listing; simple_endpoint "POST" "/widgets"])
            "2024-06-30 12:00:00").
Proof.
  apply (generated_collection_description_is_replaced widgets_listing []
           "2024-01-01 00:00:00" "2024-06-30 12:00:00"
           (batch [widgets_listing; simple_endpoint "POST" "/widgets"])
           (Py.split_head collection_end_marker
              (generate_collection_description (batch [widgets_listing])
                 "2024-01-01 00:00:00")) "");
    reflexivity.
Defined.

(** ** Parameters the codec does not read *)

Lemma params_at_codec (loc : string) (ps : list parameter) :
  In loc ["query"; "body"; "header"; "form"] ->
  params_at loc (List.filter codec_location ps) = params_at loc ps.
Proof.
  intros Hin. unfold params_at.
  induction ps as [|p ps IH]; simpl; [reflexivity|].
  destruct (codec_location p) eqn:Hc; simpl; [now rewrite IH|].
  destruct (at_location loc p) eqn:Hl; [|exact IH].
  exfalso. unfold codec_location in Hc.
  simpl in Hin. destruct Hin as [<- | [<- | [<- | [<- | []]]]];
    rewrite Hl in Hc; simpl in Hc; try discriminate;
    rewrite ?orb_true_r in Hc; discriminate.
Qed.

(** X26: parameters whose location is not query, body, header or form
    (path parameters, unknown or missing locations) leave no trace in
    the request of the encoded item: without generated documentation the
    item is the one encoded for the descriptor without them, and with
    it only the description can differ. *)
Theorem other_parameters_leave_no_trace (e : endpoint) (include_documentation : bool) :
  let kept := List.filter codec_location (Py.get (ep_parameters e) []) in
  let it := convert_endpoint_to_postman_item e include_documentation in
  let it' := convert_endpoint_to_postman_item (with_parameters e kept)
               include_documentation in
  item_name it = item_name it'
  /\ req_method (request_of it) = req_method (request_of it')
  /\ req_header (request_of it) = req_header (request_of it')
  /\ req_url (request_of it) = req_url (request_of it')
  /\ req_body (request_of it) = req_body (request_of it')
  /\ (include_documentation = false -> it = it').
Proof.
  intros kept it it'. subst it it' kept.
  unfold convert_endpoint_to_postman_item.
  cbn [with_parameters ep_method ep_path ep_description ep_parameters Py.get
       item_name item_request request_of req_method req_header req_url req_body].
  rewrite !params_at_codec by (simpl; auto).
  repeat split. intros ->. reflexivity.
Qed.

Lemma other_parameters_leave_no_trace_witness :
  let path_id := {| param_name := Some "id"; param_type := Some "integer";
                    param_required := Some true; param_location := Some "path";
                    param_description := None; param_default := None |} in
  let e := with_parameters (simple_endpoint "GET" "/widgets/:id")
             [path_id; page_parameter] in
  convert_endpoint_to_postman_item e false
  = convert_endpoint_to_postman_item (with_parameters e [page_parameter]) false.
Proof.
  intros path_id e.
  apply (proj2 (proj2 (proj2 (proj2 (proj2
           (other_parameters_leave_no_trace e false)))))).
  reflexivity.
Defined.

(** ** JSON text *)

Lemma all_chars_join (f : ascii -> bool) (sep : string) (l : list string) :
  Py.all_chars f sep = true ->
  Forall (fun s => Py.all_chars f s = true) l ->
  Py.all_chars f (Py.join sep l) = true.
Proof.
  intros Hsep. induction 1 as [|x l Hx Hl IH]; [reflexivity|].
  unfold Py.join in *. destruct l as [|y l]; [exact Hx|].
  change (String.concat sep (x :: y :: l))
    with (x +:+ sep +:+ String.concat sep (y :: l)).
  now rewrite !all_chars_append, Hx, Hsep, IH.
Qed.

Lemma escape_char_printable (c : ascii) :
  Py.all_chars printable (Json.escape_char c) = true.
Proof. destruct c as [[] [] [] [] [] [] [] []]; reflexivity. Qed.

Lemma escape_printable (s : string) : Py.all_chars printable (Json.escape s) = true.
Proof.
  induction s as [|c s IH]; [reflexivity|].
  cbn [Json.escape]. now rewrite all_chars_append, escape_char_printable, IH.
Qed.

Lemma quote_printable (s : string) : Py.all_chars printable (Json.quote s) = true.
Proof.
  unfold Json.quote. now rewrite !all_chars_append, escape_printable.
Qed.

Lemma digits_printable (d : Decimal.uint) :
  Py.all_chars printable (NilEmpty.string_of_uint d) = true.
Proof. induction d; simpl; auto. Qed.

Lemma str_of_Z_printable (z : Z) : Py.all_chars printable (Py.str_of_Z z) = true.
Proof.
  unfold Py.str_of_Z, NilZero.string_of_int, NilZero.string_of_uint.
  destruct (Z.to_int z) as [d|d]; destruct d; simpl; auto using digits_printable.
Qed.

Lemma printable_is_allowed (s : string) :
  Py.all_chars printable s = true -> Py.all_chars printable_or_newline s = true.
Proof.
  apply all_chars_impl. intros c Hc. unfold printable_or_newline. now rewrite Hc.
Qed.

Lemma spaces_allowed (n : nat) : Py.all_chars printable_or_newline (Json.spaces n) = true.
Proof. induction n as [|n IH]; [reflexivity | exact IH]. Qed.

Lemma newline_indent_allowed (level : nat) :
  Py.all_chars printable_or_newline (Json.newline_indent level) = true.
Proof. unfold Json.newline_indent. now rewrite all_chars_append, spaces_allowed. Qed.

(** induction on JSON values, with the hypothesis for every element of
    an array and every member of an object *)
Lemma json_induction (P : json -> Prop) :
  P JNull -> (forall b, P (JBool b)) -> (forall z, P (JInt z)) ->
  (forall s, P (JStr s)) ->
  (forall items, Forall P items -> P (JArr items)) ->
  (forall members, Forall (fun kv => P (snd kv)) members -> P (JObj members)) ->
  forall j, P j.
Proof.
  intros Hnull Hbool Hint Hstr Harr Hobj.
  fix IH 1. intros [|b|z|s|items|members].
  - exact Hnull.
  - exact (Hbool b).
  - exact (Hint z).
  - exact (Hstr s).
  - apply Harr. revert items. fix aux 1. intros [|x l].
    + constructor.
    + constructor; [exact (IH x) | exact (aux l)].
  - apply Hobj. revert members. fix aux 1. intros [|kv l].
    + constructor.
    + constructor; [exact (IH (snd kv)) | exact (aux l)].
Qed.

Lemma dumps_at_allowed (j : json) :
  forall level : nat,
    Py.all_chars printable_or_newline (Json.dumps_at level j) = true.
Proof.
  induction j as [|b|z|s|items IH|members IH] using json_induction; intros level.
  - reflexivity.
  - destruct b; reflexivity.
  - apply printable_is_allowed, str_of_Z_printable.
  - apply printable_is_allowed, quote_printable.
  - destruct items as [|x items]; [reflexivity|].
    cbn [Json.dumps_at]. rewrite !all_chars_append, !newline_indent_allowed.
    rewrite all_chars_join; [reflexivity | now rewrite all_chars_append, newline_indent_allowed |].
    apply List.Forall_map. eapply List.Forall_impl; [|exact IH].
    intros y Hy. apply Hy.
  - destruct members as [|x members]; [reflexivity|].
    cbn [Json.dumps_at]. rewrite !all_chars_append, !newline_indent_allowed.
    rewrite all_chars_join; [reflexivity | now rewrite all_chars_append, newline_indent_allowed |].
    apply List.Forall_map. eapply List.Forall_impl; [|exact IH].
    intros [k v] Hv. cbn [fst snd] in *.
    rewrite !all_chars_append, (printable_is_allowed _ (quote_printable k)).
    now rewrite Hv.
Qed.

(** X27: the JSON text written for any value consists of printable ASCII
    characters and line breaks only: every other character of a string
    or key is escaped. This holds for the JSON rendering of the
    documentation generator and for the raw body of an encoded item. *)
Theorem json_text_is_ascii (j : json) (data : endpoints_data) (now : string)
    (body_params : list parameter) :
  Py.all_chars printable_or_newline (Json.dumps j) = true
  /\ Py.all_chars printable_or_newline
       (generate_api_documentation (ApiDict data) "json" "detailed" now) = true
  /\ Py.all_chars printable_or_newline
       (Json.dumps (JObj (body_object_of body_params))) = true.
Proof. repeat split; apply dumps_at_allowed. Qed.

(** ** The preview of a batch *)

Lemma analyze_fold_appends (lookup : list (string * item)) (es : list endpoint) :
  forall acc,
    preview_new (fold_left (analyze_endpoint lookup) es acc)
    = (preview_new acc
       ++ preview_new (fold_left (analyze_endpoint lookup) es empty_preview))%list
    /\ preview_updated (fold_left (analyze_endpoint lookup) es acc)
       = (preview_updated acc
          ++ preview_updated (fold_left (analyze_endpoint lookup) es empty_preview))%list
    /\ preview_unchanged (fold_left (analyze_endpoint lookup) es acc)
       = (preview_unchanged acc
          ++ preview_unchanged (fold_left (analyze_endpoint lookup) es empty_preview))%list
    /\ preview_documentation (fold_left (analyze_endpoint lookup) es acc)
       = preview_documentation acc.
Proof.
  induction es as [|e es IH]; intros acc.
  - simpl. rewrite !app_nil_r. auto.
  - cbn [fold_left].
    destruct (IH (analyze_endpoint lookup acc e)) as (Hn & Hu & Hc & Hd).
    destruct (IH (analyze_endpoint lookup empty_preview e)) as (Hn0 & Hu0 & Hc0 & _).
    rewrite Hn, Hu, Hc, Hd, Hn0, Hu0, Hc0.
    unfold analyze_endpoint.
    destruct (dict_get (endpoint_key e) lookup) as [old|]; [|simpl].
    + destruct (has_changes _); simpl; rewrite <- ?app_assoc; auto.
    + rewrite <- ?app_assoc; auto.
Qed.

(** X28: the preview judges every descriptor against the fetched
    collection alone: the preview of a batch is the preview of its first
    part followed by the preview of the rest, list by list, and the
    "documentation_changes" list stays empty. *)
Theorem preview_of_a_batch_is_compositional
    (existing_items : list item) (es1 es2 : list endpoint) :
  let whole := analyze_postman_changes existing_items (batch (es1 ++ es2)) in
  let first := analyze_postman_changes existing_items (batch es1) in
  let rest := analyze_postman_changes existing_items (batch es2) in
  preview_new whole = (preview_new first ++ preview_new rest)%list
  /\ preview_updated whole = (preview_updated first ++ preview_updated rest)%list
  /\ preview_unchanged whole = (preview_unchanged first ++ preview_unchanged rest)%list
  /\ preview_documentation whole = [].
Proof.
  unfold analyze_postman_changes. cbn [batch endpoints Py.get].
  rewrite fold_left_app.
  destruct (analyze_fold_appends (existing_lookup_of existing_items) es2
              (fold_left (analyze_endpoint (existing_lookup_of existing_items)) es1
                 empty_preview)) as (Hn & Hu & Hc & Hd).
  destruct (analyze_fold_appends (existing_lookup_of existing_items) es1 empty_preview)
    as (_ & _ & _ & Hd1).
  rewrite Hn, Hu, Hc, Hd, Hd1. auto.
Qed.

(** The update is not compositional in this way: a descriptor can change
    what a later descriptor with the same key is compared with. *)
Example update_of_a_batch_is_not_compositional :
  let e := simple_endpoint "GET" "/widgets" in
  option_map (fun out => new_endpoints (snd out))
    (smart_update_postman_collection [] (batch [e; e]) true true) = Some ["GET /widgets"]
  /\ preview_new (analyze_postman_changes [] (batch [e; e]))
     = ["GET /widgets"; "GET /widgets"].
Proof. split; reflexivity. Qed.
